(** * xray-dnstt-manager: a supervisor for DNSTT and SSH tunnels

    Shallow embedding of [health_checker.py], [xui_client.py] and
    [tunnel_manager.py], and the properties of the specification checked
    against it.

    Conventions of the embedding.
    - Python integers are [Z]; [range n] is the list [0; ...; n-1], empty
      when [n <= 0].
    - A Python [dict] keeps insertion order and the monitor loop iterates
      over it, so a dict is an association list with unique keys ([PyDict]).
    - Tunnel records are mutable objects reached through the dict; between
      two runs of [initialize_tunnels] the object stored under a key never
      changes, so a write through a local reference ([tunnel.state = ...])
      is a write to the record stored under that key.
    - Everything outside the process (child processes, sockets, the 3x-ui
      panel, the clock) is an oracle [Env] indexed by the number of
      interactions made so far; every interaction is appended to a trace.
      Exceptions raised by a library call are outcomes of the oracle; the
      [try]/[except] blocks of the source become case distinctions on them.
    - Logging is not modelled.  Sleeps are trace events, in milliseconds. *)

From Stdlib Require Import ZArith List Ascii String Bool Lia DecimalString FinFun.
Open Scope string_scope.
Import ListNotations.
Close Scope list_scope.
Open Scope list_scope.
Open Scope Z_scope.

Set Implicit Arguments.

(* ------------------------------------------------------------------ *)
(** * Python preliminaries *)

(** [str(n)] for an integer. *)
Definition str (n : Z) : string := NilZero.string_of_int (Z.to_int n).

(** [range(n)]. *)
Definition range (n : Z) : list Z := map Z.of_nat (seq 0 (Z.to_nat n)).

(** Truthiness of an optional string ([None] and the empty string are false). *)
Definition truthy (o : option string) : bool :=
  match o with
  | Some s => negb (String.eqb s EmptyString)
  | None => false
  end.

(** [a or b] on optional strings. *)
Definition py_or (a b : option string) : option string :=
  if truthy a then a else b.

(** [s.rstrip('/')]. *)
Fixpoint rstrip_slash (s : string) : string :=
  match s with
  | EmptyString => EmptyString
  | String c r =>
      match rstrip_slash r with
      | EmptyString => if Ascii.eqb c "/"%char then EmptyString else String c EmptyString
      | r' => String c r'
      end
  end.

(** Insertion-ordered dictionaries. *)
Module PyDict.
Section Dict.
Variables K V : Type.
Variable eqb : K -> K -> bool.

Definition t := list (K * V).

Definition empty : t := [].

Fixpoint get (d : t) (k : K) : option V :=
    match d with
    | [] => None
    | (k', v) :: r => if eqb k k' then Some v else get r k
    end.

  (** [d[k] = v]: overwrite in place, or append a new key. *)
Fixpoint set (d : t) (k : K) (v : V) : t :=
    match d with
    | [] => [(k, v)]
    | (k', v') :: r => if eqb k k' then (k, v) :: r else (k', v') :: set r k v
    end.

Definition mem (d : t) (k : K) : bool :=
    match get d k with Some _ => true | None => false end.

Definition keys (d : t) : list K := map fst d.

Definition items (d : t) : list (K * V) := d.

  (** Mutation of the object stored under [k] (nothing when absent). *)
Definition update (d : t) (k : K) (f : V -> V) : t :=
    match get d k with
    | Some v => set d k (f v)
    | None => d
    end.
End Dict.
End PyDict.

Definition key_eqb (a b : Z * Z) : bool :=
  (fst a =? fst b) && (snd a =? snd b).

(* ------------------------------------------------------------------ *)
(** * The environment *)

Inductive Signal := SIGTERM | SIGKILL.

Inductive http_method := POST | DELETE | GET.

(** JSON payload of a request, as far as the client builds it. *)
Inductive payload :=
| NoPayload
| LoginPayload (username password : string)
| OutboundPayload (address : string) (port : Z) (remark : string).

Record request := mkRequest {
  req_method : http_method;
  req_url : string;
  req_payload : payload;
  req_bearer : option string   (* Authorization header of the session *)
}.

(** The fields of a JSON answer that the client reads.  A document on which
    one of the client's accesses raises is no document ([None] below). *)
Record json_doc := mkJson {
  j_success : bool;              (* truthiness of data.get("success") *)
  j_token : option string;       (* data["token"] when "token" in data *)
  j_id : option string;          (* data.get("id") *)
  j_obj_id : option string;      (* data.get("obj", {}).get("id") *)
  j_outbounds : list string      (* what list_outbounds extracts *)
}.

Inductive http_result :=
| HttpRaises
| HttpResp (status : Z) (body : option json_doc) (session_cookie : bool).

(** Outcome of [requests.get] through a proxy. *)
Inductive proxy_result :=
| ProxyResponse (status : Z)
| ProxyError
| ConnectionError
| Timeout
| OtherException.

Record Env := mkEnv {
  env_popen : nat -> list string -> option Z;     (* pid; None: Popen raises *)
  env_poll : nat -> Z -> bool;                    (* poll() is not None *)
  env_pid_exists : nat -> Z -> option bool;       (* None: psutil raises *)
  env_killpg : nat -> Z -> Signal -> bool;        (* getpgid + killpg; false: raises *)
  env_wait : nat -> Z -> option Z -> bool;        (* false: TimeoutExpired *)
  env_connect : nat -> string -> Z -> Z -> option Z;  (* connect_ex; None: raises *)
  env_proxy_get : nat -> string -> string -> Z -> proxy_result;
  env_http : nat -> request -> http_result;
  env_time : nat -> Z
}.

Inductive event :=
| EvPopen (argv : list string) (r : option Z)
| EvPoll (pid : Z) (exited : bool)
| EvPidExists (pid : Z) (r : option bool)
| EvKillpg (pid : Z) (s : Signal) (ok : bool)
| EvWait (pid : Z) (timeout : option Z) (ok : bool)
| EvTerminate (pid : Z)
| EvKill (pid : Z)
| EvConnect (host : string) (port : Z) (timeout : Z) (r : option Z)
| EvProxyGet (url proxy : string) (timeout : Z) (r : proxy_result)
| EvHttp (rq : request) (r : http_result)
| EvTime (now : Z)
| EvSleep (ms : Z)
| EvWaitShutdown (seconds : Z).

(* ------------------------------------------------------------------ *)
(** * State and trace monad *)

Definition M (S A : Type) : Type := Env -> S * list event -> A * (S * list event).

Definition ret {S A} (a : A) : M S A := fun _ s => (a, s).

Definition bind {S A B} (m : M S A) (f : A -> M S B) : M S B :=
  fun env s => let '(a, s') := m env s in f a env s'.

Notation "x <- m ;; k" := (bind m (fun x => k))
  (at level 61, m at next level, right associativity).
Notation "m ;;; k" := (bind m (fun _ => k))
  (at level 61, right associativity).

Definition gets {S A} (f : S -> A) : M S A := fun _ s => (f (fst s), s).

Definition modify {S} (f : S -> S) : M S unit :=
  fun _ s => (tt, (f (fst s), snd s)).

(** One interaction with the environment: the oracle is asked at the
    current tick and the exchange is recorded. *)
Definition ask {S R} (q : Env -> nat -> R) (ev : R -> event) : M S R :=
  fun env s =>
    let r := q env (List.length (snd s)) in (r, (fst s, snd s ++ [ev r])).

Definition emit {S} (e : event) : M S unit :=
  fun _ s => (tt, (fst s, snd s ++ [e])).

Definition when {S} (b : bool) (m : M S unit) : M S unit :=
  if b then m else ret tt.

(** Run a computation on a component of the state. *)
Definition lift {S T A} (proj : T -> S) (inj : S -> T -> T) (m : M S A) : M T A :=
  fun env s =>
    let '(a, (c, tr)) := m env (proj (fst s), snd s) in (a, (inj c (fst s), tr)).

(** [time.sleep(seconds)] for a non-negative duration. *)
Definition sleep {S} (ms : Z) : M S unit := emit (EvSleep ms).

(* ------------------------------------------------------------------ *)
(** * health_checker.py *)

Module HealthChecker.
Section Checker.
Variable S : Type.
Variable timeout : Z.

  (** The whole body is one [try]; [connect_ex] gives an errno, and any
      exception of the socket calls gives [False]. *)
Definition is_port_listening (host : string) (port : Z) : M S bool :=
    r <- ask (fun env n => env_connect env n host port timeout)
             (EvConnect host port timeout) ;;
    match r with
    | Some result => ret (result =? 0)
    | None => ret false
    end.

Definition socks5_url (host : string) (port : Z) : string :=
    ("socks5://" ++ host ++ ":" ++ str port)%string.

Definition test_socks5_connectivity (host : string) (port : Z)
      (test_url : string) : M S bool :=
    r <- ask (fun env n => env_proxy_get env n test_url (socks5_url host port) timeout)
             (EvProxyGet test_url (socks5_url host port) timeout) ;;
    match r with
    | ProxyResponse _ => ret true
    | ProxyError => ret false
    | ConnectionError => ret false
    | Timeout => ret false
    | OtherException => ret false
    end.

Definition check_tunnel_health (host : string) (socks5_port : Z)
      (test_url : string) : M S bool :=
    l <- is_port_listening host socks5_port ;;
    if negb l then ret false
    else
      c <- test_socks5_connectivity host socks5_port test_url ;;
      if negb c then ret false else ret true.

Definition check_dnstt_port (host : string) (port : Z) : M S bool :=
    is_port_listening host port.
End Checker.
End HealthChecker.

Definition default_test_url : string := "http://www.google.com".

(* ------------------------------------------------------------------ *)
(** * xui_client.py *)

Module XUIClient.

Record t := mk {
  api_url : string;
  username : string;
  password : string;
  auth_token : option string;
  _authenticated : bool
}.

(** [XUIClient(api_url, username, password)]. *)
Definition init (url user pass : string) : t :=
  mk (rstrip_slash url) user pass None false.

Definition set_authenticated (b : bool) (c : t) : t :=
  mk (api_url c) (username c) (password c) (auth_token c) b.

Definition set_auth_token (tok : option string) (c : t) : t :=
  mk (api_url c) (username c) (password c) tok (_authenticated c).

Definition _get_url (c : t) (endpoint : string) : string :=
  (api_url c ++ endpoint)%string.

(** One request through [self.session]. *)
Definition send (meth : http_method) (endpoint : string) (p : payload)
  : M t http_result :=
  c <- gets (fun c => c) ;;
  ask (fun env n => env_http env n
         (mkRequest meth (_get_url c endpoint) p (auth_token c)))
      (EvHttp (mkRequest meth (_get_url c endpoint) p (auth_token c))).

Definition is_some {A} (o : option A) : bool :=
  match o with Some _ => true | None => false end.

Definition login : M t bool :=
  c <- gets (fun c => c) ;;
  r <- send POST "/login" (LoginPayload (username c) (password c)) ;;
  match r with
  | HttpRaises => ret false
  | HttpResp status body cookie =>
      if status =? 200 then
        match body with
        | None => ret false
        | Some data =>
            if j_success data || is_some (j_token data) || cookie then
              when (is_some (j_token data))
                   (modify (set_auth_token (j_token data))) ;;;
              modify (set_authenticated true) ;;;
              ret true
            else ret false
        end
      else ret false
  end.

Definition ensure_authenticated : M t bool :=
  a <- gets _authenticated ;;
  if negb a then login else ret true.

(** What one answer means to the loop over the endpoints. *)
Inductive verdict (R : Type) :=
| Done (r : R)          (* return r *)
| Unauthorized          (* status 401 *)
| NextEndpoint          (* fall through to the next endpoint *)
| BodyRaises.           (* response.json() or a field access raises *)
Arguments Unauthorized {R}.
Arguments NextEndpoint {R}.
Arguments BodyRaises {R}.

(** How one pass over the endpoints ends. *)
Inductive attempt (R : Type) :=
| Returned (r : R)
| LoopEnded             (* endpoints exhausted, or break *)
| Excepted.             (* an exception reached the except clause *)
Arguments LoopEnded {R}.
Arguments Excepted {R}.

Section Loops.
Variable R : Type.
Variable meth : http_method.
Variable pl : payload.
Variable classify : Z -> option json_doc -> verdict R.

  (** [for endpoint in endpoints: ...] inside the [try]. *)
Fixpoint try_endpoints (endpoints : list string) : M t (attempt R) :=
    match endpoints with
    | [] => ret LoopEnded
    | endpoint :: rest =>
        r <- send meth endpoint pl ;;
        match r with
        | HttpRaises => ret Excepted
        | HttpResp status body _ =>
            match classify status body with
            | Done v => ret (Returned v)
            | BodyRaises => ret Excepted
            | Unauthorized =>
                modify (set_authenticated false) ;;;
                ok <- ensure_authenticated ;;
                if negb ok then ret LoopEnded else try_endpoints rest
            | NextEndpoint => try_endpoints rest
            end
        end
    end.

  (** [for attempt in range(retry_count): try: ... except: ...], followed by
      the failure return. *)
Fixpoint attempts (retry_count : Z) (failure : R) (endpoints : list string)
      (todo : list Z) : M t R :=
    match todo with
    | [] => ret failure
    | n :: rest =>
        o <- try_endpoints endpoints ;;
        match o with
        | Returned v => ret v
        | LoopEnded | Excepted =>
            when (n <? retry_count - 1) (sleep 1000) ;;;
            attempts retry_count failure endpoints rest
        end
    end.

Definition with_retries (retry_count : Z) (failure : R)
      (endpoints : list string) : M t R :=
    ok <- ensure_authenticated ;;
    if negb ok then ret failure
    else attempts retry_count failure endpoints (range retry_count).
End Loops.

Definition add_endpoints : list string :=
  ["/xui/API/outbounds/add"; "/xui/API/inbounds/add"; "/API/outbounds/add"].

Definition outbound_remark (host : string) (port : Z) (remark : string) : string :=
  (remark ++ "-" ++ host ++ ":" ++ str port)%string.

Definition classify_add (port : Z) (status : Z) (body : option json_doc)
  : verdict (option string) :=
  if (status =? 200) || (status =? 201) then
    match body with
    | None => BodyRaises
    | Some data =>
        Done (py_or (j_id data) (py_or (j_obj_id data) (Some (str port))))
    end
  else if status =? 401 then Unauthorized
  else NextEndpoint.

Definition add_socks5_outbound (host : string) (port : Z) (remark : string)
    (retry_count : Z) : M t (option string) :=
  with_retries POST
    (OutboundPayload host port (outbound_remark host port remark))
    (classify_add port) retry_count None add_endpoints.

Definition remove_endpoints (outbound_id : string) : list string :=
  [("/xui/API/outbounds/" ++ outbound_id)%string;
   ("/xui/API/inbounds/" ++ outbound_id)%string;
   ("/API/outbounds/" ++ outbound_id)%string].

Definition classify_remove (status : Z) (body : option json_doc) : verdict bool :=
  if (status =? 200) || (status =? 204) then Done true
  else if status =? 404 then Done true
  else if status =? 401 then Unauthorized
  else NextEndpoint.

Definition remove_outbound (outbound_id : string) (retry_count : Z) : M t bool :=
  with_retries DELETE NoPayload classify_remove retry_count false
    (remove_endpoints outbound_id).

Definition reload_endpoints : list string :=
  ["/xui/API/setting/updateXrayConfig"; "/xui/API/setting/reload"; "/API/reload"].

Definition classify_reload (status : Z) (body : option json_doc) : verdict bool :=
  if (status =? 200) || (status =? 204) then Done true
  else if status =? 401 then Unauthorized
  else NextEndpoint.

Definition reload_xray (retry_count : Z) : M t bool :=
  with_retries POST NoPayload classify_reload retry_count false reload_endpoints.

Definition list_endpoints : list string :=
  ["/xui/API/outbounds"; "/xui/API/inbounds"; "/API/outbounds"].

Definition classify_list (status : Z) (body : option json_doc)
  : verdict (list string) :=
  if status =? 200 then
    match body with
    | None => BodyRaises
    | Some data => Done (j_outbounds data)
    end
  else NextEndpoint.

(** No retry loop and no 401 branch here: one [try] around one pass. *)
Definition list_outbounds : M t (option (list string)) :=
  ok <- ensure_authenticated ;;
  if negb ok then ret None
  else
    o <- try_endpoints GET NoPayload classify_list list_endpoints ;;
    match o with
    | Returned v => ret (Some v)
    | LoopEnded | Excepted => ret None
    end.

End XUIClient.

(* ------------------------------------------------------------------ *)
(** * tunnel_manager.py: the records *)

Inductive TunnelState := STARTING | RUNNING | FAILED | STOPPING | STOPPED.

Definition state_eqb (a b : TunnelState) : bool :=
  match a, b with
  | STARTING, STARTING | RUNNING, RUNNING | FAILED, FAILED
  | STOPPING, STOPPING | STOPPED, STOPPED => true
  | _, _ => false
  end.

(** [psutil.pid_exists(pid)] under the [try] of [is_alive]. *)
Definition pid_alive {S} (pid : option Z) : M S bool :=
  match pid with
  | None => ret false
  | Some p =>
      r <- ask (fun env n => env_pid_exists env n p) (EvPidExists p) ;;
      match r with
      | Some b => ret b
      | None => ret false
      end
  end.

Module DNSTTTunnel.
Record t := mk {
  tunnel_id : Z;
  local_port : Z;
  process : option Z;       (* the Popen handle, named by its pid *)
  pid : option Z;
  state : TunnelState;
  restart_count : Z;
  last_check : Z
}.

(** [DNSTTTunnel(tunnel_id=..., local_port=..., state=...)]. *)
Definition new (tid port : Z) (st : TunnelState) : t :=
  mk tid port None None st 0 0.

Definition set_state (s : TunnelState) (r : t) : t :=
  mk (tunnel_id r) (local_port r) (process r) (pid r) s (restart_count r) (last_check r).
Definition set_process (p : option Z) (r : t) : t :=
  mk (tunnel_id r) (local_port r) p (pid r) (state r) (restart_count r) (last_check r).
Definition set_pid (p : option Z) (r : t) : t :=
  mk (tunnel_id r) (local_port r) (process r) p (state r) (restart_count r) (last_check r).
Definition set_restart_count (n : Z) (r : t) : t :=
  mk (tunnel_id r) (local_port r) (process r) (pid r) (state r) n (last_check r).
Definition set_last_check (n : Z) (r : t) : t :=
  mk (tunnel_id r) (local_port r) (process r) (pid r) (state r) (restart_count r) n.

Definition is_alive {S} (r : t) : M S bool := pid_alive (pid r).
End DNSTTTunnel.

Module SSHTunnel.
Record t := mk {
  tunnel_id : Z;
  ssh_id : Z;
  socks5_port : Z;
  process : option Z;
  pid : option Z;
  state : TunnelState;
  restart_count : Z;
  last_check : Z;
  xui_outbound_id : option string
}.

(** [SSHTunnel(tunnel_id=..., ssh_id=..., socks5_port=..., state=...)]. *)
Definition new (tid sid port : Z) (st : TunnelState) : t :=
  mk tid sid port None None st 0 0 None.

Definition set_state (s : TunnelState) (r : t) : t :=
  mk (tunnel_id r) (ssh_id r) (socks5_port r) (process r) (pid r) s
     (restart_count r) (last_check r) (xui_outbound_id r).
Definition set_process (p : option Z) (r : t) : t :=
  mk (tunnel_id r) (ssh_id r) (socks5_port r) p (pid r) (state r)
     (restart_count r) (last_check r) (xui_outbound_id r).
Definition set_pid (p : option Z) (r : t) : t :=
  mk (tunnel_id r) (ssh_id r) (socks5_port r) (process r) p (state r)
     (restart_count r) (last_check r) (xui_outbound_id r).
Definition set_restart_count (n : Z) (r : t) : t :=
  mk (tunnel_id r) (ssh_id r) (socks5_port r) (process r) (pid r) (state r)
     n (last_check r) (xui_outbound_id r).
Definition set_last_check (n : Z) (r : t) : t :=
  mk (tunnel_id r) (ssh_id r) (socks5_port r) (process r) (pid r) (state r)
     (restart_count r) n (xui_outbound_id r).
Definition set_xui_outbound_id (o : option string) (r : t) : t :=
  mk (tunnel_id r) (ssh_id r) (socks5_port r) (process r) (pid r) (state r)
     (restart_count r) (last_check r) o.

Definition is_alive {S} (r : t) : M S bool := pid_alive (pid r).
End SSHTunnel.

(** The values [TunnelManager.__init__] reads from the configuration. *)
Record Config := mkConfig {
  dnstt_path : string;
  dnstt_remote_ip : string;
  dnstt_port : Z;
  dnstt_domain : string;
  dnstt_pubkey : string;
  ssh_user : string;
  ssh_key_path : string;
  ssh_server : string;
  dnstt_count : Z;
  ssh_per_dnstt : Z;
  dnstt_start_port : Z;
  socks_start_port : Z;
  socks_ports_per_tunnel : Z;
  health_interval : Z;
  health_timeout : Z;
  health_retry_count : Z;
  max_retries : Z;
  backoff_seconds : Z;
  xui_api_url : string;
  xui_username : string;
  xui_password : string
}.

(* ------------------------------------------------------------------ *)
(** * tunnel_manager.py: the manager *)

(** [for x in l: body(x)]. *)
Fixpoint for_each {S A} (l : list A) (body : A -> M S unit) : M S unit :=
  match l with
  | [] => ret tt
  | x :: rest => body x ;;; for_each rest body
  end.

(** The same loop when the body may let an exception escape ([false]):
    the loop is left at once. *)
Fixpoint for_each_ok {S A} (l : list A) (body : A -> M S bool) : M S bool :=
  match l with
  | [] => ret true
  | x :: rest => ok <- body x ;; if ok then for_each_ok rest body else ret false
  end.

Module TunnelManager.

Record t := mk {
  config : Config;
  running : bool;
  _shutdown_event : bool;
  xui_client : XUIClient.t;
  dnstt_tunnels : PyDict.t Z DNSTTTunnel.t;
  ssh_tunnels : PyDict.t (Z * Z) SSHTunnel.t
}.

(** [TunnelManager(config)]. *)
Definition init (c : Config) : t :=
  mk c false false
     (XUIClient.init (xui_api_url c) (xui_username c) (xui_password c))
     (PyDict.empty _ _) (PyDict.empty _ _).

Definition set_running (b : bool) (m : t) : t :=
  mk (config m) b (_shutdown_event m) (xui_client m) (dnstt_tunnels m) (ssh_tunnels m).
Definition set_shutdown_event (b : bool) (m : t) : t :=
  mk (config m) (running m) b (xui_client m) (dnstt_tunnels m) (ssh_tunnels m).
Definition set_xui_client (c : XUIClient.t) (m : t) : t :=
  mk (config m) (running m) (_shutdown_event m) c (dnstt_tunnels m) (ssh_tunnels m).
Definition set_dnstt_tunnels (d : PyDict.t Z DNSTTTunnel.t) (m : t) : t :=
  mk (config m) (running m) (_shutdown_event m) (xui_client m) d (ssh_tunnels m).
Definition set_ssh_tunnels (d : PyDict.t (Z * Z) SSHTunnel.t) (m : t) : t :=
  mk (config m) (running m) (_shutdown_event m) (xui_client m) (dnstt_tunnels m) d.

Definition get_dnstt (m : t) (tid : Z) : option DNSTTTunnel.t :=
  PyDict.get Z.eqb (dnstt_tunnels m) tid.
Definition get_ssh (m : t) (key : Z * Z) : option SSHTunnel.t :=
  PyDict.get key_eqb (ssh_tunnels m) key.

(** Writes to the record stored under a key. *)
Definition update_dnstt (tid : Z) (f : DNSTTTunnel.t -> DNSTTTunnel.t) (m : t) : t :=
  set_dnstt_tunnels (PyDict.update Z.eqb (dnstt_tunnels m) tid f) m.
Definition update_ssh (key : Z * Z) (f : SSHTunnel.t -> SSHTunnel.t) (m : t) : t :=
  set_ssh_tunnels (PyDict.update key_eqb (ssh_tunnels m) key f) m.

(** Calls on [self.xui_client]. *)
Definition xui {A} (c : M XUIClient.t A) : M t A := lift xui_client set_xui_client c.

Definition localhost : string := "127.0.0.1".

Definition is_port_listening (port : Z) : M t bool :=
  c <- gets config ;;
  HealthChecker.is_port_listening (health_timeout c) localhost port.

Definition check_dnstt_port (port : Z) : M t bool :=
  c <- gets config ;;
  HealthChecker.check_dnstt_port (health_timeout c) localhost port.

Definition check_tunnel_health (port : Z) : M t bool :=
  c <- gets config ;;
  HealthChecker.check_tunnel_health (health_timeout c) localhost port default_test_url.

Definition dnstt_cmd (c : Config) (local_port : Z) : list string :=
  [dnstt_path c;
   "-udp"; (dnstt_remote_ip c ++ ":" ++ str (dnstt_port c))%string;
   "-pubkey"; dnstt_pubkey c;
   dnstt_domain c;
   ("127.0.0.1:" ++ str local_port)%string].

Definition ssh_cmd (c : Config) (dnstt_port socks5_port : Z) : list string :=
  ["ssh";
   "-i"; ssh_key_path c;
   "-N";
   (ssh_user c ++ "@" ++ ssh_server c)%string;
   "-p"; str dnstt_port;
   "-D"; str socks5_port;
   "-o"; "ServerAliveInterval=60";
   "-o"; "StrictHostKeyChecking=no";
   "-o"; "BatchMode=yes";
   "-o"; "UserKnownHostsFile=/dev/null"].

(** [for _ in range(5): time.sleep(1); if check(): break] and its [else]:
    [true] when the loop was left by [break]. *)
Fixpoint wait_for_port (check : M t bool) (n : nat) : M t bool :=
  match n with
  | O => ret false
  | S n' =>
      sleep 1000 ;;;
      l <- check ;;
      if l then ret true else wait_for_port check n'
  end.

(** [process.terminate()], [wait(timeout=5)], [kill()] on a child that
    never opened its port. *)
Definition abandon_child (p : Z) : M t unit :=
  emit (EvTerminate p) ;;;
  w <- ask (fun env n => env_wait env n p (Some 5)) (EvWait p (Some 5)) ;;
  when (negb w) (emit (EvKill p)).

(** Spawn, settle and poll: the pid of a child that is up, if any. *)
Definition launch (cmd : list string) (check : M t bool) : M t (option Z) :=
  r <- ask (fun env n => env_popen env n cmd) (EvPopen cmd) ;;
  match r with
  | None => ret None
  | Some p =>
      sleep 2000 ;;;
      exited <- ask (fun env n => env_poll env n p) (EvPoll p) ;;
      if exited then ret None
      else
        l <- check ;;
        ready <- (if l then ret true else wait_for_port check 5) ;;
        if ready then ret (Some p)
        else abandon_child p ;;; ret None
  end.

Definition now : M t Z := ask (fun env n => env_time env n) EvTime.

Definition dnstt_started (p now : Z) (r : DNSTTTunnel.t) : DNSTTTunnel.t :=
  DNSTTTunnel.set_last_check now
    (DNSTTTunnel.set_state RUNNING
       (DNSTTTunnel.set_pid (Some p) (DNSTTTunnel.set_process (Some p) r))).

Definition start_dnstt_tunnel (tunnel_id local_port : Z) : M t bool :=
  c <- gets config ;;
  l <- launch (dnstt_cmd c local_port) (check_dnstt_port local_port) ;;
  match l with
  | None => ret false
  | Some p =>
      tunnel <- gets (fun m => get_dnstt m tunnel_id) ;;
      match tunnel with
      | Some _ =>
          n <- now ;;
          modify (update_dnstt tunnel_id (dnstt_started p n))
      | None => ret tt
      end ;;;
      ret true
  end.

(** The kill sequence of the stop operations, under their [try]. *)
Definition terminate_group (p : Z) : M t unit :=
  e <- ask (fun env n => env_pid_exists env n p) (EvPidExists p) ;;
  match e with
  | Some true =>
      k <- ask (fun env n => env_killpg env n p SIGTERM) (EvKillpg p SIGTERM) ;;
      if k then
        w <- ask (fun env n => env_wait env n p (Some 5)) (EvWait p (Some 5)) ;;
        if w then ret tt
        else
          e2 <- ask (fun env n => env_pid_exists env n p) (EvPidExists p) ;;
          match e2 with
          | Some true =>
              k2 <- ask (fun env n => env_killpg env n p SIGKILL) (EvKillpg p SIGKILL) ;;
              if k2 then
                ask (fun env n => env_wait env n p None) (EvWait p None) ;;; ret tt
              else ret tt
          | _ => ret tt
          end
      else ret tt
  | _ => ret tt
  end.

(** [if tunnel.process and tunnel.pid: ...]. *)
Definition stop_process (process pid : option Z) : M t unit :=
  match process, pid with
  | Some _, Some p => if p =? 0 then ret tt else terminate_group p
  | _, _ => ret tt
  end.

Definition ssh_stopped (r : SSHTunnel.t) : SSHTunnel.t :=
  SSHTunnel.set_xui_outbound_id None
    (SSHTunnel.set_pid None
       (SSHTunnel.set_process None (SSHTunnel.set_state STOPPED r))).

Definition stop_ssh_tunnel (tunnel_id ssh_id : Z) : M t bool :=
  let key := (tunnel_id, ssh_id) in
  present <- gets (fun m => get_ssh m key) ;;
  match present with
  | None => ret true
  | Some _ =>
      modify (update_ssh key (SSHTunnel.set_state STOPPING)) ;;;
      ssh_tunnel <- gets (fun m => get_ssh m key) ;;
      match ssh_tunnel with
      | None => ret tt
      | Some r =>
          match SSHTunnel.xui_outbound_id r with
          | Some oid =>
              if truthy (Some oid) then
                xui (XUIClient.remove_outbound oid 3) ;;;
                xui (XUIClient.reload_xray 3) ;;;
                ret tt
              else ret tt
          | None => ret tt
          end ;;;
          stop_process (SSHTunnel.process r) (SSHTunnel.pid r)
      end ;;;
      modify (update_ssh key ssh_stopped) ;;;
      ret true
  end.

Definition dnstt_stopped (r : DNSTTTunnel.t) : DNSTTTunnel.t :=
  DNSTTTunnel.set_pid None
    (DNSTTTunnel.set_process None (DNSTTTunnel.set_state STOPPED r)).

Definition children_of (tunnel_id : Z) (m : t) : list SSHTunnel.t :=
  map snd (filter (fun kv => fst (fst kv) =? tunnel_id)
                  (PyDict.items (ssh_tunnels m))).

Definition stop_dnstt_tunnel (tunnel_id : Z) : M t bool :=
  present <- gets (fun m => get_dnstt m tunnel_id) ;;
  match present with
  | None => ret true
  | Some _ =>
      modify (update_dnstt tunnel_id (DNSTTTunnel.set_state STOPPING)) ;;;
      ssh_tunnels_to_stop <- gets (children_of tunnel_id) ;;
      for_each ssh_tunnels_to_stop
        (fun ssh_tunnel =>
           stop_ssh_tunnel tunnel_id (SSHTunnel.ssh_id ssh_tunnel) ;;; ret tt) ;;;
      tunnel <- gets (fun m => get_dnstt m tunnel_id) ;;
      match tunnel with
      | Some r => stop_process (DNSTTTunnel.process r) (DNSTTTunnel.pid r)
      | None => ret tt
      end ;;;
      modify (update_dnstt tunnel_id dnstt_stopped) ;;;
      ret true
  end.

Definition ssh_remark (tunnel_id ssh_id : Z) : string :=
  ("DNSTT-" ++ str tunnel_id ++ "-SSH-" ++ str ssh_id)%string.

Definition ssh_started (p now : Z) (oid : option string) (r : SSHTunnel.t)
  : SSHTunnel.t :=
  SSHTunnel.set_xui_outbound_id oid
    (SSHTunnel.set_last_check now
       (SSHTunnel.set_state RUNNING
          (SSHTunnel.set_pid (Some p) (SSHTunnel.set_process (Some p) r)))).

Definition start_ssh_tunnel (tunnel_id ssh_id dnstt_port socks5_port : Z)
  : M t bool :=
  c <- gets config ;;
  l <- launch (ssh_cmd c dnstt_port socks5_port) (is_port_listening socks5_port) ;;
  match l with
  | None => ret false
  | Some p =>
      outbound_id <- xui (XUIClient.add_socks5_outbound localhost socks5_port
                            (ssh_remark tunnel_id ssh_id) 3) ;;
      (if truthy outbound_id then xui (XUIClient.reload_xray 3) ;;; ret tt
       else ret tt) ;;;
      ssh_tunnel <- gets (fun m => get_ssh m (tunnel_id, ssh_id)) ;;
      match ssh_tunnel with
      | Some _ =>
          n <- now ;;
          modify (update_ssh (tunnel_id, ssh_id) (ssh_started p n outbound_id))
      | None => ret tt
      end ;;;
      ret true
  end.

(** The first loop of [initialize_tunnels]. *)
Definition plan_dnstt (c : Config) (d : PyDict.t Z DNSTTTunnel.t)
  : PyDict.t Z DNSTTTunnel.t :=
  fold_left
    (fun d tunnel_id =>
       PyDict.set Z.eqb d tunnel_id
         (DNSTTTunnel.new tunnel_id (dnstt_start_port c + tunnel_id) STARTING))
    (range (dnstt_count c)) d.

Definition base_socks_port (c : Config) (tunnel_id : Z) : Z :=
  socks_start_port c + tunnel_id * socks_ports_per_tunnel c.

(** The second, nested loop of [initialize_tunnels]. *)
Definition plan_ssh (c : Config) (d : PyDict.t (Z * Z) SSHTunnel.t)
  : PyDict.t (Z * Z) SSHTunnel.t :=
  fold_left
    (fun d tunnel_id =>
       fold_left
         (fun d ssh_id =>
            PyDict.set key_eqb d (tunnel_id, ssh_id)
              (SSHTunnel.new tunnel_id ssh_id
                 (base_socks_port c tunnel_id + ssh_id) STOPPED))
         (range (ssh_per_dnstt c)) d)
    (range (dnstt_count c)) d.

(** Both record-creating loops: the state before any child is spawned. *)
Definition create_records (m : t) : t :=
  set_ssh_tunnels (plan_ssh (config m) (ssh_tunnels m))
    (set_dnstt_tunnels (plan_dnstt (config m) (dnstt_tunnels m)) m).

(** The third loop of [initialize_tunnels], for one parent. *)
Definition bring_up (tunnel_id : Z) : M t unit :=
  c <- gets config ;;
  tunnel <- gets (fun m => get_dnstt m tunnel_id) ;;
  match tunnel with
  | None => ret tt
  | Some r =>
      ok <- start_dnstt_tunnel tunnel_id (DNSTTTunnel.local_port r) ;;
      if negb ok then ret tt
      else
        sleep 1000 ;;;
        for_each (range (ssh_per_dnstt c))
          (fun ssh_id =>
             ssh_tunnel <- gets (fun m => get_ssh m (tunnel_id, ssh_id)) ;;
             match ssh_tunnel with
             | None => ret tt
             | Some s =>
                 start_ssh_tunnel tunnel_id ssh_id (DNSTTTunnel.local_port r)
                   (SSHTunnel.socks5_port s) ;;;
                 sleep 500
             end)
  end.

Definition initialize_tunnels : M t unit :=
  modify create_records ;;;
  c <- gets config ;;
  for_each (range (dnstt_count c)) bring_up.

(** [time.sleep(self.backoff_seconds * restart_count)]: raises ValueError
    on a negative duration ([false]). *)
Definition backoff (restart_count : Z) : M t bool :=
  c <- gets config ;;
  if backoff_seconds c * restart_count <? 0 then ret false
  else sleep (1000 * (backoff_seconds c * restart_count)) ;;; ret true.

Definition dnstt_failed (r : DNSTTTunnel.t) : DNSTTTunnel.t :=
  DNSTTTunnel.set_restart_count (DNSTTTunnel.restart_count r + 1)
    (DNSTTTunnel.set_state FAILED r).

Definition ssh_failed (r : SSHTunnel.t) : SSHTunnel.t :=
  SSHTunnel.set_restart_count (SSHTunnel.restart_count r + 1)
    (SSHTunnel.set_state FAILED r).

Definition touch_dnstt (tunnel_id : Z) : M t unit :=
  n <- now ;; modify (update_dnstt tunnel_id (DNSTTTunnel.set_last_check n)).

Definition touch_ssh (key : Z * Z) : M t unit :=
  n <- now ;; modify (update_ssh key (SSHTunnel.set_last_check n)).

(** Restart of every SSH session of a parent that came back. *)
Definition restart_children (tunnel_id local_port : Z) : M t unit :=
  c <- gets config ;;
  for_each (range (ssh_per_dnstt c))
    (fun ssh_id =>
       present <- gets (fun m => get_ssh m (tunnel_id, ssh_id)) ;;
       match present with
       | Some _ =>
           modify (update_ssh (tunnel_id, ssh_id) (SSHTunnel.set_state STOPPED)) ;;;
           start_ssh_tunnel tunnel_id ssh_id local_port
             (base_socks_port c tunnel_id + ssh_id) ;;;
           ret tt
       | None => ret tt
       end ;;;
       sleep 500).

(** Body of the first loop of a monitor pass; [false] when an exception
    leaves the pass. *)
Definition check_dnstt (tunnel_id : Z) : M t bool :=
  c <- gets config ;;
  tunnel <- gets (fun m => get_dnstt m tunnel_id) ;;
  match tunnel with
  | None => ret true
  | Some r =>
      if negb (state_eqb (DNSTTTunnel.state r) RUNNING) then ret true
      else
        is_alive <- DNSTTTunnel.is_alive r ;;
        port_listening <- check_dnstt_port (DNSTTTunnel.local_port r) ;;
        if negb is_alive || negb port_listening then
          modify (update_dnstt tunnel_id dnstt_failed) ;;;
          let restart_count := DNSTTTunnel.restart_count r + 1 in
          if restart_count <=? max_retries c then
            stop_dnstt_tunnel tunnel_id ;;;
            slept <- backoff restart_count ;;
            if negb slept then ret false
            else
              ok <- start_dnstt_tunnel tunnel_id (DNSTTTunnel.local_port r) ;;
              (if ok then
                 restart_children tunnel_id (DNSTTTunnel.local_port r) ;;;
                 modify (update_dnstt tunnel_id (DNSTTTunnel.set_restart_count 0))
               else ret tt) ;;;
              touch_dnstt tunnel_id ;;;
              ret true
          else
            stop_dnstt_tunnel tunnel_id ;;;
            touch_dnstt tunnel_id ;;;
            ret true
        else
          touch_dnstt tunnel_id ;;;
          ret true
  end.

(** Body of the second loop of a monitor pass. *)
Definition check_ssh (key : Z * Z) : M t bool :=
  let tunnel_id := fst key in
  let ssh_id := snd key in
  c <- gets config ;;
  parent <- gets (fun m => get_dnstt m tunnel_id) ;;
  ssh_tunnel <- gets (fun m => get_ssh m key) ;;
  match parent, ssh_tunnel with
  | Some parent_tunnel, Some r =>
      if negb (state_eqb (DNSTTTunnel.state parent_tunnel) RUNNING) then ret true
      else if negb (state_eqb (SSHTunnel.state r) RUNNING) then ret true
      else
        is_alive <- SSHTunnel.is_alive r ;;
        socks5_healthy <- check_tunnel_health (SSHTunnel.socks5_port r) ;;
        if negb is_alive || negb socks5_healthy then
          modify (update_ssh key ssh_failed) ;;;
          let restart_count := SSHTunnel.restart_count r + 1 in
          if restart_count <=? max_retries c then
            stop_ssh_tunnel tunnel_id ssh_id ;;;
            slept <- backoff restart_count ;;
            if negb slept then ret false
            else
              ok <- start_ssh_tunnel tunnel_id ssh_id
                      (DNSTTTunnel.local_port parent_tunnel)
                      (SSHTunnel.socks5_port r) ;;
              when ok (modify (update_ssh key (SSHTunnel.set_restart_count 0))) ;;;
              touch_ssh key ;;;
              ret true
          else
            stop_ssh_tunnel tunnel_id ssh_id ;;;
            touch_ssh key ;;;
            ret true
        else
          touch_ssh key ;;;
          ret true
  | _, _ => ret true
  end.

(** One turn of the [while] loop of [monitor_loop]: both loops, then the
    wait for the next check, or the 5 s pause of the [except] clause. *)
Definition monitor_pass : M t unit :=
  c <- gets config ;;
  dnstt_keys <- gets (fun m => PyDict.keys (dnstt_tunnels m)) ;;
  ok <- for_each_ok dnstt_keys check_dnstt ;;
  if negb ok then sleep 5000
  else
    ssh_keys <- gets (fun m => PyDict.keys (ssh_tunnels m)) ;;
    ok' <- for_each_ok ssh_keys check_ssh ;;
    if negb ok' then sleep 5000
    else emit (EvWaitShutdown (health_interval c)).

(** [n] turns of the loop. *)
Fixpoint monitor_passes (n : nat) : M t unit :=
  match n with
  | O => ret tt
  | S n' => monitor_pass ;;; monitor_passes n'
  end.

(** [start()], up to the launch of the monitor thread. *)
Definition start : M t unit :=
  r <- gets running ;;
  if r then ret tt
  else
    modify (set_running true) ;;;
    modify (set_shutdown_event false) ;;;
    initialize_tunnels.

Definition stop : M t unit :=
  r <- gets running ;;
  if negb r then ret tt
  else
    modify (set_running false) ;;;
    modify (set_shutdown_event true) ;;;
    ks <- gets (fun m => PyDict.keys (dnstt_tunnels m)) ;;
    for_each ks (fun tunnel_id => stop_dnstt_tunnel tunnel_id ;;; ret tt).

End TunnelManager.

(* ------------------------------------------------------------------ *)
(** * Statements of the specification *)

Import TunnelManager.

Unset Implicit Arguments.

(** ** The port plan *)

Definition socks_ports_distinct (m : TunnelManager.t) : Prop :=
  forall k k' r r',
    get_ssh m k = Some r -> get_ssh m k' = Some r' -> k <> k' ->
    SSHTunnel.socks5_port r <> SSHTunnel.socks5_port r'.

Definition local_ports_distinct (m : TunnelManager.t) : Prop :=
  forall i i' d d',
    get_dnstt m i = Some d -> get_dnstt m i' = Some d' -> i <> i' ->
    DNSTTTunnel.local_port d <> DNSTTTunnel.local_port d'.

Definition local_socks_disjoint (m : TunnelManager.t) : Prop :=
  forall i k d r,
    get_dnstt m i = Some d -> get_ssh m k = Some r ->
    DNSTTTunnel.local_port d <> SSHTunnel.socks5_port r.

(** Port disjointness as the specification words it. *)
Definition port_disjointness (m : TunnelManager.t) : Prop :=
  socks_ports_distinct m /\ local_ports_distinct m /\ local_socks_disjoint m.

(** ** States of the records *)

Definition all_dnstt_in (s : TunnelState) (m : TunnelManager.t) : bool :=
  forallb (fun kv => state_eqb (DNSTTTunnel.state (snd kv)) s)
          (PyDict.items (dnstt_tunnels m)).

Definition all_ssh_in (s : TunnelState) (m : TunnelManager.t) : bool :=
  forallb (fun kv => state_eqb (SSHTunnel.state (snd kv)) s)
          (PyDict.items (ssh_tunnels m)).

Definition no_dnstt_process (m : TunnelManager.t) : bool :=
  forallb (fun kv => negb (XUIClient.is_some (DNSTTTunnel.process (snd kv)))
                     && negb (XUIClient.is_some (DNSTTTunnel.pid (snd kv))))
          (PyDict.items (dnstt_tunnels m)).

Definition no_ssh_process (m : TunnelManager.t) : bool :=
  forallb (fun kv => negb (XUIClient.is_some (SSHTunnel.process (snd kv)))
                     && negb (XUIClient.is_some (SSHTunnel.pid (snd kv))))
          (PyDict.items (ssh_tunnels m)).

(** ** Scenarios *)

(** The configuration of the clean-start scenario; the other values are the
    defaults of [TunnelManager.__init__]. *)
Definition clean_config : Config :=
  mkConfig "/usr/local/bin/dnstt-client" "203.0.113.1" 53 "t.example.com"
    EmptyString "tunnel" "/root/.ssh/dnstt_key" "127.0.0.1"
    2 3 1080 9090 100
    60 5 3
    5 10
    "http://127.0.0.1:2053" "admin" EmptyString.

(** A configuration whose two port ranges start at the same port. *)
Definition overlap_config : Config :=
  mkConfig "/usr/local/bin/dnstt-client" "203.0.113.1" 53 "t.example.com"
    EmptyString "tunnel" "/root/.ssh/dnstt_key" "127.0.0.1"
    1 1 1080 1080 100
    60 5 3
    5 10
    "http://127.0.0.1:2053" "admin" EmptyString.

(** An environment in which nothing answers: no connection is accepted
    and every library call raises. *)
Definition env_down : Env :=
  mkEnv (fun _ _ => None) (fun _ _ => true) (fun _ _ => None)
        (fun _ _ _ => false) (fun _ _ _ => false) (fun _ _ _ _ => None)
        (fun _ _ _ _ => ConnectionError) (fun _ _ => HttpRaises)
        (fun _ => 0).

(** ** Reading a trace *)

(** The events a computation added to the trace [tr]. *)
Definition events_since {S : Type} (tr : list event) (s : S * list event)
  : list event :=
  skipn (List.length tr) (snd s).

Definition is_login (rq : request) : bool :=
  match req_payload rq with
  | LoginPayload _ _ => true
  | _ => false
  end.

Definition answered_401 (r : http_result) : bool :=
  match r with
  | HttpResp status _ _ => status =? 401
  | HttpRaises => false
  end.

(** A request of the operation itself (not a login). *)
Definition is_op_request (e : event) : bool :=
  match e with
  | EvHttp rq _ => negb (is_login rq)
  | _ => false
  end.

Definition is_login_request (e : event) : bool :=
  match e with
  | EvHttp rq _ => is_login rq
  | _ => false
  end.

Definition op_requests (evs : list event) : nat :=
  List.length (filter is_op_request evs).

Definition logins (evs : list event) : nat :=
  List.length (filter is_login_request evs).

(** Every operation request answered 401 is followed at once by a login
    request; [pending] tells that the previous event was such a 401. *)
Fixpoint reauth_ok (pending : bool) (evs : list event) : bool :=
  match evs with
  | [] => negb pending
  | EvHttp rq r :: rest =>
      if pending then is_login rq && reauth_ok false rest
      else reauth_ok (negb (is_login rq) && answered_401 r) rest
  | _ :: rest => negb pending && reauth_ok false rest
  end.


(** The durations of the pauses, in order. *)
Fixpoint pauses (evs : list event) : list Z :=
  match evs with
  | [] => []
  | EvSleep ms :: rest => ms :: pauses rest
  | _ :: rest => pauses rest
  end.

(** The trace cut at its pauses: one segment per attempt. *)
Fixpoint segments (evs : list event) : list (list event) :=
  match evs with
  | [] => [[]]
  | EvSleep _ :: rest => [] :: segments rest
  | e :: rest =>
      match segments rest with
      | s :: ss => (e :: s) :: ss
      | [] => [[e]]
      end
  end.

(** The number of operation requests of each attempt. *)
Definition attempts_made (evs : list event) : list nat :=
  map op_requests (segments evs).


(** "The operation retries up to [retry_count] times with a 1 s pause
    between attempts": a run that fails has made [retry_count] attempts,
    separated by pauses of one second. *)
Definition bounded_retry (retry_count : Z) (evs : list event) : Prop :=
  List.length (attempts_made evs) = Z.to_nat retry_count /\
  pauses evs = repeat 1000 (Z.to_nat retry_count - 1).

(** A client that has logged in. *)
Definition authenticated_client : XUIClient.t :=
  XUIClient.set_authenticated true
    (XUIClient.init "http://127.0.0.1:2053" "admin" EmptyString).



(** ** Auxiliary notions for the proofs *)

Definition ssh_row (c : Config) (i : Z) : list (Z * Z * SSHTunnel.t) :=
  map (fun j => ((i, j),
                 SSHTunnel.new i j (TunnelManager.base_socks_port c i + j) STOPPED))
      (range (ssh_per_dnstt c)).

Definition login_request (c : XUIClient.t) : request :=
  mkRequest POST (XUIClient._get_url c "/login")
    (LoginPayload (XUIClient.username c) (XUIClient.password c))
    (XUIClient.auth_token c).

Definition is_login_payload (p : payload) : bool :=
  match p with LoginPayload _ _ => true | _ => false end.

(** What one pass over the endpoints adds to the trace. *)
Definition pass_shape {R : Type} (classify : Z -> option json_doc -> XUIClient.verdict R)
    (n : nat) (c c' : XUIClient.t) (o : XUIClient.attempt R)
    (evs : list event) : Prop :=
  pauses evs = [] /\
  (op_requests evs <= n)%nat /\
  (n <> 0%nat -> (1 <= op_requests evs)%nat) /\
  ((forall s b, classify s b <> XUIClient.Unauthorized) ->
   logins evs = 0%nat /\ c' = c) /\
  ((forall s b, (s =? 401) = true -> classify s b = XUIClient.Unauthorized) ->
   reauth_ok false evs = true) /\
  (forall v, o = XUIClient.Returned v -> exists s b, classify s b = XUIClient.Done v).

(** Attempts joined by one-second pauses. *)
Fixpoint join_attempts (atts : list (list event)) : list event :=
  match atts with
  | [] => []
  | [a] => a
  | a :: rest => a ++ EvSleep 1000 :: join_attempts rest
  end.

Definition good_attempt (n : nat) (a : list event) : Prop :=
  pauses a = [] /\ (1 <= op_requests a <= n)%nat.

(** A failed run made [retry_count] attempts of one to three requests,
    one second apart. *)
Definition retried (retry_count : Z) (evs : list event) : Prop :=
  bounded_retry retry_count evs /\
  Forall (fun r => (1 <= r <= 3)%nat) (attempts_made evs).


(** ** Parent-child liveness *)

(** An SSH record that is down: stopped, stopping or failed, and without a
    process handle (so that [is_alive] is [False]). *)
Definition inactive (r : SSHTunnel.t) : Prop :=
  (SSHTunnel.state r = STOPPED \/ SSHTunnel.state r = STOPPING \/
   SSHTunnel.state r = FAILED) /\
  SSHTunnel.process r = None /\ SSHTunnel.pid r = None.


Definition parent_running (m : TunnelManager.t) (t : Z) : Prop :=
  exists d, get_dnstt m t = Some d /\ DNSTTTunnel.state d = RUNNING.

Definition children_inactive (m : TunnelManager.t) (t : Z) : Prop :=
  forall s r, get_ssh m (t, s) = Some r -> inactive r.

(** The records agree with their keys and the keys with the plan. *)
Definition well_keyed (c : Config) (m : TunnelManager.t) : Prop :=
  config m = c /\
  (forall k r,
      get_ssh m k = Some r ->
      SSHTunnel.tunnel_id r = fst k /\ SSHTunnel.ssh_id r = snd k /\
      0 <= fst k < dnstt_count c /\ 0 <= snd k < ssh_per_dnstt c /\
      get_dnstt m (fst k) <> None) /\
  (forall t d, get_dnstt m t = Some d -> 0 <= t < dnstt_count c).

(** The invariant, possibly suspended for the parents in [X]. *)
Definition fleet_inv (c : Config) (X : Z -> Prop) (m : TunnelManager.t) : Prop :=
  well_keyed c m /\
  forall t, ~ X t -> parent_running m t \/ children_inactive m t.

Definition nobody (t : Z) : Prop := False.

(** The operations that change the fleet. *)
Inductive mutator :=
| Start
| InitializeTunnels
| StartDnstt (tunnel_id local_port : Z)
| StopDnstt (tunnel_id : Z)
| StartSsh (tunnel_id ssh_id dnstt_port socks5_port : Z)
| StopSsh (tunnel_id ssh_id : Z)
| MonitorPass
| Shutdown.

Definition run (mu : mutator) : M TunnelManager.t unit :=
  match mu with
  | Start => start
  | InitializeTunnels => initialize_tunnels
  | StartDnstt t p => start_dnstt_tunnel t p ;;; ret tt
  | StopDnstt t => stop_dnstt_tunnel t ;;; ret tt
  | StartSsh t s dp sp => start_ssh_tunnel t s dp sp ;;; ret tt
  | StopSsh t s => stop_ssh_tunnel t s ;;; ret tt
  | MonitorPass => monitor_pass
  | Shutdown => stop
  end.

(** States reached from a fresh manager by mutators that are [allowed]
    in the state they are applied to, in any environment. *)
Inductive reachable (allowed : mutator -> TunnelManager.t -> Prop) (c : Config)
  : TunnelManager.t -> Prop :=
| reach_init : reachable allowed c (init c)
| reach_step m mu env tr :
    reachable allowed c m -> allowed mu m ->
    reachable allowed c (fst (snd (run mu env (m, tr)))).

Definition any_call (mu : mutator) (m : TunnelManager.t) : Prop := True.


(** ** Weakest preconditions *)

Definition wp {S A : Type} (c : M S A) (env : Env) (s : S * list event)
    (Q : A -> S * list event -> Prop) : Prop :=
  Q (fst (c env s)) (snd (c env s)).

(** ** How the fleet changes *)

(** Computations that leave the manager alone. *)
Definition keeps {S A} (c : M S A) : Prop :=
  forall env s, fst (snd (c env s)) = fst s.

(** How the SSH records of [m'] relate to those of [m]: same keys, same
    identity, and [R] between the two records of every key. *)
Definition ssh_rel (R : Z * Z -> SSHTunnel.t -> SSHTunnel.t -> Prop)
    (m m' : TunnelManager.t) : Prop :=
  forall k,
    match get_ssh m k, get_ssh m' k with
    | None, None => True
    | Some r, Some r' =>
        SSHTunnel.tunnel_id r' = SSHTunnel.tunnel_id r /\
        SSHTunnel.ssh_id r' = SSHTunnel.ssh_id r /\
        SSHTunnel.socks5_port r' = SSHTunnel.socks5_port r /\ R k r r'
    | _, _ => False
    end.

Definition dnstt_rel (R : Z -> DNSTTTunnel.t -> DNSTTTunnel.t -> Prop)
    (m m' : TunnelManager.t) : Prop :=
  forall t,
    match get_dnstt m t, get_dnstt m' t with
    | None, None => True
    | Some d, Some d' => R t d d'
    | _, _ => False
    end.

Definition evolves (Rd : Z -> DNSTTTunnel.t -> DNSTTTunnel.t -> Prop)
    (Rs : Z * Z -> SSHTunnel.t -> SSHTunnel.t -> Prop)
    (m m' : TunnelManager.t) : Prop :=
  config m' = config m /\ dnstt_rel Rd m m' /\ ssh_rel Rs m m'.

Definition d_same (t : Z) (d d' : DNSTTTunnel.t) : Prop := d' = d.
Definition d_grows (t : Z) (d d' : DNSTTTunnel.t) : Prop :=
  d' = d \/ DNSTTTunnel.state d' = RUNNING.
Definition s_same (k : Z * Z) (r r' : SSHTunnel.t) : Prop := r' = r.
Definition s_only (k0 k : Z * Z) (r r' : SSHTunnel.t) : Prop := k = k0 \/ r' = r.



Definition planned_ssh_record (c : Config) (i j : Z) : SSHTunnel.t :=
  SSHTunnel.new i j (base_socks_port c i + j) STOPPED.

(** An environment in which everything works: children start with pid
    [1000 + tick] and stay up, ports are open at the first probe, and the
    panel answers 200 to every request. *)
Definition env_ok : Env :=
  mkEnv (fun n _ => Some (1000 + Z.of_nat n)) (fun _ _ => false)
        (fun _ _ => Some true)
        (fun _ _ _ => true) (fun _ _ _ => true) (fun _ _ _ _ => Some 0)
        (fun _ _ _ _ => ProxyResponse 200)
        (fun _ _ => HttpResp 200 (Some (mkJson true None None None [])) false)
        (fun n => Z.of_nat n).

(** The fleet after a clean start ([start()] on a fresh manager). *)
Definition clean_started : TunnelManager.t * list event :=
  snd (start env_ok (init clean_config, [])).

(** The world after the clean start, when the process [dead] has been killed
    from outside: every port still accepts connections, and a child that
    is spawned before tick [up_from] exits during its settle delay (later
    ones stay up).  The process [dead'] dies at tick [up_from]. *)
Definition env_crash (dead : Z) (up_from : nat) (dead' : Z) : Env :=
  mkEnv (fun n _ => Some (1000 + Z.of_nat n))
        (fun n _ => Nat.ltb n up_from)
        (fun n p => Some (negb (p =? dead) &&
                          negb ((p =? dead') && negb (Nat.ltb n up_from))))
        (fun _ _ _ => true) (fun _ _ _ => true) (fun _ _ _ _ => Some 0)
        (fun _ _ _ _ => ProxyResponse 200)
        (fun _ _ => HttpResp 200 (Some (mkJson true None None None [])) false)
        (fun n => Z.of_nat n).

(** State, restart counter and pid of an SSH record. *)
Definition ssh_view (key : Z * Z) (s : TunnelManager.t * list event)
  : option (TunnelState * Z * option Z) :=
  option_map (fun r => (SSHTunnel.state r, SSHTunnel.restart_count r, SSHTunnel.pid r))
             (get_ssh (fst s) key).

Definition dnstt_view (tunnel_id : Z) (s : TunnelManager.t * list event)
  : option (TunnelState * Z * option Z) :=
  option_map (fun r => (DNSTTTunnel.state r, DNSTTTunnel.restart_count r,
                        DNSTTTunnel.pid r))
             (get_dnstt (fst s) tunnel_id).


(** ** What the panel holds *)

(** The remark of the outbound that the panel acknowledged with this
    exchange, if it is an acknowledged add. *)
Definition registered_by (e : event) : list string :=
  match e with
  | EvHttp rq (HttpResp status _ _) =>
      match req_method rq, req_payload rq with
      | POST, OutboundPayload _ _ remark =>
          if (status =? 200) || (status =? 201) then [remark] else []
      | _, _ => []
      end
  | _ => []
  end.

(** The outbounds the panel acknowledged adding, in order. *)
Definition registered (evs : list event) : list string :=
  flat_map registered_by evs.

Definition is_delete (e : event) : bool :=
  match e with
  | EvHttp rq _ => match req_method rq with DELETE => true | _ => false end
  | _ => false
  end.

(** The removals that were asked for. *)
Definition delete_requests (evs : list event) : nat :=
  List.length (filter is_delete evs).

(** Every spawn succeeds and the child stays up with its port open; the
    panel answers 200 with a JSON document that reports success. *)
Definition cooperative (env : Env) : Prop :=
  (forall n argv, env_popen env n argv <> None) /\
  (forall n p, env_poll env n p = false) /\
  (forall n host port timeout, env_connect env n host port timeout = Some 0) /\
  (forall n rq, exists d ck,
      env_http env n rq = HttpResp 200 (Some d) ck /\ j_success d = true).

(** The trace grew by acknowledged adds of [l], and by no removal. *)
Definition grew_by (l : list string) (tr tr' : list event) : Prop :=
  registered tr' = registered tr ++ l /\
  delete_requests tr' = delete_requests tr.

(** The remarks of the plan, in the order of start-up. *)
Definition planned_remarks (c : Config) : list string :=
  flat_map
    (fun tunnel_id =>
       map (fun ssh_id =>
              XUIClient.outbound_remark localhost
                (base_socks_port c tunnel_id + ssh_id)
                (ssh_remark tunnel_id ssh_id))
           (range (ssh_per_dnstt c)))
    (range (dnstt_count c)).

(** The records of the plan are there, with the planned SOCKS5 ports. *)
Definition plan_present (c : Config) (m : TunnelManager.t) : Prop :=
  config m = c /\
  (forall i, 0 <= i < dnstt_count c -> get_dnstt m i <> None) /\
  (forall i j, 0 <= i < dnstt_count c -> 0 <= j < ssh_per_dnstt c ->
     exists r, get_ssh m (i, j) = Some r /\
               SSHTunnel.socks5_port r = base_socks_port c i + j).

Definition remark_of (c : Config) (tunnel_id ssh_id : Z) : string :=
  XUIClient.outbound_remark localhost (base_socks_port c tunnel_id + ssh_id)
    (ssh_remark tunnel_id ssh_id).

(* ------------------------------------------------------------------ *)
(** * Further notions, for the properties beyond the specification *)

(** ** The client of the panel *)

(** [k] slashes. *)
Fixpoint slashes (k : nat) : string :=
  match k with
  | O => EmptyString
  | S k' => String "/"%char (slashes k')
  end.

(** [s.endswith('/')]. *)
Fixpoint ends_with_slash (s : string) : bool :=
  match s with
  | EmptyString => false
  | String c EmptyString => Ascii.eqb c "/"%char
  | String _ r => ends_with_slash r
  end.

(** The answers to a login request that [login] accepts: status 200 and a
    JSON body that reports success or carries a token, or a session cookie
    beside such a body. *)
Definition login_accepted (r : http_result) : bool :=
  match r with
  | HttpResp status (Some data) cookie =>
      (status =? 200) &&
      (j_success data || XUIClient.is_some (j_token data) || cookie)
  | _ => false
  end.

(** The token of an accepted login answer, if it carries one. *)
Definition login_token (r : http_result) : option string :=
  match r with
  | HttpResp _ (Some data) _ => j_token data
  | _ => None
  end.

(** The client after an accepted login answer. *)
Definition logged_in (r : http_result) (c : XUIClient.t) : XUIClient.t :=
  XUIClient.set_authenticated true
    (match login_token r with
     | Some tok => XUIClient.set_auth_token (Some tok) c
     | None => c
     end).

(** Same panel and same account. *)
Definition same_account (c c' : XUIClient.t) : Prop :=
  XUIClient.api_url c' = XUIClient.api_url c /\
  XUIClient.username c' = XUIClient.username c /\
  XUIClient.password c' = XUIClient.password c.

(** An exchange of the client with its panel: a login with the account's
    credentials, or a request of the operation ([meth], [pl]) to one of
    its endpoints [eps]; the only other thing an operation does is to
    pause for a second. *)
Definition is_request_of (c : XUIClient.t) (meth : http_method) (pl : payload)
    (eps : list string) (e : event) : Prop :=
  match e with
  | EvHttp rq _ =>
      (req_method rq = POST /\
       req_url rq = XUIClient._get_url c "/login" /\
       req_payload rq = LoginPayload (XUIClient.username c) (XUIClient.password c)) \/
      (req_method rq = meth /\ req_payload rq = pl /\
       exists ep, In ep eps /\ req_url rq = XUIClient._get_url c ep)
  | EvSleep ms => ms = 1000
  | _ => False
  end.

(** The value an exchange makes the operation return, if it does: the
    answer to a request of the operation that [classify] takes as final. *)
Definition decided {R : Type} (classify : Z -> option json_doc -> XUIClient.verdict R)
    (e : event) : option R :=
  match e with
  | EvHttp rq (HttpResp status body _) =>
      if is_login rq then None
      else match classify status body with
           | XUIClient.Done v => Some v
           | _ => None
           end
  | _ => None
  end.

Definition undecided {R : Type} (classify : Z -> option json_doc -> XUIClient.verdict R)
    (evs : list event) : Prop :=
  Forall (fun e => decided classify e = None) evs.

(** How a run ends: without any final answer, with the failure value; or
    on the first final answer, with its value. *)
Definition outcome {R : Type} (classify : Z -> option json_doc -> XUIClient.verdict R)
    (failure v : R) (evs : list event) : Prop :=
  (v = failure /\ undecided classify evs) \/
  (exists evs' e, evs = evs' ++ [e] /\ decided classify e = Some v /\
                  undecided classify evs').

(** A request of the operation that was answered with a status [ok]
    accepts. *)
Definition answered (ok : Z -> bool) (e : event) : bool :=
  match e with
  | EvHttp rq (HttpResp status _ _) => negb (is_login rq) && ok status
  | _ => false
  end.

(** The same, when the answer also has a JSON body that can be read. *)
Definition answered_with_body (ok : Z -> bool) (e : event) : bool :=
  match e with
  | EvHttp rq (HttpResp status (Some _) _) => negb (is_login rq) && ok status
  | _ => false
  end.

Definition removed_status (status : Z) : bool :=
  (status =? 200) || (status =? 204) || (status =? 404).
Definition reloaded_status (status : Z) : bool := (status =? 200) || (status =? 204).
Definition listed_status (status : Z) : bool := status =? 200.

(** ** The fleet *)

(** An SSH record as [stop_ssh_tunnel] leaves it. *)
Definition halted_ssh (r : SSHTunnel.t) : Prop :=
  SSHTunnel.state r = STOPPED /\ SSHTunnel.process r = None /\
  SSHTunnel.pid r = None /\ SSHTunnel.xui_outbound_id r = None.

(** A DNSTT record as [stop_dnstt_tunnel] leaves it. *)
Definition halted_dnstt (d : DNSTTTunnel.t) : Prop :=
  DNSTTTunnel.state d = STOPPED /\ DNSTTTunnel.process d = None /\
  DNSTTTunnel.pid d = None.

(** The trace [tr'] is [tr] followed by events that all satisfy [P]. *)
Definition extends (P : event -> Prop) (tr tr' : list event) : Prop :=
  exists evs, tr' = tr ++ evs /\ Forall P evs.

(** Writes to a record that keep its identity and its port. *)
Definition keeps_ssh_identity (f : SSHTunnel.t -> SSHTunnel.t) : Prop :=
  forall r, SSHTunnel.tunnel_id (f r) = SSHTunnel.tunnel_id r /\
            SSHTunnel.ssh_id (f r) = SSHTunnel.ssh_id r /\
            SSHTunnel.socks5_port (f r) = SSHTunnel.socks5_port r.

Definition keeps_dnstt_identity (f : DNSTTTunnel.t -> DNSTTTunnel.t) : Prop :=
  forall d, DNSTTTunnel.tunnel_id (f d) = DNSTTTunnel.tunnel_id d /\
            DNSTTTunnel.local_port (f d) = DNSTTTunnel.local_port d.

(** A property of the manager that survives every such write and every
    change of the panel client. *)
Definition stable (J : TunnelManager.t -> Prop) : Prop :=
  (forall k f m, keeps_ssh_identity f -> J m -> J (update_ssh k f m)) /\
  (forall t f m, keeps_dnstt_identity f -> J m -> J (update_dnstt t f m)) /\
  (forall c m, J m -> J (set_xui_client c m)).

(** The same under the two flags of [start] and [stop]. *)
Definition flag_stable (J : TunnelManager.t -> Prop) : Prop :=
  forall b m, J m -> J (set_running b m) /\ J (set_shutdown_event b m).

(** The fleet [m'] has the records of [m], under the same keys in the same
    order, with the same identities and ports. *)
Definition same_plan (m m' : TunnelManager.t) : Prop :=
  config m' = config m /\
  PyDict.keys (dnstt_tunnels m') = PyDict.keys (dnstt_tunnels m) /\
  PyDict.keys (ssh_tunnels m') = PyDict.keys (ssh_tunnels m) /\
  (forall t d d',
      get_dnstt m t = Some d -> get_dnstt m' t = Some d' ->
      DNSTTTunnel.tunnel_id d' = DNSTTTunnel.tunnel_id d /\
      DNSTTTunnel.local_port d' = DNSTTTunnel.local_port d) /\
  (forall k r r',
      get_ssh m k = Some r -> get_ssh m' k = Some r' ->
      SSHTunnel.tunnel_id r' = SSHTunnel.tunnel_id r /\
      SSHTunnel.ssh_id r' = SSHTunnel.ssh_id r /\
      SSHTunnel.socks5_port r' = SSHTunnel.socks5_port r).

(** The operations that work on the records that are there; [start] and
    [initialize_tunnels] make new ones. *)
Definition works_on_fleet (mu : mutator) : bool :=
  match mu with
  | Start | InitializeTunnels => false
  | _ => true
  end.


(** ** Reading what happened to child processes *)

Definition is_http (e : event) : bool :=
  match e with EvHttp _ _ => true | _ => false end.

(** A child with pid [p] was spawned. *)
Definition spawned (p : Z) (e : event) : bool :=
  match e with EvPopen _ (Some q) => q =? p | _ => false end.

(** [poll()] found that the child [p] had exited. *)
Definition exited (p : Z) (e : event) : bool :=
  match e with EvPoll q true => q =? p | _ => false end.

(** [terminate()] was called on the child [p]. *)
Definition terminated (p : Z) (e : event) : bool :=
  match e with EvTerminate q => q =? p | _ => false end.

(** A pause or a connection attempt. *)
Definition is_wait_or_connect (e : event) : bool :=
  match e with EvSleep _ | EvConnect _ _ _ _ => true | _ => false end.

(** The steps after [terminate()]: the wait and the kill. *)
Definition is_reaping (p : Z) (e : event) : bool :=
  match e with
  | EvWait q _ _ => q =? p
  | EvKill q => q =? p
  | _ => false
  end.

(** The traces of [launch]: a failed spawn; a child that exits while it
    settles; a child whose port never opens and which is terminated; a
    child that is up. *)
Inductive launch_trace (cmd : list string) : option Z -> list event -> Prop :=
| launch_no_child : launch_trace cmd None [EvPopen cmd None]
| launch_exited p :
    launch_trace cmd None [EvPopen cmd (Some p); EvSleep 2000; EvPoll p true]
| launch_abandoned p probes reap :
    forallb is_wait_or_connect probes = true ->
    forallb (is_reaping p) reap = true ->
    launch_trace cmd None
      (EvPopen cmd (Some p) :: EvSleep 2000 :: EvPoll p false ::
       probes ++ EvTerminate p :: reap)
| launch_up p probes :
    forallb is_wait_or_connect probes = true ->
    launch_trace cmd (Some p)
      (EvPopen cmd (Some p) :: EvSleep 2000 :: EvPoll p false :: probes).

(** A port check: the manager is left alone and the trace grows by pauses
    and connection attempts only. *)
Definition port_check (check : M TunnelManager.t bool) : Prop :=
  forall env m tr, exists b evs,
    check env (m, tr) = (b, (m, tr ++ evs)) /\ forallb is_wait_or_connect evs = true.

(** Every spawn succeeds, the child stays up and its port is open. *)
Definition spawns (env : Env) : Prop :=
  (forall n argv, env_popen env n argv <> None) /\
  (forall n p, env_poll env n p = false) /\
  (forall n host port timeout, env_connect env n host port timeout = Some 0).

(** The panel cannot be reached: every request raises. *)
Definition panel_down (env : Env) : Prop :=
  forall n rq, env_http env n rq = HttpRaises.

(** Children spawn and stay up, and the panel is down. *)
Definition env_no_panel : Env :=
  mkEnv (fun n _ => Some (1000 + Z.of_nat n)) (fun _ _ => false)
        (fun _ _ => Some true)
        (fun _ _ _ => true) (fun _ _ _ => true) (fun _ _ _ _ => Some 0)
        (fun _ _ _ _ => ProxyResponse 200)
        (fun _ _ => HttpRaises)
        (fun n => Z.of_nat n).

(** A DNSTT record that is up: RUNNING, with the pid of its process. *)
Definition dnstt_up (d : DNSTTTunnel.t) : Prop :=
  DNSTTTunnel.state d = RUNNING /\ DNSTTTunnel.pid d <> None /\
  DNSTTTunnel.process d = DNSTTTunnel.pid d.

(** An SSH record that is up and registered with the panel. *)
Definition ssh_up (r : SSHTunnel.t) : Prop :=
  SSHTunnel.state r = RUNNING /\ SSHTunnel.pid r <> None /\
  SSHTunnel.process r = SSHTunnel.pid r /\
  truthy (SSHTunnel.xui_outbound_id r) = true.

(** A record as [start_ssh_tunnel] can have left it when the panel took
    the outbound. *)
Definition brought_up_ssh (o o' : option SSHTunnel.t) : Prop :=
  exists p n oid, truthy oid = true /\ o' = option_map (ssh_started p n oid) o.

Definition brought_up_dnstt (o o' : option DNSTTTunnel.t) : Prop :=
  exists p n, o' = option_map (dnstt_started p n) o.

(** The record [r'] is [r] with another time of the last check. *)
Definition ssh_checked (r r' : SSHTunnel.t) : Prop :=
  exists n, r' = SSHTunnel.set_last_check n r.

Definition dnstt_checked (d d' : DNSTTTunnel.t) : Prop :=
  exists n, d' = DNSTTTunnel.set_last_check n d.

(** The three ways the monitor loop can leave an SSH record that it found
    RUNNING: checked and healthy; relaunched, with the count reset; or
    STOPPED, with the count raised by one. *)
Definition ssh_check_outcome (r r' : SSHTunnel.t) : Prop :=
  ssh_checked r r' \/
  (SSHTunnel.state r' = RUNNING /\ SSHTunnel.restart_count r' = 0 /\
   SSHTunnel.pid r' <> None /\ SSHTunnel.process r' = SSHTunnel.pid r') \/
  (halted_ssh r' /\ SSHTunnel.restart_count r' = SSHTunnel.restart_count r + 1).

(** The manager [m1] is [m] up to the panel client and the record under
    [k], which is [r1]. *)
Definition only_ssh_changed (m : TunnelManager.t) (k : Z * Z) (r1 : SSHTunnel.t)
    (m1 : TunnelManager.t) : Prop :=
  dnstt_tunnels m1 = dnstt_tunnels m /\ config m1 = config m /\
  running m1 = running m /\
  (forall k', k' <> k -> get_ssh m1 k' = get_ssh m k') /\
  get_ssh m1 k = Some r1.

(** The monitor loop looks at an SSH record only when the record and its
    parent are both RUNNING. *)
Definition monitored_ssh (m : TunnelManager.t) (k : Z * Z) : bool :=
  match get_dnstt m (fst k), get_ssh m k with
  | Some d, Some r =>
      state_eqb (DNSTTTunnel.state d) RUNNING && state_eqb (SSHTunnel.state r) RUNNING
  | _, _ => false
  end.

Definition monitored_dnstt (m : TunnelManager.t) (t : Z) : bool :=
  match get_dnstt m t with
  | Some d => state_eqb (DNSTTTunnel.state d) RUNNING
  | None => false
  end.

(** The planned fleet of the clean-start scenario in which tunnel 0 and its
    session 0 are marked RUNNING (without a process). *)
Definition marked_running : TunnelManager.t :=
  update_ssh (0, 0) (SSHTunnel.set_state RUNNING)
    (update_dnstt 0 (DNSTTTunnel.set_state RUNNING)
       (create_records (init clean_config))).





(** An SSH record that is RUNNING with the pid of its process. *)
Definition ssh_running (r : SSHTunnel.t) : Prop :=
  SSHTunnel.state r = RUNNING /\ SSHTunnel.pid r <> None /\
  SSHTunnel.process r = SSHTunnel.pid r.

(** What the cascade after a restart of the parent does to a child that
    was stopped: it stays as it is, or it is started. *)
Definition child_restarted (o o' : option SSHTunnel.t) : Prop :=
  match o, o' with
  | Some r, Some r' => r' = r \/ exists p n oid, r' = ssh_started p n oid r
  | None, None => True
  | _, _ => False
  end.

(** The three ways the monitor loop can leave a DNSTT tunnel [tid] that it
    found RUNNING (as record [d] of [m]), with what happened to its SSH
    sessions: found healthy, nothing but the time of the last check
    changes; relaunched, the parent is RUNNING with restart count 0 and
    every session was stopped and started again, some perhaps in vain;
    given up, parent and sessions are stopped and the parent's restart
    count has gone up by one. *)
Inductive dnstt_check_outcome (tid : Z) (m m' : TunnelManager.t)
    (d : DNSTTTunnel.t) : Prop :=
| dnstt_found_healthy d' :
    get_dnstt m' tid = Some d' -> dnstt_checked d d' ->
    (forall k, get_ssh m' k = get_ssh m k) ->
    dnstt_check_outcome tid m m' d
| dnstt_relaunched d' :
    get_dnstt m' tid = Some d' ->
    DNSTTTunnel.state d' = RUNNING -> DNSTTTunnel.restart_count d' = 0 ->
    DNSTTTunnel.pid d' <> None -> DNSTTTunnel.process d' = DNSTTTunnel.pid d' ->
    (forall sid r', get_ssh m' (tid, sid) = Some r' -> halted_ssh r' \/ ssh_running r') ->
    dnstt_check_outcome tid m m' d
| dnstt_given_up d' :
    get_dnstt m' tid = Some d' -> halted_dnstt d' ->
    DNSTTTunnel.restart_count d' = DNSTTTunnel.restart_count d + 1 ->
    (forall sid, get_ssh m' (tid, sid) = option_map ssh_stopped (get_ssh m (tid, sid))) ->
    dnstt_check_outcome tid m m' d.

(** A signal sent to a process: [killpg], [terminate()] or [kill()]. *)
Definition is_signal (e : event) : bool :=
  match e with
  | EvKillpg _ _ _ | EvTerminate _ | EvKill _ => true
  | _ => false
  end.

(** How [initialize_tunnels] leaves the planned tunnel [t] in the manager
    [m']: not started, the DNSTT record as created (STARTING, without
    process) with every session as created (STOPPED); or started, the DNSTT
    record RUNNING with its process and every session either as created or
    started. *)
Inductive tunnel_after_initialize (c : Config) (m' : TunnelManager.t) (t : Z) : Prop :=
| tunnel_not_started :
    get_dnstt m' t = Some (DNSTTTunnel.new t (dnstt_start_port c + t) STARTING) ->
    (forall sid, 0 <= sid < ssh_per_dnstt c ->
       get_ssh m' (t, sid) = Some (planned_ssh_record c t sid)) ->
    tunnel_after_initialize c m' t
| tunnel_started p n :
    get_dnstt m' t
    = Some (dnstt_started p n (DNSTTTunnel.new t (dnstt_start_port c + t) STARTING)) ->
    (forall sid, 0 <= sid < ssh_per_dnstt c ->
       get_ssh m' (t, sid) = Some (planned_ssh_record c t sid) \/
       exists q k oid,
         get_ssh m' (t, sid) = Some (ssh_started q k oid (planned_ssh_record c t sid))) ->
    tunnel_after_initialize c m' t.

(** The process a signal goes to, for the events that are signals. *)
Definition signal_target (e : event) : option Z :=
  match e with
  | EvKillpg p _ _ | EvTerminate p | EvKill p => Some p
  | _ => None
  end.

(** The pid [p] is recorded in [m] under the tunnel [tid]: as the pid of
    its DNSTT record or of one of its SSH records. *)
Definition recorded_under (m : TunnelManager.t) (tid p : Z) : Prop :=
  (exists d, get_dnstt m tid = Some d /\ DNSTTTunnel.pid d = Some p) \/
  (exists sid r, get_ssh m (tid, sid) = Some r /\ SSHTunnel.pid r = Some p).

(** Every pid recorded in [m1] is recorded in [m] in the same place. *)
Definition pids_within (m m1 : TunnelManager.t) : Prop :=
  (forall t d1 q,
      get_dnstt m1 t = Some d1 -> DNSTTTunnel.pid d1 = Some q ->
      exists d, get_dnstt m t = Some d /\ DNSTTTunnel.pid d = Some q) /\
  (forall k r1 q,
      get_ssh m1 k = Some r1 -> SSHTunnel.pid r1 = Some q ->
      exists r, get_ssh m k = Some r /\ SSHTunnel.pid r = Some q).

(* ------------------------------------------------------------------ *)
(** * Facts about dictionaries and ranges *)

Section DictFacts.
Variables K V : Type.
Variable eqb : K -> K -> bool.
Hypothesis eqb_spec : forall a b, reflect (a = b) (eqb a b).

Abbreviation get := (PyDict.get eqb).
Abbreviation set := (PyDict.set eqb).
Abbreviation keys := (@PyDict.keys K V).

Lemma eqb_refl k : eqb k k = true.
  Proof. destruct (eqb_spec k k); congruence. Qed.

Lemma eqb_neq a b : a <> b -> eqb a b = false.
  Proof. destruct (eqb_spec a b); congruence. Qed.

Lemma get_set_eq (d : PyDict.t K V) k v : get (set d k v) k = Some v.
  Proof.
    induction d as [|[k' v'] d IH]; simpl.
    - now rewrite eqb_refl.
    - destruct (eqb_spec k k') as [->|N]; simpl.
      + now rewrite eqb_refl.
      + now rewrite (eqb_neq _ _ N).
  Qed.

Lemma get_set_neq (d : PyDict.t K V) k k' v :
    k <> k' -> get (set d k v) k' = get d k'.
  Proof.
    intros N. induction d as [|[k0 v0] d IH]; simpl.
    - rewrite eqb_neq; auto.
    - destruct (eqb_spec k k0) as [->|N0]; simpl.
      + rewrite eqb_neq; auto.
      + now rewrite IH.
  Qed.

Lemma get_set (d : PyDict.t K V) k k' v :
    get (set d k v) k' = if eqb k k' then Some v else get d k'.
  Proof.
    destruct (eqb_spec k k') as [->|N].
    - apply get_set_eq.
    - now apply get_set_neq.
  Qed.

Lemma get_update (d : PyDict.t K V) k k' f :
    get (PyDict.update eqb d k f) k' =
    if eqb k k' then option_map f (get d k') else get d k'.
  Proof.
    unfold PyDict.update.
    destruct (eqb_spec k k') as [->|N].
    - destruct (get d k') eqn:E; simpl; [apply get_set_eq | assumption].
    - destruct (get d k) eqn:E; [now apply get_set_neq | reflexivity].
  Qed.

Lemma get_None_notin (d : PyDict.t K V) k : get d k = None <-> ~ In k (keys d).
  Proof.
    induction d as [|[k' v'] d IH]; simpl.
    - tauto.
    - destruct (eqb_spec k k') as [->|N].
      + split; [discriminate | intros H; exfalso; apply H; now left].
      + rewrite IH. split; intros H; [intros [E|I]; [congruence | tauto] | tauto].
  Qed.

Lemma get_In (d : PyDict.t K V) k v : get d k = Some v -> In (k, v) d.
  Proof.
    induction d as [|[k' v'] d IH]; simpl; [discriminate|].
    destruct (eqb_spec k k') as [->|N].
    - intros [= ->]. now left.
    - intros H. right. auto.
  Qed.

Lemma In_get (d : PyDict.t K V) k v :
    NoDup (keys d) -> In (k, v) d -> get d k = Some v.
  Proof.
    induction d as [|[k' v'] d IH]; simpl; [tauto|].
    intros ND [E|I].
    - injection E as -> ->. now rewrite eqb_refl.
    - inversion ND as [|? ? NI ND']; subst.
      destruct (eqb_spec k k') as [->|N].
      + exfalso. apply NI. change k' with (fst (k', v)). now apply in_map.
      + auto.
  Qed.

Lemma keys_set_present (d : PyDict.t K V) k v :
    In k (keys d) -> keys (set d k v) = keys d.
  Proof.
    induction d as [|[k' v'] d IH]; simpl; [tauto|].
    intros H. destruct (eqb_spec k k') as [->|N]; simpl.
    - reflexivity.
    - f_equal. apply IH. destruct H; congruence.
  Qed.

Lemma set_absent (d : PyDict.t K V) k v :
    ~ In k (keys d) -> set d k v = d ++ [(k, v)].
  Proof.
    induction d as [|[k' v'] d IH]; simpl; [reflexivity|].
    intros H. destruct (eqb_spec k k') as [->|N].
    - exfalso. apply H. now left.
    - f_equal. apply IH. tauto.
  Qed.

Lemma keys_update (d : PyDict.t K V) k f : keys (PyDict.update eqb d k f) = keys d.
  Proof.
    unfold PyDict.update. destruct (get d k) eqn:E; [|reflexivity].
    apply keys_set_present.
    destruct (in_dec (fun a b => reflect_dec _ _ (eqb_spec a b)) k (keys d)) as [I|NI];
      [assumption|].
    apply get_None_notin in NI. congruence.
  Qed.

  (** A loop of assignments to fresh, distinct keys appends them in order. *)
Lemma fold_set_fresh (A : Type) (g : A -> K) (f : A -> V) (l : list A)
      (d : PyDict.t K V) :
    NoDup (keys d ++ map g l) ->
    fold_left (fun d a => set d (g a) (f a)) l d = d ++ map (fun a => (g a, f a)) l.
  Proof.
    revert d. induction l as [|a l IH]; intros d ND; simpl.
    - now rewrite app_nil_r.
    - simpl in ND.
      assert (NI : ~ In (g a) (keys d)).
      { apply NoDup_remove_2 in ND. intros I. apply ND. apply in_or_app. now left. }
      rewrite set_absent by exact NI. rewrite IH.
      + now rewrite <- app_assoc.
      + unfold PyDict.keys in *. rewrite map_app. simpl.
        rewrite <- app_assoc. exact ND.
  Qed.

End DictFacts.

Lemma key_eqb_spec a b : reflect (a = b) (key_eqb a b).
Proof.
  destruct a as [a1 a2], b as [b1 b2]; unfold key_eqb; simpl.
  destruct (Z.eqb_spec a1 b1), (Z.eqb_spec a2 b2); simpl;
    constructor; congruence.
Qed.

Lemma range_In n x : In x (range n) <-> 0 <= x < n.
Proof.
  unfold range. rewrite in_map_iff. split.
  - intros [i [<- I]]. apply in_seq in I. lia.
  - intros H. exists (Z.to_nat x). split; [lia|]. apply in_seq. lia.
Qed.

Lemma range_NoDup n : NoDup (range n).
Proof.
  unfold range. apply Injective_map_NoDup.
  - intros a b. lia.
  - apply seq_NoDup.
Qed.

Lemma range_length n : List.length (range n) = Z.to_nat n.
Proof. unfold range. now rewrite length_map, length_seq. Qed.

(* ------------------------------------------------------------------ *)
(** * Running monadic code *)

Lemma bind_run {S A B} (m : M S A) (f : A -> M S B) env s :
  bind m f env s = f (fst (m env s)) env (snd (m env s)).
Proof. unfold bind. destruct (m env s); reflexivity. Qed.

Lemma ret_run {S A} (a : A) env (s : S * list event) : ret a env s = (a, s).
Proof. reflexivity. Qed.

Lemma gets_run {S A} (f : S -> A) env (s : S * list event) :
  gets f env s = (f (fst s), s).
Proof. reflexivity. Qed.

Lemma modify_run {S} (f : S -> S) env (s : S * list event) :
  modify f env s = (tt, (f (fst s), snd s)).
Proof. reflexivity. Qed.

Lemma ask_run {S R} (q : Env -> nat -> R) (ev : R -> event) env (s : S * list event) :
  ask q ev env s =
  (q env (List.length (snd s)), (fst s, snd s ++ [ev (q env (List.length (snd s)))])).
Proof. reflexivity. Qed.

Lemma emit_run {S} (e : event) env (s : S * list event) :
  emit e env s = (tt, (fst s, snd s ++ [e])).
Proof. reflexivity. Qed.

Lemma sleep_run {S} (ms : Z) env (s : S * list event) :
  sleep ms env s = (tt, (fst s, snd s ++ [EvSleep ms])).
Proof. reflexivity. Qed.

Create Rewrite HintDb mrun.
#[global] Hint Rewrite @bind_run @ret_run @gets_run @modify_run @ask_run
  @emit_run @sleep_run : mrun.

Ltac mrun := repeat (autorewrite with mrun; cbn [fst snd]).


(* ------------------------------------------------------------------ *)
(** * The plan built by [initialize_tunnels] *)

Lemma plan_dnstt_fresh c :
  TunnelManager.plan_dnstt c (PyDict.empty _ _) =
  map (fun i => (i, DNSTTTunnel.new i (dnstt_start_port c + i) STARTING))
      (range (dnstt_count c)).
Proof.
  unfold TunnelManager.plan_dnstt.
  rewrite (fold_set_fresh _ _ _ Z.eqb_spec _ (fun i : Z => i)).
  - reflexivity.
  - simpl. rewrite map_id. apply range_NoDup.
Qed.


Lemma ssh_row_keys c i :
  PyDict.keys (ssh_row c i) = map (fun j => (i, j)) (range (ssh_per_dnstt c)).
Proof. unfold ssh_row, PyDict.keys. now rewrite map_map. Qed.

Lemma plan_ssh_rows c (l : list Z) (d : PyDict.t (Z * Z) SSHTunnel.t) :
  NoDup l ->
  NoDup (PyDict.keys d) ->
  (forall k, In k (PyDict.keys d) -> ~ In (fst k) l) ->
  fold_left
    (fun d tunnel_id =>
       fold_left
         (fun d ssh_id =>
            PyDict.set key_eqb d (tunnel_id, ssh_id)
              (SSHTunnel.new tunnel_id ssh_id
                 (TunnelManager.base_socks_port c tunnel_id + ssh_id) STOPPED))
         (range (ssh_per_dnstt c)) d)
    l d
  = d ++ flat_map (ssh_row c) l.
Proof.
  revert d. induction l as [|i l IH]; intros d ND NDd Hd; simpl.
  - now rewrite app_nil_r.
  - inversion ND as [|? ? NI ND']; subst.
    assert (NDrow : NoDup (PyDict.keys d ++ map (fun j : Z => (i, j)) (range (ssh_per_dnstt c)))).
    { apply NoDup_app.
      - assumption.
      - apply Injective_map_NoDup; [intros a b; congruence | apply range_NoDup].
      - intros k Hk I. apply in_map_iff in I. destruct I as [j [<- _]].
        apply (Hd _ Hk). now left. }
    rewrite (fold_set_fresh _ _ _ key_eqb_spec _ (fun j : Z => (i, j))) by exact NDrow.
    fold (ssh_row c i).
    rewrite IH.
    + now rewrite <- app_assoc.
    + assumption.
    + unfold PyDict.keys in *. rewrite map_app. fold (PyDict.keys (ssh_row c i)).
      now rewrite ssh_row_keys.
    + intros k Hk I. unfold PyDict.keys in Hk. rewrite map_app in Hk.
      apply in_app_or in Hk. destruct Hk as [Hk|Hk].
      * apply (Hd k Hk). now right.
      * fold (PyDict.keys (ssh_row c i)) in Hk. rewrite ssh_row_keys in Hk.
        apply in_map_iff in Hk.
        destruct Hk as [j [<- _]]. simpl in I. contradiction.
Qed.

Lemma plan_ssh_fresh c :
  TunnelManager.plan_ssh c (PyDict.empty _ _) =
  flat_map (ssh_row c) (range (dnstt_count c)).
Proof.
  unfold TunnelManager.plan_ssh. rewrite plan_ssh_rows.
  - reflexivity.
  - apply range_NoDup.
  - constructor.
  - intros k [].
Qed.

Lemma planned_dnstt c i d :
  TunnelManager.get_dnstt (TunnelManager.create_records (TunnelManager.init c)) i = Some d ->
  0 <= i < dnstt_count c /\
  d = DNSTTTunnel.new i (dnstt_start_port c + i) STARTING.
Proof.
  unfold TunnelManager.get_dnstt. simpl. rewrite plan_dnstt_fresh.
  intros H. apply (get_In _ _ _ Z.eqb_spec) in H. apply in_map_iff in H.
  destruct H as [j [E I]]. injection E as -> <-. apply range_In in I. auto.
Qed.

Lemma planned_ssh c k r :
  TunnelManager.get_ssh (TunnelManager.create_records (TunnelManager.init c)) k = Some r ->
  0 <= fst k < dnstt_count c /\ 0 <= snd k < ssh_per_dnstt c /\
  r = SSHTunnel.new (fst k) (snd k)
        (TunnelManager.base_socks_port c (fst k) + snd k) STOPPED.
Proof.
  unfold TunnelManager.get_ssh. simpl. rewrite plan_ssh_fresh.
  intros H. apply (get_In _ _ _ key_eqb_spec) in H. apply in_flat_map in H.
  destruct H as [i [Ii H]]. apply in_map_iff in H.
  destruct H as [j [E Ij]]. injection E as <- <-. simpl.
  apply range_In in Ii. apply range_In in Ij. auto.
Qed.

(* ------------------------------------------------------------------ *)
(** * Traces of the registry client *)

Lemma events_since_app {S} (tr evs : list event) (s : S) :
  events_since tr (s, tr ++ evs) = evs.
Proof.
  unfold events_since. simpl.
  rewrite skipn_app, skipn_all, Nat.sub_diag. reflexivity.
Qed.

Lemma reauth_ok_app p l1 l2 :
  reauth_ok p l1 = true -> reauth_ok p (l1 ++ l2) = reauth_ok false l2.
Proof.
  revert p. induction l1 as [|e l1 IH]; intros p H; simpl in *.
  - destruct p; [discriminate | reflexivity].
  - destruct e; try (destruct p; simpl in *; [discriminate | now apply IH]).
    destruct p.
    + apply andb_true_iff in H. destruct H as [H1 H2]. rewrite H1. simpl. now apply IH.
    + now apply IH.
Qed.

Lemma op_requests_app l1 l2 : op_requests (l1 ++ l2) = (op_requests l1 + op_requests l2)%nat.
Proof. unfold op_requests. now rewrite filter_app, length_app. Qed.

Lemma logins_app l1 l2 : logins (l1 ++ l2) = (logins l1 + logins l2)%nat.
Proof. unfold logins. now rewrite filter_app, length_app. Qed.

Lemma pauses_app l1 l2 : pauses (l1 ++ l2) = pauses l1 ++ pauses l2.
Proof.
  induction l1 as [|e l1 IH]; simpl; [reflexivity|].
  destruct e; simpl; now rewrite ?IH.
Qed.

Lemma segments_nonempty evs : segments evs <> [].
Proof.
  induction evs as [|e evs IH]; simpl; [discriminate|].
  destruct e; try discriminate; destruct (segments evs); try discriminate; congruence.
Qed.

Lemma segments_quiet_app l1 l2 :
  pauses l1 = [] ->
  segments (l1 ++ l2) =
  match segments l2 with
  | s :: ss => (l1 ++ s) :: ss
  | [] => [l1]
  end.
Proof.
  induction l1 as [|e l1 IH]; simpl; intros H.
  - destruct (segments l2) eqn:E; [now apply segments_nonempty in E | reflexivity].
  - destruct e; try discriminate; rewrite (IH H);
      destruct (segments l2) eqn:E; try reflexivity; now apply segments_nonempty in E.
Qed.


Lemma send_run meth ep p env c tr :
  XUIClient.send meth ep p env (c, tr) =
  (env_http env (List.length tr)
     (mkRequest meth (XUIClient._get_url c ep) p (XUIClient.auth_token c)),
   (c, tr ++ [EvHttp (mkRequest meth (XUIClient._get_url c ep) p (XUIClient.auth_token c))
                (env_http env (List.length tr)
                   (mkRequest meth (XUIClient._get_url c ep) p (XUIClient.auth_token c)))])).
Proof. reflexivity. Qed.

Lemma login_run env c tr :
  exists b c' r,
    XUIClient.login env (c, tr) = (b, (c', tr ++ [EvHttp (login_request c) r])).
Proof.
  unfold XUIClient.login. mrun. rewrite send_run. cbn [fst snd].
  fold (login_request c).
  destruct (env_http env (List.length tr) (login_request c)) as [|status body cookie];
    [repeat eexists; reflexivity|].
  destruct (status =? 200); [|repeat eexists; reflexivity].
  destruct body as [data|]; [|repeat eexists; reflexivity].
  destruct (j_success data || XUIClient.is_some (j_token data) || cookie);
    [|repeat eexists; reflexivity].
  destruct (j_token data); repeat eexists; reflexivity.
Qed.

Lemma ensure_authenticated_run env c tr :
  exists b c' evs,
    XUIClient.ensure_authenticated env (c, tr) = (b, (c', tr ++ evs)) /\
    (if XUIClient._authenticated c
     then evs = [] /\ c' = c /\ b = true
     else exists r, evs = [EvHttp (login_request c) r]).
Proof.
  unfold XUIClient.ensure_authenticated. mrun.
  destruct (XUIClient._authenticated c) eqn:A; cbn [negb].
  - exists true, c, []. rewrite app_nil_r. auto.
  - destruct (login_run env c tr) as (b & c' & r & E). rewrite E.
    exists b, c', [EvHttp (login_request c) r]. split; [reflexivity|]. now exists r.
Qed.


Ltac splits := repeat match goal with |- _ /\ _ => split end.

Ltac no_unauth :=
  match goal with
  | H : forall s b, _ s b <> XUIClient.Unauthorized, C : _ ?s ?b = XUIClient.Unauthorized |- _ =>
      exfalso; exact (H s b C)
  end.

Section LoopFacts.
Variable R : Type.
Variable meth : http_method.
Variable pl : payload.
Variable classify : Z -> option json_doc -> XUIClient.verdict R.
Hypothesis pl_op : is_login_payload pl = false.


Lemma try_endpoints_trace (eps : list string) env c tr :
  exists o c' evs,
    XUIClient.try_endpoints meth pl classify eps env (c, tr) = (o, (c', tr ++ evs)) /\
    pass_shape classify (List.length eps) c c' o evs.
Proof.
  revert c tr. induction eps as [|ep eps IH]; intros c tr.
  - exists XUIClient.LoopEnded, c, []. simpl. rewrite app_nil_r.
    unfold pass_shape. repeat split; auto; try congruence; discriminate.
  - cbn [XUIClient.try_endpoints]. mrun. rewrite send_run. cbn [fst snd].
    set (rq := mkRequest meth (XUIClient._get_url c ep) pl (XUIClient.auth_token c)).
    assert (Hrq : is_login rq = false) by exact pl_op.
    assert (Hop : forall r, op_requests [EvHttp rq r] = 1%nat).
    { intros r. unfold op_requests. simpl. now rewrite Hrq. }
    assert (Hlg : forall r, logins [EvHttp rq r] = 0%nat).
    { intros r. unfold logins. simpl. now rewrite Hrq. }
    destruct (env_http env (List.length tr) rq) as [|status body cookie] eqn:E.
    + exists XUIClient.Excepted, c, [EvHttp rq HttpRaises]. mrun.
      unfold pass_shape. rewrite Hop, Hlg. simpl. rewrite Hrq. simpl.
      repeat split; auto; try lia; discriminate.
    + destruct (classify status body) as [v| | |] eqn:C.
      * exists (XUIClient.Returned v), c, [EvHttp rq (HttpResp status body cookie)].
        mrun. unfold pass_shape. rewrite Hop, Hlg. simpl. rewrite Hrq. simpl.
        repeat split; auto; try lia.
        -- intros H401. destruct (status =? 401) eqn:S4; [|reflexivity].
           rewrite (H401 _ body S4) in C. discriminate.
        -- intros v' [= <-]. eauto.
      * mrun.
        destruct (ensure_authenticated_run env (XUIClient.set_authenticated false c)
                    (tr ++ [EvHttp rq (HttpResp status body cookie)]))
          as (b & c2 & evs2 & E2 & [r2 ->]).
        rewrite E2. cbn [fst snd].
        set (lg := EvHttp (login_request (XUIClient.set_authenticated false c)) r2).
        assert (Hlg2 : op_requests [lg] = 0%nat) by reflexivity.
        destruct b; cbn [negb].
        -- destruct (IH c2 ((tr ++ [EvHttp rq (HttpResp status body cookie)]) ++ [lg]))
             as (o & c' & evs & E3 & P1 & P2 & P3 & P4 & P5 & P6).
           rewrite E3.
           exists o, c', ([EvHttp rq (HttpResp status body cookie)] ++ [lg] ++ evs).
           split; [now rewrite <- !app_assoc|].
           unfold pass_shape. rewrite !pauses_app, !op_requests_app, Hop, Hlg2, P1.
           repeat split; auto; try (simpl; lia); try no_unauth.
           intros H401. simpl. rewrite Hrq. simpl.
           destruct (status =? 401); simpl; auto.
        -- exists XUIClient.LoopEnded, c2, ([EvHttp rq (HttpResp status body cookie)] ++ [lg]).
           mrun. split; [now rewrite <- !app_assoc|].
           unfold pass_shape. rewrite !pauses_app, !op_requests_app, Hop, Hlg2.
           repeat split; auto; try (simpl; lia); try discriminate; try no_unauth.
           intros H401. simpl. rewrite Hrq. simpl.
           destruct (status =? 401); simpl; auto.
      * destruct (IH c (tr ++ [EvHttp rq (HttpResp status body cookie)]))
          as (o & c' & evs & E3 & P1 & P2 & P3 & P4 & P5 & P6).
        rewrite E3.
        exists o, c', ([EvHttp rq (HttpResp status body cookie)] ++ evs).
        split; [now rewrite <- !app_assoc|].
        unfold pass_shape. rewrite !pauses_app, !op_requests_app, !logins_app, Hop, Hlg, P1.
        repeat split; auto; try (simpl; lia); try (now apply P4).
        -- intros H401. simpl. rewrite Hrq. simpl.
           destruct (status =? 401) eqn:S4; [|auto].
           rewrite (H401 _ body S4) in C. discriminate.
      * exists XUIClient.Excepted, c, [EvHttp rq (HttpResp status body cookie)].
        mrun. unfold pass_shape. rewrite Hop, Hlg. simpl. rewrite Hrq. simpl.
        repeat split; auto; try lia; try discriminate.
        intros H401. destruct (status =? 401) eqn:S4; [|reflexivity].
        rewrite (H401 _ body S4) in C. discriminate.
Qed.



Lemma attempts_trace (retry_count : Z) (failure : R) (endpoints : list string)
    (len : nat) :
  forall (a : nat) env c tr,
    (len <> 0%nat -> Z.of_nat (a + len) = retry_count) ->
    exists v c' evs,
      XUIClient.attempts meth pl classify retry_count failure endpoints
        (map Z.of_nat (seq a len)) env (c, tr) = (v, (c', tr ++ evs)) /\
      (op_requests evs <= len * List.length endpoints)%nat /\
      ((forall s b, classify s b <> XUIClient.Unauthorized) ->
       logins evs = 0%nat /\ c' = c) /\
      ((forall s b, (s =? 401) = true -> classify s b = XUIClient.Unauthorized) ->
       reauth_ok false evs = true) /\
      (v = failure ->
       (forall s b v', classify s b = XUIClient.Done v' -> v' <> failure) ->
       endpoints <> [] ->
       exists atts,
         List.length atts = len /\
         Forall (good_attempt (List.length endpoints)) atts /\
         evs = join_attempts atts).
Proof.
  induction len as [|len IH]; intros a env c tr Hn.
  - exists failure, c, []. simpl. rewrite app_nil_r.
    splits; auto. intros _ _ _. exists []. splits; auto.
  - cbn [seq map XUIClient.attempts]. mrun.
    destruct (try_endpoints_trace endpoints env c tr)
      as (o & c1 & evs1 & E1 & P1 & P2 & P3 & P4 & P5 & P6).
    rewrite E1. cbn [fst snd].
    assert (Hsleep : (Z.of_nat a <? retry_count - 1) = negb (Nat.eqb len 0)).
    { rewrite <- (Hn ltac:(discriminate)).
      destruct len; simpl; [apply Z.ltb_ge | apply Z.ltb_lt]; lia. }
    assert (Hrest : exists v c' evs2,
      (when (Z.of_nat a <? retry_count - 1) (sleep 1000) ;;;
       XUIClient.attempts meth pl classify retry_count failure endpoints
         (map Z.of_nat (seq (S a) len))) env (c1, tr ++ evs1)
      = (v, (c', (tr ++ evs1) ++ evs2)) /\
      (op_requests evs2 <= len * List.length endpoints)%nat /\
      ((forall s b, classify s b <> XUIClient.Unauthorized) ->
       logins evs2 = 0%nat /\ c' = c1) /\
      ((forall s b, (s =? 401) = true -> classify s b = XUIClient.Unauthorized) ->
       reauth_ok false evs2 = true) /\
      (v = failure ->
       (forall s b v', classify s b = XUIClient.Done v' -> v' <> failure) ->
       endpoints <> [] ->
       exists atts,
         List.length atts = len /\
         Forall (good_attempt (List.length endpoints)) atts /\
         evs2 = match atts with [] => [] | _ => EvSleep 1000 :: join_attempts atts end)).
    { rewrite Hsleep. destruct len as [|len'].
      - exists failure, c1, []. simpl. mrun. rewrite app_nil_r.
        splits; auto. intros _ _ _. exists []. splits; auto.
      - cbn [Nat.eqb negb when]. mrun.
        destruct (IH (S a) env c1 ((tr ++ evs1) ++ [EvSleep 1000]))
          as (v & c' & evs2 & E2 & Q1 & Q2 & Q3 & Q4).
        { intros _. rewrite <- (Hn ltac:(discriminate)). f_equal. lia. }
        rewrite E2. exists v, c', (EvSleep 1000 :: evs2).
        split; [now rewrite <- !app_assoc|].
        change (EvSleep 1000 :: evs2) with ([EvSleep 1000] ++ evs2).
        rewrite op_requests_app, logins_app.
        splits; auto.
        + intros Hv Hd He. destruct (Q4 Hv Hd He) as (atts & L & F & ->).
          exists atts. splits; auto.
          destruct atts; [discriminate | reflexivity]. }
    destruct o as [v| |].
    + exists v, c1, evs1. mrun. split; [reflexivity|].
      splits; auto; try lia.
      intros Hv Hd He. exfalso. destruct (P6 v eq_refl) as (s & b & Cv).
      exact (Hd _ _ _ Cv Hv).
    + destruct Hrest as (v & c' & evs2 & E2 & Q1 & Q2 & Q3 & Q4).
      rewrite E2. exists v, c', (evs1 ++ evs2).
      split; [now rewrite <- !app_assoc|].
      rewrite op_requests_app, logins_app.
      splits; try lia.
      * intros H. destruct (P4 H), (Q2 H). split; [lia | congruence].
      * intros H401. rewrite (reauth_ok_app _ _ _ (P5 H401)). auto.
      * intros Hv Hd He. destruct (Q4 Hv Hd He) as (atts & L & F & ->).
        exists (evs1 :: atts). splits.
        -- simpl. now rewrite L.
        -- constructor; [|assumption]. split; [assumption|].
           split; [apply P3; now destruct endpoints | assumption].
        -- destruct atts; simpl; [now rewrite app_nil_r | reflexivity].
    + destruct Hrest as (v & c' & evs2 & E2 & Q1 & Q2 & Q3 & Q4).
      rewrite E2. exists v, c', (evs1 ++ evs2).
      split; [now rewrite <- !app_assoc|].
      rewrite op_requests_app, logins_app.
      splits; try lia.
      * intros H. destruct (P4 H), (Q2 H). split; [lia | congruence].
      * intros H401. rewrite (reauth_ok_app _ _ _ (P5 H401)). auto.
      * intros Hv Hd He. destruct (Q4 Hv Hd He) as (atts & L & F & ->).
        exists (evs1 :: atts). splits.
        -- simpl. now rewrite L.
        -- constructor; [|assumption]. split; [assumption|].
           split; [apply P3; now destruct endpoints | assumption].
        -- destruct atts; simpl; [now rewrite app_nil_r | reflexivity].
Qed.

Lemma with_retries_trace (retry_count : Z) (failure : R) (endpoints : list string)
    env c tr :
  exists v c' evs,
    XUIClient.with_retries meth pl classify retry_count failure endpoints env (c, tr)
    = (v, (c', tr ++ evs)) /\
    (op_requests evs <= Z.to_nat retry_count * List.length endpoints)%nat /\
    ((forall s b, (s =? 401) = true -> classify s b = XUIClient.Unauthorized) ->
     reauth_ok false evs = true) /\
    (XUIClient._authenticated c = true ->
     v = failure ->
     (forall s b v', classify s b = XUIClient.Done v' -> v' <> failure) ->
     endpoints <> [] ->
     exists atts,
       List.length atts = Z.to_nat retry_count /\
       Forall (good_attempt (List.length endpoints)) atts /\
       evs = join_attempts atts).
Proof.
  unfold XUIClient.with_retries. mrun.
  destruct (ensure_authenticated_run env c tr) as (b & c1 & evs1 & E1 & H1).
  rewrite E1. cbn [fst snd].
  assert (Hev1 : op_requests evs1 = 0%nat /\ reauth_ok false evs1 = true).
  { destruct (XUIClient._authenticated c).
    - destruct H1 as (-> & _ & _). auto.
    - destruct H1 as (r & ->). auto. }
  destruct Hev1 as [O1 R1].
  destruct b; cbn [negb].
  - destruct (attempts_trace retry_count failure endpoints (Z.to_nat retry_count)
                0 env c1 (tr ++ evs1)) as (v & c' & evs & E & Q1 & Q2 & Q3 & Q4).
    { intros N. simpl. lia. }
    unfold range. rewrite E. exists v, c', (evs1 ++ evs).
    split; [now rewrite <- app_assoc|].
    rewrite op_requests_app. splits; try lia.
    + intros H401. rewrite (reauth_ok_app _ _ _ R1). auto.
    + intros A Hv Hd He. rewrite A in H1. destruct H1 as (-> & _ & _).
      simpl. auto.
  - exists failure, c1, evs1. mrun. splits; auto; try lia.
    intros A. rewrite A in H1. destruct H1 as (_ & _ & [=]).
Qed.
End LoopFacts.

Lemma join_attempts_pauses atts :
  Forall (fun a => pauses a = []) atts ->
  pauses (join_attempts atts) = repeat 1000 (List.length atts - 1).
Proof.
  induction atts as [|a atts IH]; intros F; [reflexivity|].
  inversion F as [|? ? Ha F']; subst.
  destruct atts as [|b atts]; [exact Ha|].
  change (join_attempts (a :: b :: atts))
    with (a ++ EvSleep 1000 :: join_attempts (b :: atts)).
  rewrite pauses_app, Ha. cbn [pauses app].
  rewrite (IH F'). simpl. now rewrite Nat.sub_0_r.
Qed.

Lemma join_attempts_segments atts :
  atts <> [] ->
  Forall (fun a => pauses a = []) atts ->
  segments (join_attempts atts) = atts.
Proof.
  induction atts as [|a atts IH]; intros N F; [congruence|].
  inversion F as [|? ? Ha F']; subst.
  destruct atts as [|b atts].
  - cbn [join_attempts]. rewrite <- (app_nil_r a) at 1.
    rewrite (segments_quiet_app _ _ Ha). simpl. now rewrite app_nil_r.
  - change (join_attempts (a :: b :: atts))
      with (a ++ EvSleep 1000 :: join_attempts (b :: atts)).
    rewrite (segments_quiet_app _ _ Ha).
    cbn [segments]. rewrite (IH ltac:(discriminate) F'). now rewrite app_nil_r.
Qed.

(** A failed run of [n] attempts: read back from its trace. *)
Lemma join_attempts_read (n k : nat) (atts : list (list event)) :
  (1 <= n)%nat ->
  List.length atts = n ->
  Forall (good_attempt k) atts ->
  List.length (attempts_made (join_attempts atts)) = n /\
  pauses (join_attempts atts) = repeat 1000 (n - 1) /\
  Forall (fun r => (1 <= r <= k)%nat) (attempts_made (join_attempts atts)).
Proof.
  intros Hn L F.
  assert (Q : Forall (fun a => pauses a = []) atts).
  { eapply Forall_impl; [|exact F]. intros a [H _]. exact H. }
  assert (N : atts <> []) by (destruct atts; [simpl in L; lia | discriminate]).
  unfold attempts_made. rewrite (join_attempts_segments _ N Q), length_map.
  splits; auto.
  - rewrite <- L. now apply join_attempts_pauses.
  - apply Forall_map. eapply Forall_impl; [|exact F]. intros a [_ H]. exact H.
Qed.

Lemma py_or_Some a s : py_or a (Some s) <> None.
Proof.
  unfold py_or, truthy. destruct a as [x|]; [destruct (negb _)|]; discriminate.
Qed.

Lemma classify_add_done port s b v :
  XUIClient.classify_add port s b = XUIClient.Done v -> v <> None.
Proof.
  unfold XUIClient.classify_add.
  destruct ((s =? 200) || (s =? 201)).
  - destruct b; [|discriminate]. intros [= <-].
    unfold py_or at 1. destruct (truthy (j_id j)) eqn:T.
    + destruct (j_id j); [discriminate | discriminate T].
    + apply py_or_Some.
  - destruct (s =? 401); discriminate.
Qed.


Lemma classify_remove_done s b v :
  XUIClient.classify_remove s b = XUIClient.Done v -> v <> false.
Proof.
  unfold XUIClient.classify_remove.
  destruct ((s =? 200) || (s =? 204)); [intros [= <-]; discriminate|].
  destruct (s =? 404); [intros [= <-]; discriminate|].
  destruct (s =? 401); discriminate.
Qed.


Lemma classify_reload_done s b v :
  XUIClient.classify_reload s b = XUIClient.Done v -> v <> false.
Proof.
  unfold XUIClient.classify_reload.
  destruct ((s =? 200) || (s =? 204)); [intros [= <-]; discriminate|].
  destruct (s =? 401); discriminate.
Qed.


Lemma classify_list_never_401 s b :
  XUIClient.classify_list s b <> XUIClient.Unauthorized.
Proof.
  unfold XUIClient.classify_list. destruct (s =? 200); [destruct b|]; discriminate.
Qed.

Lemma list_outbounds_trace env c tr :
  XUIClient._authenticated c = true ->
  exists v evs,
    XUIClient.list_outbounds env (c, tr) = (v, (c, tr ++ evs)) /\
    pauses evs = [] /\ (1 <= op_requests evs <= 3)%nat /\ logins evs = 0%nat.
Proof.
  intros A. unfold XUIClient.list_outbounds. mrun.
  destruct (ensure_authenticated_run env c tr) as (b & c1 & evs1 & E1 & H1).
  rewrite A in H1. destruct H1 as (-> & -> & ->).
  rewrite E1. cbn [fst snd negb]. rewrite app_nil_r. mrun.
  destruct (try_endpoints_trace (list string) GET NoPayload XUIClient.classify_list
              eq_refl XUIClient.list_endpoints env c tr)
    as (o & c' & evs & E & P1 & P2 & P3 & P4 & P5 & P6).
  rewrite E. cbn [fst snd].
  destruct (P4 classify_list_never_401) as [L ->].
  simpl in P2. specialize (P3 ltac:(discriminate)).
  destruct o; mrun; eexists; exists evs; (split; [reflexivity|]); splits; auto.
Qed.

(* ------------------------------------------------------------------ *)
(** * The supervisor: weakest preconditions and the fleet invariant *)

(* ---------- wp calculus ---------- *)
Lemma wp_bind {S A B} (m : M S A) (f : A -> M S B) env s Q :
  wp m env s (fun a s1 => wp (f a) env s1 Q) -> wp (bind m f) env s Q.
Proof. unfold wp. rewrite bind_run. auto. Qed.

Lemma wp_ret {S A} (a : A) env (s : S * list event) Q : Q a s -> wp (ret a) env s Q.
Proof. auto. Qed.

Lemma wp_gets {S A} (f : S -> A) env (s : S * list event) Q :
  Q (f (fst s)) s -> wp (gets f) env s Q.
Proof. auto. Qed.

Lemma wp_modify {S} (f : S -> S) env (s : S * list event) Q :
  Q tt (f (fst s), snd s) -> wp (modify f) env s Q.
Proof. auto. Qed.

Lemma wp_ask {S R} (q : Env -> nat -> R) ev env (s : S * list event) Q :
  Q (q env (List.length (snd s))) (fst s, snd s ++ [ev (q env (List.length (snd s)))]) ->
  wp (ask q ev) env s Q.
Proof. auto. Qed.

Lemma wp_emit {S} e env (s : S * list event) Q :
  Q tt (fst s, snd s ++ [e]) -> wp (emit e) env s Q.
Proof. auto. Qed.

Lemma wp_sleep {S} ms env (s : S * list event) Q :
  Q tt (fst s, snd s ++ [EvSleep ms]) -> wp (sleep ms) env s Q.
Proof. auto. Qed.

Lemma wp_conseq {S A} (c : M S A) env s (Q Q' : A -> S * list event -> Prop) :
  wp c env s Q -> (forall a s', Q a s' -> Q' a s') -> wp c env s Q'.
Proof. unfold wp. auto. Qed.

Lemma wp_lift {S T A} (proj : T -> S) (inj : S -> T -> T) (c : M S A) env s Q :
  wp c env (proj (fst s), snd s) (fun a s' => Q a (inj (fst s') (fst s), snd s')) ->
  wp (lift proj inj c) env s Q.
Proof.
  unfold wp, lift. destruct (c env (proj (fst s), snd s)) as [a [c' tr']]. auto.
Qed.

Lemma wp_for_each {S A} (l : list A) (body : A -> M S unit) env
    (I : S * list event -> Prop) :
  (forall x s, In x l -> I s -> wp (body x) env s (fun _ => I)) ->
  forall s, I s -> wp (for_each l body) env s (fun _ => I).
Proof.
  induction l as [|x l IH]; intros Hb s Hs; simpl.
  - exact Hs.
  - apply wp_bind. eapply wp_conseq; [apply Hb; [now left | exact Hs]|].
    intros a s' Hs'. apply IH; [|exact Hs']. intros y s0 Hy. apply Hb. now right.
Qed.

Lemma wp_for_each_ok {S A} (l : list A) (body : A -> M S bool) env
    (I : S * list event -> Prop) :
  (forall x s, In x l -> I s -> wp (body x) env s (fun _ => I)) ->
  forall s, I s -> wp (for_each_ok l body) env s (fun _ => I).
Proof.
  induction l as [|x l IH]; intros Hb s Hs; simpl.
  - exact Hs.
  - apply wp_bind. eapply wp_conseq; [apply Hb; [now left | exact Hs]|].
    intros ok s' Hs'. destruct ok; [|exact Hs'].
    apply IH; [|exact Hs']. intros y s0 Hy. apply Hb. now right.
Qed.

Lemma wp_keeps {S A} (c : M S A) env s (Q : A -> S * list event -> Prop) :
  keeps c -> (forall a tr, Q a (fst s, tr)) -> wp c env s Q.
Proof.
  intros K H. unfold wp. specialize (K env s).
  destruct (c env s) as [a [m tr]]. simpl in *. subst. apply H.
Qed.

Lemma keeps_ret {S A} (a : A) : keeps (@ret S A a).
Proof. intros env s. reflexivity. Qed.

Lemma keeps_bind {S A B} (m : M S A) (f : A -> M S B) :
  keeps m -> (forall a, keeps (f a)) -> keeps (bind m f).
Proof. intros Km Kf env s. rewrite bind_run, Kf, Km. reflexivity. Qed.

Lemma keeps_gets {S A} (f : S -> A) : keeps (gets f).
Proof. intros env s. reflexivity. Qed.

Lemma keeps_ask {S R} (q : Env -> nat -> R) ev : keeps (@ask S R q ev).
Proof. intros env s. reflexivity. Qed.

Lemma keeps_emit {S} e : keeps (@emit S e).
Proof. intros env s. reflexivity. Qed.

Lemma keeps_sleep {S} ms : keeps (@sleep S ms).
Proof. intros env s. reflexivity. Qed.

Lemma keeps_when {S} b (m : M S unit) : keeps m -> keeps (when b m).
Proof. intros K. destruct b; [exact K | apply keeps_ret]. Qed.

Ltac keeps_tac :=
  repeat first
    [ apply keeps_ret | apply keeps_gets | apply keeps_ask | apply keeps_emit
    | apply keeps_sleep | apply keeps_when
    | apply keeps_bind; [|intros ?]
    | match goal with
      | |- keeps (match ?x with _ => _ end) => destruct x
      | |- keeps (if ?b then _ else _) => destruct b
      end
    | assumption ].

Lemma keeps_is_port_listening S timeout host port :
  keeps (@HealthChecker.is_port_listening S timeout host port).
Proof. unfold HealthChecker.is_port_listening. keeps_tac. Qed.

Lemma keeps_test_socks5 S timeout host port url :
  keeps (@HealthChecker.test_socks5_connectivity S timeout host port url).
Proof. unfold HealthChecker.test_socks5_connectivity. keeps_tac. Qed.

Lemma keeps_check_tunnel_health port : keeps (check_tunnel_health port).
Proof.
  unfold check_tunnel_health, HealthChecker.check_tunnel_health.
  keeps_tac.
Qed.

Lemma keeps_port_listening port : keeps (TunnelManager.is_port_listening port).
Proof.
  unfold TunnelManager.is_port_listening. keeps_tac.
Qed.

Lemma keeps_check_dnstt_port port : keeps (check_dnstt_port port).
Proof.
  unfold check_dnstt_port, HealthChecker.check_dnstt_port. keeps_tac.
Qed.

Lemma keeps_wait_for_port check n : keeps check -> keeps (wait_for_port check n).
Proof. intros K. induction n; simpl; keeps_tac. Qed.

Lemma keeps_launch cmd check : keeps check -> keeps (launch cmd check).
Proof.
  intros K. unfold launch, abandon_child.
  keeps_tac; try (apply keeps_wait_for_port; assumption).
Qed.

Lemma keeps_now : keeps now.
Proof. unfold now. keeps_tac. Qed.

Lemma keeps_stop_process p q : keeps (stop_process p q).
Proof. unfold stop_process, terminate_group. keeps_tac. Qed.

Lemma keeps_pid_alive p : keeps (@pid_alive TunnelManager.t p).
Proof. unfold pid_alive. keeps_tac. Qed.

Lemma xui_mgr {A} (c : M XUIClient.t A) env s :
  exists c', fst (snd (xui c env s)) = set_xui_client c' (fst s).
Proof.
  unfold xui, lift. destruct (c env _) as [a [c' tr']]. now exists c'.
Qed.

Lemma wp_xui {A} (c : M XUIClient.t A) env s (Q : A -> TunnelManager.t * list event -> Prop) :
  (forall a c' tr, Q a (set_xui_client c' (fst s), tr)) -> wp (xui c) env s Q.
Proof.
  intros H. unfold wp, xui, lift. destruct (c env _) as [a [c' tr']]. apply H.
Qed.

(* ---------- reading the fleet after a write ---------- *)
Lemma get_ssh_update_ssh k f m k' :
  get_ssh (update_ssh k f m) k' =
  if key_eqb k k' then option_map f (get_ssh m k') else get_ssh m k'.
Proof. unfold get_ssh, update_ssh. simpl. apply get_update. apply key_eqb_spec. Qed.

Lemma get_dnstt_update_dnstt t f m t' :
  get_dnstt (update_dnstt t f m) t' =
  if t =? t' then option_map f (get_dnstt m t') else get_dnstt m t'.
Proof. unfold get_dnstt, update_dnstt. simpl. apply get_update. apply Z.eqb_spec. Qed.

Lemma key_eqb_refl k : key_eqb k k = true.
Proof. destruct (key_eqb_spec k k); congruence. Qed.

Lemma key_eqb_neq k k' : k <> k' -> key_eqb k k' = false.
Proof. destruct (key_eqb_spec k k'); congruence. Qed.

Lemma evolves_refl Rd Rs m :
  (forall t d, Rd t d d) -> (forall k r, Rs k r r) -> evolves Rd Rs m m.
Proof.
  intros Hd Hs. split; [reflexivity|]. split.
  - intros t. destruct (get_dnstt m t); auto.
  - intros k. destruct (get_ssh m k); auto.
Qed.


Lemma evolves_weaken (Rd Rd' : Z -> DNSTTTunnel.t -> DNSTTTunnel.t -> Prop)
    (Rs Rs' : Z * Z -> SSHTunnel.t -> SSHTunnel.t -> Prop) m m' :
  (forall t a b, Rd t a b -> Rd' t a b) ->
  (forall k a b, Rs k a b -> Rs' k a b) ->
  evolves Rd Rs m m' -> evolves Rd' Rs' m m'.
Proof.
  intros Hd Hs (C & D & S). split; [assumption|]. split.
  - intros t. specialize (D t). destruct (get_dnstt m t), (get_dnstt m' t); auto.
  - intros k. specialize (S k). destruct (get_ssh m k), (get_ssh m' k); auto.
    destruct S as (A & B & P & R). auto.
Qed.




Lemma children_inactive_evolves Rd Rs m m' t :
  (forall k r r', Rs k r r' -> inactive r -> inactive r') ->
  evolves Rd Rs m m' -> children_inactive m t -> children_inactive m' t.
Proof.
  intros H (_ & _ & S) CI s r' G. specialize (S (t, s)). rewrite G in S.
  destruct (get_ssh m (t, s)) as [r|] eqn:G0; [|contradiction].
  destruct S as (_ & _ & _ & R). eauto.
Qed.


Lemma get_ssh_update_dnstt t f m k : get_ssh (update_dnstt t f m) k = get_ssh m k.
Proof. reflexivity. Qed.
Lemma get_dnstt_update_ssh k f m t : get_dnstt (update_ssh k f m) t = get_dnstt m t.
Proof. reflexivity. Qed.
Lemma get_ssh_set_xui c m k : get_ssh (set_xui_client c m) k = get_ssh m k.
Proof. reflexivity. Qed.
Lemma get_dnstt_set_xui c m t : get_dnstt (set_xui_client c m) t = get_dnstt m t.
Proof. reflexivity. Qed.
Lemma get_ssh_set_running b m k : get_ssh (set_running b m) k = get_ssh m k.
Proof. reflexivity. Qed.
Lemma get_dnstt_set_running b m t : get_dnstt (set_running b m) t = get_dnstt m t.
Proof. reflexivity. Qed.
Lemma get_ssh_set_shutdown b m k : get_ssh (set_shutdown_event b m) k = get_ssh m k.
Proof. reflexivity. Qed.
Lemma get_dnstt_set_shutdown b m t : get_dnstt (set_shutdown_event b m) t = get_dnstt m t.
Proof. reflexivity. Qed.
Lemma config_update_ssh k f m : config (update_ssh k f m) = config m.
Proof. reflexivity. Qed.
Lemma config_update_dnstt t f m : config (update_dnstt t f m) = config m.
Proof. reflexivity. Qed.
Lemma config_set_xui c m : config (set_xui_client c m) = config m.
Proof. reflexivity. Qed.
Lemma config_set_running b m : config (set_running b m) = config m.
Proof. reflexivity. Qed.
Lemma config_set_shutdown b m : config (set_shutdown_event b m) = config m.
Proof. reflexivity. Qed.

Create Rewrite HintDb fleet.
#[global] Hint Rewrite get_ssh_update_ssh get_dnstt_update_dnstt get_ssh_update_dnstt
  get_dnstt_update_ssh get_ssh_set_xui get_dnstt_set_xui get_ssh_set_running
  get_dnstt_set_running get_ssh_set_shutdown get_dnstt_set_shutdown
  config_update_ssh config_update_dnstt config_set_xui config_set_running
  config_set_shutdown : fleet.

(** A state whose records are those of [m] but for the SSH record under
    [k], rewritten by [g]. *)
Lemma evolves_ssh_at (Rs : Z * Z -> SSHTunnel.t -> SSHTunnel.t -> Prop) k g m m' :
  config m' = config m ->
  (forall t, get_dnstt m' t = get_dnstt m t) ->
  (forall k', get_ssh m' k' =
              if key_eqb k k' then option_map g (get_ssh m k') else get_ssh m k') ->
  (forall r, SSHTunnel.tunnel_id (g r) = SSHTunnel.tunnel_id r /\
             SSHTunnel.ssh_id (g r) = SSHTunnel.ssh_id r /\
             SSHTunnel.socks5_port (g r) = SSHTunnel.socks5_port r /\ Rs k r (g r)) ->
  (forall k' r, Rs k' r r) ->
  evolves d_same Rs m m'.
Proof.
  intros C D S G Rf. split; [exact C|]. split.
  - intros t. rewrite D. destruct (get_dnstt m t); reflexivity.
  - intros k'. rewrite S. destruct (key_eqb_spec k k') as [<-|N].
    + destruct (get_ssh m k) as [r|]; simpl; [apply G | exact I].
    + destruct (get_ssh m k'); auto.
Qed.

Lemma evolves_dnstt_at (Rd : Z -> DNSTTTunnel.t -> DNSTTTunnel.t -> Prop) t g m m' :
  config m' = config m ->
  (forall k, get_ssh m' k = get_ssh m k) ->
  (forall t', get_dnstt m' t' =
              if t =? t' then option_map g (get_dnstt m t') else get_dnstt m t') ->
  (forall d, Rd t d (g d)) ->
  (forall t' d, Rd t' d d) ->
  evolves Rd s_same m m'.
Proof.
  intros C S D G Rf. split; [exact C|]. split.
  - intros t'. rewrite D. destruct (Z.eqb_spec t t') as [<-|N].
    + destruct (get_dnstt m t) as [d|]; simpl; auto.
    + destruct (get_dnstt m t'); auto.
  - intros k. rewrite S. destruct (get_ssh m k); auto. repeat split.
Qed.

Lemma evolves_xui Rd Rs m m' c :
  evolves Rd Rs m m' -> evolves Rd Rs m (set_xui_client c m').
Proof. intros H. exact H. Qed.

Ltac wp_step :=
  match goal with
  | |- wp (bind _ _) _ _ _ => apply wp_bind
  | |- wp (ret _) _ _ _ => apply wp_ret
  | |- wp (gets _) _ _ _ => apply wp_gets
  | |- wp (modify _) _ _ _ => apply wp_modify
  | |- wp (ask _ _) _ _ _ => apply wp_ask
  | |- wp (emit _) _ _ _ => apply wp_emit
  | |- wp (sleep _) _ _ _ => apply wp_sleep
  | |- wp (xui _) _ _ _ => apply wp_xui; intros
  | |- wp (stop_process _ _) _ _ _ => apply wp_keeps; [apply keeps_stop_process | intros]
  | |- wp now _ _ _ => apply wp_keeps; [apply keeps_now | intros]
  | |- wp (when _ _) _ _ _ => unfold when
  | |- wp (if ?b then _ else _) _ _ _ => destruct b eqn:?
  | |- wp (match ?x with _ => _ end) _ _ _ => destruct x eqn:?
  end; cbn [fst snd].

Ltac wp_go := repeat wp_step.



Lemma start_dnstt_spec env s tid p :
  wp (start_dnstt_tunnel tid p) env s
     (fun ok s' =>
        evolves d_grows s_same (fst s) (fst s') /\
        (ok = true -> get_dnstt (fst s) tid <> None -> parent_running (fst s') tid)).
Proof.
  destruct s as [m tr]. unfold start_dnstt_tunnel. wp_go.
  apply wp_keeps; [apply keeps_launch, keeps_check_dnstt_port | intros l tr1].
  cbn [fst snd]. wp_go.
  - split.
    + eapply (evolves_dnstt_at d_grows tid (dnstt_started _ _)).
      * reflexivity.
      * intros; reflexivity.
      * intros t'. autorewrite with fleet. reflexivity.
      * intros d. now right.
      * intros. now left.
    + intros _ _. unfold parent_running. autorewrite with fleet.
      rewrite Z.eqb_refl.
      match goal with H : get_dnstt m tid = Some _ |- _ => rewrite H end.
      simpl. eauto.
  - split.
    + apply evolves_refl; intros; [now left | reflexivity].
    + intros _ N. congruence.
  - split.
    + apply evolves_refl; intros; [now left | reflexivity].
    + discriminate.
Qed.

Lemma start_ssh_spec env s tid sid dp sp :
  wp (start_ssh_tunnel tid sid dp sp) env s
     (fun ok s' => evolves d_same (s_only (tid, sid)) (fst s) (fst s')).
Proof.
  destruct s as [m tr]. unfold start_ssh_tunnel. wp_go.
  apply wp_keeps; [apply keeps_launch, keeps_port_listening | intros l tr1].
  cbn [fst snd]. wp_go.
  all: try (eapply (evolves_ssh_at (s_only (tid, sid)) (tid, sid) (ssh_started _ _ _));
    [ reflexivity
    | intros; reflexivity
    | intros k'; autorewrite with fleet; reflexivity
    | intros r; repeat split; now left
    | intros; now right ]).
  all: repeat apply evolves_xui.
  all: apply evolves_refl; intros; [reflexivity | now right].
Qed.




Lemma children_of_In m tid sid r :
  get_ssh m (tid, sid) = Some r -> In r (children_of tid m).
Proof.
  intros G. unfold children_of. apply in_map_iff. exists ((tid, sid), r).
  split; [reflexivity|]. apply filter_In. split.
  - apply (get_In _ _ _ key_eqb_spec). exact G.
  - simpl. apply Z.eqb_refl.
Qed.















Lemma pr_update_ssh m k f t :
  parent_running m t -> parent_running (update_ssh k f m) t.
Proof. intros H. exact H. Qed.

Lemma pr_update_dnstt m tid f t :
  (forall d, DNSTTTunnel.state d = RUNNING -> DNSTTTunnel.state (f d) = RUNNING) ->
  parent_running m t -> parent_running (update_dnstt tid f m) t.
Proof.
  intros Hf (d & G & R). unfold parent_running. autorewrite with fleet. rewrite G.
  destruct (tid =? t); simpl; eauto.
Qed.

Lemma keeps_backoff n : keeps (backoff n).
Proof. unfold backoff. keeps_tac. Qed.







Ltac wp_keep :=
  match goal with
  | |- wp (DNSTTTunnel.is_alive _) _ _ _ =>
      apply wp_keeps; [apply keeps_pid_alive | intros]
  | |- wp (SSHTunnel.is_alive _) _ _ _ =>
      apply wp_keeps; [apply keeps_pid_alive | intros]
  | |- wp (check_dnstt_port _) _ _ _ =>
      apply wp_keeps; [apply keeps_check_dnstt_port | intros]
  | |- wp (check_tunnel_health _) _ _ _ =>
      apply wp_keeps; [apply keeps_check_tunnel_health | intros]
  | |- wp (backoff _) _ _ _ =>
      apply wp_keeps; [apply keeps_backoff | intros]
  end; cbn [fst snd].

Ltac wp_all := repeat first [wp_step | wp_keep].







Lemma present_evolves Rd Rs m m' t :
  evolves Rd Rs m m' -> get_dnstt m t <> None -> get_dnstt m' t <> None.
Proof.
  intros (_ & D & _) H. specialize (D t).
  destruct (get_dnstt m t); [|congruence].
  destruct (get_dnstt m' t); [discriminate | contradiction].
Qed.






Lemma inv_flags c X m b :
  fleet_inv c X m ->
  fleet_inv c X (set_running b m) /\ fleet_inv c X (set_shutdown_event b m).
Proof. intros H. split; exact H. Qed.


(* ---------- the plan written over existing records ---------- *)
Section FoldSet.
Variables K V A : Type.
Variable eqb : K -> K -> bool.
Hypothesis eqb_spec : forall a b, reflect (a = b) (eqb a b).
Variable g : A -> K.
Variable f : A -> V.

Lemma fold_set_other (l : list A) (d : PyDict.t K V) k :
  (forall a, In a l -> g a <> k) ->
  PyDict.get eqb (fold_left (fun d a => PyDict.set eqb d (g a) (f a)) l d) k
  = PyDict.get eqb d k.
Proof.
  revert d. induction l as [|a l IH]; intros d H; simpl; [reflexivity|].
  rewrite IH by (intros b Hb; apply H; now right).
  apply (get_set_neq _ _ _ eqb_spec). apply H. now left.
Qed.

Lemma fold_set_hit (l : list A) (d : PyDict.t K V) a :
  NoDup (map g l) -> In a l ->
  PyDict.get eqb (fold_left (fun d a => PyDict.set eqb d (g a) (f a)) l d) (g a)
  = Some (f a).
Proof.
  revert d. induction l as [|b l IH]; intros d ND I; simpl; [destruct I|].
  inversion ND as [|? ? NI ND']; subst. destruct I as [->|I].
  - rewrite fold_set_other.
    + apply (get_set_eq _ _ _ eqb_spec).
    + intros c Hc E. apply NI. rewrite <- E. now apply in_map.
  - now apply IH.
Qed.
End FoldSet.

Lemma plan_dnstt_hit c d t :
  0 <= t < dnstt_count c ->
  PyDict.get Z.eqb (plan_dnstt c d) t
  = Some (DNSTTTunnel.new t (dnstt_start_port c + t) STARTING).
Proof.
  intros H. unfold plan_dnstt.
  apply (fold_set_hit _ _ _ _ Z.eqb_spec (fun i : Z => i)
           (fun i => DNSTTTunnel.new i (dnstt_start_port c + i) STARTING)).
  - rewrite map_id. apply range_NoDup.
  - now apply range_In.
Qed.

Lemma plan_dnstt_other c d t :
  ~ 0 <= t < dnstt_count c ->
  PyDict.get Z.eqb (plan_dnstt c d) t = PyDict.get Z.eqb d t.
Proof.
  intros H. unfold plan_dnstt.
  apply (fold_set_other _ _ _ _ Z.eqb_spec (fun i : Z => i)).
  intros a Ha <-. apply H. now apply range_In.
Qed.

Lemma plan_ssh_outer c (l : list Z) :
  forall d i j,
    PyDict.get key_eqb
      (fold_left
         (fun d tunnel_id =>
            fold_left
              (fun d ssh_id =>
                 PyDict.set key_eqb d (tunnel_id, ssh_id)
                   (SSHTunnel.new tunnel_id ssh_id
                      (base_socks_port c tunnel_id + ssh_id) STOPPED))
              (range (ssh_per_dnstt c)) d)
         l d) (i, j)
    = if in_dec Z.eq_dec i l
      then if in_dec Z.eq_dec j (range (ssh_per_dnstt c))
           then Some (planned_ssh_record c i j)
           else PyDict.get key_eqb d (i, j)
      else PyDict.get key_eqb d (i, j).
Proof.
  induction l as [|i0 l IH]; intros d i j; simpl; [reflexivity|].
  rewrite IH.
  assert (Hin : forall d', PyDict.get key_eqb
            (fold_left
               (fun d ssh_id =>
                  PyDict.set key_eqb d (i0, ssh_id)
                    (SSHTunnel.new i0 ssh_id (base_socks_port c i0 + ssh_id) STOPPED))
               (range (ssh_per_dnstt c)) d') (i, j)
          = if Z.eq_dec i0 i
            then if in_dec Z.eq_dec j (range (ssh_per_dnstt c))
                 then Some (planned_ssh_record c i j)
                 else PyDict.get key_eqb d' (i, j)
            else PyDict.get key_eqb d' (i, j)).
  { intros d'. destruct (Z.eq_dec i0 i) as [->|N].
    - destruct (in_dec Z.eq_dec j (range (ssh_per_dnstt c))) as [I|NI].
      + apply (fold_set_hit _ _ _ _ key_eqb_spec (fun j : Z => (i, j))
                 (fun j => SSHTunnel.new i j (base_socks_port c i + j) STOPPED)).
        * apply Injective_map_NoDup; [intros a b; congruence | apply range_NoDup].
        * exact I.
      + apply (fold_set_other _ _ _ _ key_eqb_spec (fun j : Z => (i, j))).
        intros a Ha [= <-]. contradiction.
    - apply (fold_set_other _ _ _ _ key_eqb_spec (fun j : Z => (i0, j))).
      intros a Ha [= E _]. contradiction. }
  rewrite Hin.
  destruct (Z.eq_dec i0 i) as [->|N].
  - destruct (in_dec Z.eq_dec i l), (in_dec Z.eq_dec j (range (ssh_per_dnstt c)));
      reflexivity.
  - destruct (in_dec Z.eq_dec i l); reflexivity.
Qed.

Lemma plan_ssh_hit c d i j :
  0 <= i < dnstt_count c -> 0 <= j < ssh_per_dnstt c ->
  PyDict.get key_eqb (plan_ssh c d) (i, j) = Some (planned_ssh_record c i j).
Proof.
  intros Hi Hj. unfold plan_ssh. rewrite plan_ssh_outer.
  destruct (in_dec Z.eq_dec i (range (dnstt_count c))) as [_|N];
    [|exfalso; apply N; now apply range_In].
  destruct (in_dec Z.eq_dec j (range (ssh_per_dnstt c))) as [_|N];
    [reflexivity | exfalso; apply N; now apply range_In].
Qed.

Lemma plan_ssh_other c d i j :
  ~ (0 <= i < dnstt_count c /\ 0 <= j < ssh_per_dnstt c) ->
  PyDict.get key_eqb (plan_ssh c d) (i, j) = PyDict.get key_eqb d (i, j).
Proof.
  intros H. unfold plan_ssh. rewrite plan_ssh_outer.
  destruct (in_dec Z.eq_dec i (range (dnstt_count c))) as [Ii|N]; [|reflexivity].
  destruct (in_dec Z.eq_dec j (range (ssh_per_dnstt c))) as [Ij|N]; [|reflexivity].
  exfalso. apply H. split; now apply range_In.
Qed.

Lemma in_range_dec a n : {0 <= a < n} + {~ 0 <= a < n}.
Proof.
  destruct (Z_le_dec 0 a), (Z_lt_dec a n); [left; lia | right; lia ..].
Qed.

Lemma create_records_inv c m :
  well_keyed c m -> fleet_inv c nobody (create_records m).
Proof.
  intros (C & Ws & Wd).
  assert (Gd : forall t d, get_dnstt (create_records m) t = Some d ->
                 0 <= t < dnstt_count c /\ DNSTTTunnel.state d = STARTING).
  { intros t d. unfold get_dnstt, create_records. simpl. rewrite C.
    destruct (in_range_dec t (dnstt_count c)) as [H|H].
    - rewrite plan_dnstt_hit by exact H. intros [= <-]. auto.
    - rewrite plan_dnstt_other by exact H. intros G. exfalso. apply H. eauto. }
  assert (Gs : forall k r, get_ssh (create_records m) k = Some r ->
                 0 <= fst k < dnstt_count c /\ 0 <= snd k < ssh_per_dnstt c /\
                 r = planned_ssh_record c (fst k) (snd k)).
  { intros [i j] r. unfold get_ssh, create_records. simpl. rewrite C.
    destruct (in_range_dec i (dnstt_count c)) as [Hi|Hi];
      [destruct (in_range_dec j (ssh_per_dnstt c)) as [Hj|Hj]|].
    - rewrite plan_ssh_hit by assumption. intros [= <-]. auto.
    - rewrite plan_ssh_other by tauto. intros G.
      destruct (Ws _ _ G) as (_ & _ & _ & H & _). simpl in H. contradiction.
    - rewrite plan_ssh_other by tauto. intros G.
      destruct (Ws _ _ G) as (_ & _ & H & _). simpl in H. contradiction. }
  split; [split; [exact C | split]|].
  - intros k r G. destruct (Gs k r G) as (Hi & Hj & ->). simpl.
    repeat split; try lia.
    unfold get_dnstt, create_records. simpl. rewrite C.
    rewrite plan_dnstt_hit by exact Hi. discriminate.
  - intros t d G. apply (Gd t d G).
  - intros t _. right. intros sid r G. destruct (Gs _ _ G) as (_ & _ & ->).
    unfold inactive. simpl. auto.
Qed.

Lemma init_well_keyed c : well_keyed c (init c).
Proof.
  split; [reflexivity|]. split.
  - intros k r G. discriminate.
  - intros t d G. discriminate.
Qed.






(* ------------------------------------------------------------------ *)
(** * A start-up in which everything succeeds *)

Lemma grew_by_refl tr : grew_by [] tr tr.
Proof. split; [now rewrite app_nil_r | reflexivity]. Qed.

Lemma grew_by_trans l1 l2 tr1 tr2 tr3 :
  grew_by l1 tr1 tr2 -> grew_by l2 tr2 tr3 -> grew_by (l1 ++ l2) tr1 tr3.
Proof.
  intros [A1 B1] [A2 B2]. split; [|congruence].
  now rewrite A2, A1, app_assoc.
Qed.

Lemma grew_by_snoc tr e :
  is_delete e = false -> grew_by (registered_by e) tr (tr ++ [e]).
Proof.
  intros H. split.
  - unfold registered. rewrite flat_map_app. simpl. now rewrite app_nil_r.
  - unfold delete_requests. rewrite filter_app. simpl. rewrite H.
    now rewrite app_nil_r.
Qed.

Lemma grew_by_quiet tr e :
  is_delete e = false -> registered_by e = [] -> grew_by [] tr (tr ++ [e]).
Proof. intros H E. rewrite <- E. now apply grew_by_snoc. Qed.

Lemma grew_by_nil_then l tr1 tr2 tr3 :
  grew_by [] tr1 tr2 -> grew_by l tr2 tr3 -> grew_by l tr1 tr3.
Proof. intros A B. exact (grew_by_trans [] l _ _ _ A B). Qed.

Lemma grew_by_then_nil l tr1 tr2 tr3 :
  grew_by l tr1 tr2 -> grew_by [] tr2 tr3 -> grew_by l tr1 tr3.
Proof.
  intros A B. rewrite <- (app_nil_r l). exact (grew_by_trans l [] _ _ _ A B).
Qed.

(** [send] when the panel cooperates. *)
Lemma wp_send_coop env c tr meth ep pl (Q : http_result -> XUIClient.t * list event -> Prop) :
  cooperative env ->
  (forall d ck,
      j_success d = true ->
      Q (HttpResp 200 (Some d) ck)
        (c, tr ++ [EvHttp (mkRequest meth (XUIClient._get_url c ep) pl
                              (XUIClient.auth_token c))
                     (HttpResp 200 (Some d) ck)])) ->
  wp (XUIClient.send meth ep pl) env (c, tr) Q.
Proof.
  intros (_ & _ & _ & Hh) H. unfold wp. rewrite send_run. cbn [fst snd].
  destruct (Hh (List.length tr)
              (mkRequest meth (XUIClient._get_url c ep) pl (XUIClient.auth_token c)))
    as (d & ck & E & S).
  rewrite E. now apply H.
Qed.

Ltac wp_x :=
  repeat first
    [ wp_step
    | match goal with
      | H : cooperative ?env |- wp (XUIClient.send _ _ _) ?env _ _ =>
          apply (wp_send_coop env _ _ _ _ _ _ H); intros
      end; cbn [fst snd] ].

Lemma login_coop env c tr :
  cooperative env ->
  wp XUIClient.login env (c, tr)
     (fun ok s' => ok = true /\ grew_by [] tr (snd s')).
Proof.
  intros H. unfold XUIClient.login. wp_x; try discriminate.
  all: try (split; [reflexivity|]; now apply grew_by_quiet).
  all: match goal with
       | S : j_success ?d = true, B : j_success ?d || _ || _ = false |- _ =>
           rewrite S in B; discriminate
       end.
Qed.

Lemma ensure_authenticated_coop env c tr :
  cooperative env ->
  wp XUIClient.ensure_authenticated env (c, tr)
     (fun ok s' => ok = true /\ grew_by [] tr (snd s')).
Proof.
  intros H. unfold XUIClient.ensure_authenticated. wp_x.
  - now apply login_coop.
  - split; [reflexivity | apply grew_by_refl].
Qed.

Lemma with_retries_coop (R : Type) meth pl
    (classify : Z -> option json_doc -> XUIClient.verdict R) failure ep rest env c tr :
  cooperative env ->
  (forall d, exists v, classify 200 (Some d) = XUIClient.Done v) ->
  wp (XUIClient.with_retries meth pl classify 3 failure (ep :: rest)) env (c, tr)
     (fun _ s' =>
        exists tr1 c1 d ck,
          grew_by [] tr tr1 /\
          snd s' = tr1 ++ [EvHttp (mkRequest meth (XUIClient._get_url c1 ep) pl
                                     (XUIClient.auth_token c1))
                             (HttpResp 200 (Some d) ck)]).
Proof.
  intros H Hcl. unfold XUIClient.with_retries.
  apply wp_bind. eapply wp_conseq; [now apply ensure_authenticated_coop|].
  intros ok [c1 tr1] [-> G1]. cbn [snd negb] in *.
  change (range 3) with [0; 1; 2].
  cbn [XUIClient.attempts XUIClient.try_endpoints].
  apply wp_bind. apply wp_bind. apply (wp_send_coop env _ _ _ _ _ _ H).
  intros d ck S. destruct (Hcl d) as [v E]. rewrite E.
  apply wp_ret. apply wp_ret. cbn [snd]. exists tr1, c1, d, ck. auto.
Qed.

Lemma add_socks5_outbound_coop env c tr host port remark :
  cooperative env ->
  wp (XUIClient.add_socks5_outbound host port remark 3) env (c, tr)
     (fun _ s' => grew_by [XUIClient.outbound_remark host port remark] tr (snd s')).
Proof.
  intros H. unfold XUIClient.add_socks5_outbound, XUIClient.add_endpoints.
  eapply wp_conseq.
  { apply with_retries_coop; [exact H|]. intros d. eexists. reflexivity. }
  intros r s' (tr1 & c1 & d & ck & G & ->).
  eapply grew_by_nil_then; [exact G|]. now apply (grew_by_snoc tr1).
Qed.

Lemma reload_xray_coop env c tr :
  cooperative env ->
  wp (XUIClient.reload_xray 3) env (c, tr) (fun _ s' => grew_by [] tr (snd s')).
Proof.
  intros H. unfold XUIClient.reload_xray, XUIClient.reload_endpoints.
  eapply wp_conseq.
  { apply with_retries_coop; [exact H|]. intros d. eexists. reflexivity. }
  intros r s' (tr1 & c1 & d & ck & G & ->).
  eapply grew_by_nil_then; [exact G|]. now apply (grew_by_quiet tr1).
Qed.

Lemma port_listening_coop env s port :
  cooperative env ->
  wp (TunnelManager.is_port_listening port) env s
     (fun ok s' => ok = true /\ fst s' = fst s /\ grew_by [] (snd s) (snd s')).
Proof.
  intros H. pose proof H as (_ & _ & Hc & _).
  destruct s as [m tr].
  unfold wp, TunnelManager.is_port_listening, HealthChecker.is_port_listening.
  mrun. rewrite Hc. mrun. simpl.
  splits; try reflexivity. now apply grew_by_quiet.
Qed.

Lemma launch_coop env s cmd check :
  cooperative env ->
  (forall s0, wp check env s0
     (fun ok s' => ok = true /\ fst s' = fst s0 /\ grew_by [] (snd s0) (snd s'))) ->
  wp (launch cmd check) env s
     (fun r s' => r <> None /\ fst s' = fst s /\ grew_by [] (snd s) (snd s')).
Proof.
  intros H Hcheck. pose proof H as (Hp & Hl & _ & _).
  destruct s as [m tr]. unfold launch.
  wp_step. wp_step. cbn [fst snd].
  destruct (env_popen env (List.length tr) cmd) as [p|] eqn:E;
    [|exfalso; exact (Hp _ _ E)].
  wp_step. wp_step. wp_step. wp_step. rewrite Hl.
  wp_step.
  eapply wp_conseq; [apply Hcheck|].
  intros ok [m1 tr1] (-> & Em & G). cbn [fst snd] in *. subst m1.
  wp_go. split; [discriminate|]. split; [reflexivity|].
  eapply grew_by_nil_then; [|exact G].
  eapply grew_by_nil_then; [|now apply grew_by_quiet].
  eapply grew_by_nil_then; [|now apply grew_by_quiet].
  now apply grew_by_quiet.
Qed.

Lemma wp_and {S A} (c : M S A) env s (Q1 Q2 : A -> S * list event -> Prop) :
  wp c env s Q1 -> wp c env s Q2 -> wp c env s (fun a s' => Q1 a s' /\ Q2 a s').
Proof. unfold wp. auto. Qed.

Lemma wp_for_each_grew {A} (l : list A) (body : A -> M TunnelManager.t unit) env
    (I : TunnelManager.t -> Prop) (F : A -> list string) :
  (forall x s, In x l -> I (fst s) ->
     wp (body x) env s (fun _ s' => I (fst s') /\ grew_by (F x) (snd s) (snd s'))) ->
  forall s, I (fst s) ->
    wp (for_each l body) env s
       (fun _ s' => I (fst s') /\ grew_by (flat_map F l) (snd s) (snd s')).
Proof.
  induction l as [|x l IH]; intros Hb s Hs; simpl.
  - apply wp_ret. split; [exact Hs | apply grew_by_refl].
  - apply wp_bind. eapply wp_conseq; [apply Hb; [now left | exact Hs]|].
    intros a s1 [I1 G1]. eapply wp_conseq.
    { apply IH; [|exact I1]. intros y s0 Hy. apply Hb. now right. }
    intros b s2 [I2 G2]. split; [exact I2|]. eapply grew_by_trans; eassumption.
Qed.

Lemma flat_map_single {A B} (f : A -> B) (l : list A) :
  flat_map (fun x => [f x]) l = map f l.
Proof. induction l; simpl; congruence. Qed.

Lemma start_dnstt_coop env s tid p :
  cooperative env ->
  wp (start_dnstt_tunnel tid p) env s
     (fun ok s' => ok = true /\ grew_by [] (snd s) (snd s')).
Proof.
  intros H. destruct s as [m tr]. unfold start_dnstt_tunnel, now.
  wp_step. wp_step. wp_step.
  eapply wp_conseq.
  { apply launch_coop; [exact H|]. intros s0. unfold check_dnstt_port.
    apply (port_listening_coop env s0 p H). }
  intros r [m1 tr1] (N & Em & G). cbn [fst snd] in *.
  destruct r as [pid|]; [|congruence].
  wp_go; (split; [reflexivity|]).
  - eapply grew_by_nil_then; [exact G|]. now apply grew_by_quiet.
  - exact G.
Qed.

Lemma start_ssh_coop env s tid sid dp sp :
  cooperative env ->
  wp (start_ssh_tunnel tid sid dp sp) env s
     (fun ok s' =>
        grew_by [XUIClient.outbound_remark localhost sp (ssh_remark tid sid)]
                (snd s) (snd s')).
Proof.
  intros H. destruct s as [m tr]. unfold start_ssh_tunnel, now.
  wp_step. wp_step. wp_step.
  eapply wp_conseq.
  { apply launch_coop; [exact H|]. intros s0. apply (port_listening_coop env s0 sp H). }
  intros r [m1 tr1] (N & Em & G). cbn [fst snd] in *.
  destruct r as [pid|]; [|congruence].
  wp_step. unfold xui at 1. apply wp_lift. cbn [fst snd].
  eapply wp_conseq; [now apply add_socks5_outbound_coop|].
  intros oid [c2 tr2] G2. cbn [fst snd] in *.
  assert (G02 : grew_by [XUIClient.outbound_remark localhost sp (ssh_remark tid sid)] tr tr2)
    by (eapply grew_by_nil_then; eassumption).
  wp_step.
  assert (Hrel : forall Q : unit -> TunnelManager.t * list event -> Prop,
    (forall c' tr', grew_by [] tr2 tr' -> Q tt (set_xui_client c' m1, tr')) ->
    wp (if truthy oid then xui (XUIClient.reload_xray 3) ;;; ret tt else ret tt)
       env (set_xui_client c2 m1, tr2) Q).
  { intros Q HQ. destruct (truthy oid).
    - apply wp_bind. unfold xui. apply wp_lift. cbn [fst snd].
      eapply wp_conseq; [now apply reload_xray_coop|].
      intros ? [c3 tr3] G3. apply wp_ret. cbn [fst snd] in *.
      apply (HQ c3 tr3 G3).
    - apply wp_ret. apply HQ. apply grew_by_refl. }
  apply Hrel. intros c3 tr3 G3.
  assert (G03 : grew_by [XUIClient.outbound_remark localhost sp (ssh_remark tid sid)] tr tr3)
    by (eapply grew_by_then_nil; eassumption).
  wp_go.
  - eapply grew_by_then_nil; [exact G03|]. now apply grew_by_quiet.
  - exact G03.
Qed.

Lemma plan_present_evolves c Rd Rs m m' :
  plan_present c m -> evolves Rd Rs m m' -> plan_present c m'.
Proof.
  intros (C & Pd & Ps) E. split; [destruct E; congruence|]. split.
  - intros i Hi. eapply present_evolves; [exact E | auto].
  - intros i j Hi Hj. destruct (Ps i j Hi Hj) as (r & G & P).
    destruct E as (_ & _ & S). specialize (S (i, j)). rewrite G in S.
    destruct (get_ssh m' (i, j)) as [r'|]; [|contradiction].
    destruct S as (_ & _ & P' & _). exists r'. split; [reflexivity | congruence].
Qed.

Lemma plan_present_created c m :
  config m = c -> plan_present c (create_records m).
Proof.
  intros C. split; [exact C|]. split.
  - intros i Hi. unfold get_dnstt, create_records. simpl. rewrite C.
    rewrite plan_dnstt_hit by exact Hi. discriminate.
  - intros i j Hi Hj. unfold get_ssh, create_records. simpl. rewrite C.
    rewrite plan_ssh_hit by assumption. eexists. split; reflexivity.
Qed.

Lemma bring_up_coop c env s tid :
  cooperative env -> plan_present c (fst s) -> 0 <= tid < dnstt_count c ->
  wp (bring_up tid) env s
     (fun _ s' =>
        plan_present c (fst s') /\
        grew_by (map (remark_of c tid) (range (ssh_per_dnstt c))) (snd s) (snd s')).
Proof.
  intros H P Ht. destruct s as [m tr]. cbn [fst snd] in *.
  pose proof P as (C & Pd & Ps).
  unfold bring_up. wp_step. wp_step. wp_step. wp_step. cbn [fst snd].
  destruct (get_dnstt m tid) as [r|] eqn:G; [|exfalso; exact (Pd tid Ht G)].
  wp_step.
  eapply wp_conseq.
  { apply wp_and; [apply start_dnstt_spec | apply (start_dnstt_coop _ _ _ _ H)]. }
  intros ok [m1 tr1] ((E1 & _) & (-> & G1)). cbn [fst snd negb] in *.
  assert (P1 : plan_present c m1) by (eapply plan_present_evolves; eassumption).
  wp_step. wp_step. rewrite C.
  eapply wp_conseq.
  { apply (wp_for_each_grew _ _ env (plan_present c) (fun sid => [remark_of c tid sid]));
      [|exact P1].
    intros sid [m2 tr2] Hs P2. cbn [fst snd] in *. apply range_In in Hs.
    destruct P2 as (C2 & Pd2 & Ps2). destruct (Ps2 tid sid Ht Hs) as (r2 & G2 & Pr2).
    wp_step. wp_step. cbn [fst snd]. rewrite G2. wp_step.
    eapply wp_conseq.
    { apply wp_and; [apply start_ssh_spec | apply (start_ssh_coop _ _ _ _ _ _ H)]. }
    intros ? [m3 tr3] (E3 & G3). cbn [fst snd] in *. wp_step. split.
    - eapply plan_present_evolves; [|exact E3]. split; auto.
    - rewrite Pr2 in G3. eapply grew_by_then_nil; [exact G3|].
      now apply grew_by_quiet. }
  intros ? [m4 tr4] (P4 & G4). cbn [fst snd] in *. split; [exact P4|].
  rewrite flat_map_single in G4.
  eapply grew_by_nil_then; [exact G1|].
  eapply grew_by_nil_then; [|exact G4]. now apply grew_by_quiet.
Qed.

Lemma initialize_tunnels_coop c env m tr :
  cooperative env -> config m = c ->
  wp initialize_tunnels env (m, tr)
     (fun _ s' => grew_by (planned_remarks c) tr (snd s')).
Proof.
  intros H C. unfold initialize_tunnels. wp_step. wp_step. wp_step. wp_step.
  cbn [fst snd]. change (config (create_records m)) with (config m). rewrite C.
  eapply wp_conseq.
  { apply (wp_for_each_grew _ _ env (plan_present c)
             (fun tid => map (remark_of c tid) (range (ssh_per_dnstt c)))).
    - intros tid s Ht P. apply range_In in Ht. now apply bring_up_coop.
    - cbn [fst]. now apply plan_present_created. }
  intros ? s' (_ & G). exact G.
Qed.


(* ------------------------------------------------------------------ *)
(** * The claims *)

Lemma flat_map_length_const (A B : Type) (f : A -> list B) (n : nat) (l : list A) :
  (forall a, List.length (f a) = n) ->
  List.length (flat_map f l) = (List.length l * n)%nat.
Proof.
  intros H. induction l as [|a l IH]; simpl; [reflexivity|].
  now rewrite length_app, H, IH.
Qed.

(** C2, as amended.  In the plan built by [initialize_tunnels] from a
    configuration whose stride [socks_ports_per_tunnel] is at least
    [ssh_per_dnstt], the SOCKS5 ports of distinct SSH records differ and the
    local ports of distinct DNSTT records differ; a local port differs from
    every SOCKS5 port when the DNSTT range ends at or below
    [socks_start_port]. *)
Theorem C2_port_plan (c : Config) :
  ssh_per_dnstt c <= socks_ports_per_tunnel c ->
  socks_ports_distinct (create_records (init c)) /\
  local_ports_distinct (create_records (init c)) /\
  (dnstt_start_port c + dnstt_count c <= socks_start_port c ->
   local_socks_disjoint (create_records (init c))).
Proof.
  intros Hstride. split; [|split].
  - intros [i j] [i' j'] r r' Hr Hr' N.
    apply planned_ssh in Hr. apply planned_ssh in Hr'. simpl in *.
    destruct Hr as (Hi & Hj & ->), Hr' as (Hi' & Hj' & ->). simpl.
    unfold base_socks_port. intros E. apply N.
    assert (i = i') by nia. subst i'. f_equal. lia.
  - intros i i' d d' Hd Hd' N.
    apply planned_dnstt in Hd. apply planned_dnstt in Hd'.
    destruct Hd as (_ & ->), Hd' as (_ & ->). simpl. lia.
  - intros Hranges i [i' j'] d r Hd Hr.
    apply planned_dnstt in Hd. apply planned_ssh in Hr. simpl in *.
    destruct Hd as (Hi & ->), Hr as (Hi' & Hj' & ->). simpl.
    unfold base_socks_port. nia.
Qed.

Lemma C2_port_plan_witness :
  ssh_per_dnstt clean_config <= socks_ports_per_tunnel clean_config /\
  port_disjointness (create_records (init clean_config)).
Proof.
  assert (H : ssh_per_dnstt clean_config <= socks_ports_per_tunnel clean_config)
    by (simpl; lia).
  split; [exact H|].
  destruct (C2_port_plan clean_config H) as (A & B & C).
  split; [exact A | split; [exact B | apply C; simpl; lia]].
Defined.

(** C2 as stated fails: with both ranges starting at port 1080 the stride
    condition holds, yet DNSTT tunnel 0 and SSH session (0,0) get the same
    port. *)
Lemma C2_counterexample :
  ssh_per_dnstt overlap_config <= socks_ports_per_tunnel overlap_config /\
  ~ port_disjointness (create_records (init overlap_config)).
Proof.
  split; [simpl; lia|].
  intros (_ & _ & H).
  eapply (H 0 (0, 0)); reflexivity.
Qed.

(** C4, as amended.  [initialize_tunnels] first creates, before any
    interaction with the outside, exactly [dnstt_count] DNSTT records and
    [dnstt_count * ssh_per_dnstt] SSH records (none for a count below zero),
    all without a process; the SSH records are STOPPED and the DNSTT records
    are STARTING. *)
Theorem C4_records_created (c : Config) :
  List.length (dnstt_tunnels (create_records (init c))) = Z.to_nat (dnstt_count c) /\
  List.length (ssh_tunnels (create_records (init c))) =
    (Z.to_nat (dnstt_count c) * Z.to_nat (ssh_per_dnstt c))%nat /\
  all_dnstt_in STARTING (create_records (init c)) = true /\
  all_ssh_in STOPPED (create_records (init c)) = true /\
  no_dnstt_process (create_records (init c)) = true /\
  no_ssh_process (create_records (init c)) = true /\
  forall env tr,
    initialize_tunnels env (init c, tr) =
    for_each (range (dnstt_count c)) bring_up env (create_records (init c), tr).
Proof.
  unfold all_dnstt_in, all_ssh_in, no_dnstt_process, no_ssh_process, PyDict.items.
  simpl. rewrite plan_dnstt_fresh, plan_ssh_fresh.
  repeat split.
  - now rewrite length_map, range_length.
  - rewrite (flat_map_length_const _ _ _ (Z.to_nat (ssh_per_dnstt c))).
    + now rewrite range_length.
    + intros a. unfold ssh_row. now rewrite length_map, range_length.
  - apply forallb_forall. intros x I. apply in_map_iff in I.
    destruct I as [i [<- _]]. reflexivity.
  - apply forallb_forall. intros x I. apply in_flat_map in I.
    destruct I as [i [_ I]]. apply in_map_iff in I.
    destruct I as [j [<- _]]. reflexivity.
  - apply forallb_forall. intros x I. apply in_map_iff in I.
    destruct I as [i [<- _]]. reflexivity.
  - apply forallb_forall. intros x I. apply in_flat_map in I.
    destruct I as [i [_ I]]. apply in_map_iff in I.
    destruct I as [j [<- _]]. reflexivity.
Qed.

(** C4 as stated fails: in the clean-start configuration the DNSTT records
    are not created in state STOPPED. *)
Lemma C4_counterexample :
  all_dnstt_in STOPPED (create_records (init clean_config)) = false.
Proof. reflexivity. Qed.

(** C9.  [stop_dnstt_tunnel] on a tunnel id that is not in the DNSTT map,
    and [stop_ssh_tunnel] on a key that is not in the SSH map, return [True]
    and change nothing: the records, the registry client and the trace of
    process and registry interactions are the same afterwards. *)
Theorem C9_stop_absent (env : Env) (m : TunnelManager.t) (tr : list event)
    (tunnel_id ssh_id : Z) :
  (get_dnstt m tunnel_id = None ->
   stop_dnstt_tunnel tunnel_id env (m, tr) = (true, (m, tr))) /\
  (get_ssh m (tunnel_id, ssh_id) = None ->
   stop_ssh_tunnel tunnel_id ssh_id env (m, tr) = (true, (m, tr))).
Proof.
  split; intros H.
  - unfold stop_dnstt_tunnel, bind, gets. simpl. now rewrite H.
  - unfold stop_ssh_tunnel, bind, gets. simpl. now rewrite H.
Qed.

Lemma C9_stop_absent_witness :
  stop_dnstt_tunnel 7 env_down (init clean_config, []) = (true, (init clean_config, [])) /\
  stop_ssh_tunnel 7 0 env_down (init clean_config, []) = (true, (init clean_config, [])).
Proof.
  split.
  - apply (proj1 (C9_stop_absent env_down (init clean_config) [] 7 0)). reflexivity.
  - apply (proj2 (C9_stop_absent env_down (init clean_config) [] 7 0)). reflexivity.
Defined.

(** C10.  The probes are total functions to [bool] that leave the state
    alone.  [is_port_listening] is [False] unless [connect_ex] returned 0,
    in particular when a socket call raised; [test_socks5_connectivity] is
    [False] whenever the request raised; [check_tunnel_health] is [False]
    as soon as one of the two underlying calls failed. *)
Theorem C10_probes_total (St : Type) (timeout : Z) (host : string) (port : Z)
    (test_url : string) (env : Env) (s : St) (tr : list event) :
  (env_connect env (List.length tr) host port timeout <> Some 0 ->
   fst (HealthChecker.is_port_listening timeout host port env (s, tr)) = false) /\
  ((forall status,
      env_proxy_get env (List.length tr) test_url
        (HealthChecker.socks5_url host port) timeout <> ProxyResponse status) ->
   fst (HealthChecker.test_socks5_connectivity timeout host port test_url env (s, tr))
   = false) /\
  (env_connect env (List.length tr) host port timeout <> Some 0 \/
   (forall status,
      env_proxy_get env (S (List.length tr)) test_url
        (HealthChecker.socks5_url host port) timeout <> ProxyResponse status) ->
   fst (HealthChecker.check_tunnel_health timeout host port test_url env (s, tr))
   = false) /\
  fst (snd (HealthChecker.is_port_listening timeout host port env (s, tr))) = s /\
  fst (snd (HealthChecker.test_socks5_connectivity timeout host port test_url env (s, tr))) = s /\
  fst (snd (HealthChecker.check_tunnel_health timeout host port test_url env (s, tr))) = s.
Proof.
  assert (L : forall e : event, List.length (tr ++ [e]) = S (List.length tr)).
  { intros e. rewrite length_app. simpl. lia. }
  unfold HealthChecker.check_tunnel_health, HealthChecker.is_port_listening,
    HealthChecker.test_socks5_connectivity.
  rewrite !bind_run. unfold ask, ret. simpl.
  destruct (env_connect env (List.length tr) host port timeout) as [e|] eqn:E; simpl.
  - destruct (Z.eqb_spec e 0) as [->|N]; simpl.
    + rewrite !bind_run. simpl. rewrite L.
      repeat split; try congruence.
      * intros H. destruct (env_proxy_get _ _ _ _ _) eqn:P; try reflexivity.
        exfalso. eapply H. reflexivity.
      * intros [H|H]; [congruence|].
        destruct (env_proxy_get _ _ _ _ _) eqn:P; try reflexivity.
        exfalso. eapply H. reflexivity.
      * destruct (env_proxy_get _ _ _ _ _); reflexivity.
      * destruct (env_proxy_get _ _ _ _ _); reflexivity.
    + repeat split; try reflexivity.
      * intros H. destruct (env_proxy_get _ _ _ _ _) eqn:P; try reflexivity.
        exfalso. eapply H. reflexivity.
      * destruct (env_proxy_get _ _ _ _ _); reflexivity.
  - repeat split; try reflexivity.
    + intros H. destruct (env_proxy_get _ _ _ _ _) eqn:P; try reflexivity.
      exfalso. eapply H. reflexivity.
    + destruct (env_proxy_get _ _ _ _ _); reflexivity.
Qed.

Lemma C10_probes_total_witness :
  fst (HealthChecker.is_port_listening 5 "127.0.0.1" 9090 env_down (tt, [])) = false /\
  fst (HealthChecker.test_socks5_connectivity 5 "127.0.0.1" 9090 default_test_url
         env_down (tt, [])) = false /\
  fst (HealthChecker.check_tunnel_health 5 "127.0.0.1" 9090 default_test_url
         env_down (tt, [])) = false.
Proof.
  destruct (C10_probes_total unit 5 "127.0.0.1" 9090 default_test_url env_down tt [])
    as (A & B & C & _).
  split; [|split].
  - apply A. discriminate.
  - apply B. discriminate.
  - apply C. left. discriminate.
Defined.




Lemma retried_join (retry_count : Z) (atts : list (list event)) :
  1 <= retry_count ->
  List.length atts = Z.to_nat retry_count ->
  Forall (good_attempt 3) atts ->
  retried retry_count (join_attempts atts).
Proof.
  intros H L F.
  destruct (join_attempts_read (Z.to_nat retry_count) 3 atts ltac:(lia) L F)
    as (A & B & C).
  unfold retried, bounded_retry. auto.
Qed.

(** C6, as amended.  With an authenticated client and [retry_count >= 1],
    a run of [add_socks5_outbound], [remove_outbound] or [reload_xray] that
    returns its failure value has made exactly [retry_count] attempts of one
    to three requests each, with a pause of one second between consecutive
    attempts.  [list_outbounds] makes a single pass over its three
    endpoints and never pauses. *)
Theorem C6_bounded_retry (env : Env) (c : XUIClient.t) (tr : list event)
    (host : string) (port : Z) (remark outbound_id : string) (retry_count : Z) :
  XUIClient._authenticated c = true ->
  1 <= retry_count ->
  (fst (XUIClient.add_socks5_outbound host port remark retry_count env (c, tr)) = None ->
   retried retry_count
     (events_since tr (snd (XUIClient.add_socks5_outbound host port remark retry_count
                              env (c, tr))))) /\
  (fst (XUIClient.remove_outbound outbound_id retry_count env (c, tr)) = false ->
   retried retry_count
     (events_since tr (snd (XUIClient.remove_outbound outbound_id retry_count
                              env (c, tr))))) /\
  (fst (XUIClient.reload_xray retry_count env (c, tr)) = false ->
   retried retry_count
     (events_since tr (snd (XUIClient.reload_xray retry_count env (c, tr))))) /\
  pauses (events_since tr (snd (XUIClient.list_outbounds env (c, tr)))) = [] /\
  (1 <= op_requests (events_since tr (snd (XUIClient.list_outbounds env (c, tr)))) <= 3)%nat.
Proof.
  intros A Hn. split; [|split; [|split; [|split]]].
  - unfold XUIClient.add_socks5_outbound.
    destruct (with_retries_trace _ POST
                (OutboundPayload host port (XUIClient.outbound_remark host port remark))
                (XUIClient.classify_add port) eq_refl retry_count None
                XUIClient.add_endpoints env c tr) as (v & c' & evs & E & _ & _ & P).
    rewrite E. cbn [fst snd]. rewrite events_since_app. intros ->.
    destruct (P A eq_refl (classify_add_done port) ltac:(discriminate))
      as (atts & L & F & ->).
    now apply retried_join.
  - unfold XUIClient.remove_outbound.
    destruct (with_retries_trace _ DELETE NoPayload XUIClient.classify_remove eq_refl
                retry_count false (XUIClient.remove_endpoints outbound_id) env c tr)
      as (v & c' & evs & E & _ & _ & P).
    rewrite E. cbn [fst snd]. rewrite events_since_app. intros ->.
    destruct (P A eq_refl classify_remove_done ltac:(discriminate))
      as (atts & L & F & ->).
    now apply retried_join.
  - unfold XUIClient.reload_xray.
    destruct (with_retries_trace _ POST NoPayload XUIClient.classify_reload eq_refl
                retry_count false XUIClient.reload_endpoints env c tr)
      as (v & c' & evs & E & _ & _ & P).
    rewrite E. cbn [fst snd]. rewrite events_since_app. intros ->.
    destruct (P A eq_refl classify_reload_done ltac:(discriminate))
      as (atts & L & F & ->).
    now apply retried_join.
  - destruct (list_outbounds_trace env c tr A) as (v & evs & E & Q & _).
    rewrite E. cbn [fst snd]. now rewrite events_since_app.
  - destruct (list_outbounds_trace env c tr A) as (v & evs & E & _ & Q & _).
    rewrite E. cbn [fst snd]. now rewrite events_since_app.
Qed.

Lemma C6_bounded_retry_witness :
  XUIClient._authenticated authenticated_client = true /\
  1 <= 3 /\
  retried 3
    (events_since [] (snd (XUIClient.remove_outbound "9090" 3 env_down
                             (authenticated_client, [])))) /\
  pauses (events_since [] (snd (XUIClient.list_outbounds env_down
                                  (authenticated_client, [])))) = [].
Proof.
  destruct (C6_bounded_retry env_down authenticated_client [] "127.0.0.1" 9090
              "DNSTT-0-SSH-0" "9090" 3 eq_refl ltac:(lia)) as (_ & R & _ & L & _).
  splits; [reflexivity | lia | apply R; reflexivity | exact L].
Defined.

(** C6 as stated fails for [list_outbounds]: when the panel cannot be
    reached it gives up after a single request, without any pause. *)
Lemma C6_counterexample :
  fst (XUIClient.list_outbounds env_down (authenticated_client, [])) = None /\
  ~ bounded_retry 3
      (events_since [] (snd (XUIClient.list_outbounds env_down
                               (authenticated_client, [])))).
Proof.
  split; [reflexivity|].
  intros [H _]. vm_compute in H. discriminate.
Qed.




Lemma env_ok_cooperative : cooperative env_ok.
Proof.
  split; [|split; [|split]]; simpl; intros; try reflexivity; try discriminate.
  eexists. eexists. split; reflexivity.
Qed.

(** C8, as amended.  After a clean start ([start()] on a fresh manager)
    with dnstt_count=2, ssh_per_dnstt=3, ports 1080 and 9090 and stride 100,
    in which every spawn and every call to the panel succeeds, the panel
    has acknowledged exactly six adds and no removal was asked for; the
    remarks are [DNSTT-t-SSH-s-127.0.0.1:port], one per (tunnel_id, ssh_id)
    pair, in start-up order. *)
Theorem C8_clean_start_registry (env : Env) :
  cooperative env ->
  registered (snd (snd (start env (init clean_config, [])))) =
    ["DNSTT-0-SSH-0-127.0.0.1:9090"; "DNSTT-0-SSH-1-127.0.0.1:9091";
     "DNSTT-0-SSH-2-127.0.0.1:9092"; "DNSTT-1-SSH-0-127.0.0.1:9190";
     "DNSTT-1-SSH-1-127.0.0.1:9191"; "DNSTT-1-SSH-2-127.0.0.1:9192"] /\
  delete_requests (snd (snd (start env (init clean_config, [])))) = 0%nat.
Proof.
  intros H.
  change (wp start env (init clean_config, [])
            (fun _ s' =>
               registered (snd s') = planned_remarks clean_config /\
               delete_requests (snd s') = 0%nat)).
  unfold start. wp_step. wp_step. cbn [fst snd].
  change (running (init clean_config)) with false. cbv iota.
  wp_step. wp_step. wp_step. wp_step. cbn [fst snd].
  eapply wp_conseq; [apply (initialize_tunnels_coop clean_config); [exact H | reflexivity]|].
  intros ? s' G. exact G.
Qed.

Lemma C8_clean_start_registry_witness :
  cooperative env_ok /\
  List.length (registered (snd clean_started)) = 6%nat.
Proof.
  split; [exact env_ok_cooperative|].
  unfold clean_started.
  rewrite (proj1 (C8_clean_start_registry env_ok env_ok_cooperative)).
  reflexivity.
Defined.

(** C8 as stated fails: the remarks sent to the panel carry the address
    and port of the listener; none of them is the bare [DNSTT-t-SSH-s]. *)
Lemma C8_counterexample :
  cooperative env_ok /\
  registered (snd clean_started) <>
    map (fun k => ssh_remark (fst k) (snd k))
        [(0, 0); (0, 1); (0, 2); (1, 0); (1, 1); (1, 2)].
Proof.
  split; [exact env_ok_cooperative|].
  vm_compute. discriminate.
Qed.


(** C7, evaluated on the code.  SSH session (0,1) fails and its relaunch
    fails too (first pass: STOPPED with restart_count 1); then the parent
    dies and the second pass restarts it and all its children.  Session
    (0,1) is RUNNING again, restarted by the monitor loop, with
    restart_count still 1. *)
Lemma C7_cascade_restart_keeps_count :
  ssh_view (0, 1) (snd (monitor_passes 1 (env_crash 1015 99 1000) clean_started))
  = Some (STOPPED, 1, None) /\
  dnstt_view 0 (snd (monitor_passes 2 (env_crash 1015 99 1000) clean_started))
  = Some (RUNNING, 0, Some 1113) /\
  ssh_view (0, 1) (snd (monitor_passes 2 (env_crash 1015 99 1000) clean_started))
  = Some (RUNNING, 1, Some 1126).
Proof. vm_compute. repeat split. Qed.

(* ------------------------------------------------------------------ *)
(** * Further properties of the code *)


Lemma rstrip_slash_split (s : string) :
  exists k, s = (rstrip_slash s ++ slashes k)%string.
Proof.
  induction s as [|a s [k IH]].
  - exists 0%nat. reflexivity.
  - cbn [rstrip_slash]. destruct (rstrip_slash s) as [|b r] eqn:E.
    + destruct (Ascii.eqb_spec a "/"%char) as [->|N].
      * exists (S k). cbn. now rewrite IH at 1.
      * exists k. cbn. now rewrite IH at 1.
    + exists k. cbn. rewrite IH at 1. reflexivity.
Qed.

Lemma rstrip_slash_end (s : string) : ends_with_slash (rstrip_slash s) = false.
Proof.
  induction s as [|a s IH].
  - reflexivity.
  - cbn [rstrip_slash]. destruct (rstrip_slash s) as [|b r] eqn:E.
    + destruct (Ascii.eqb_spec a "/"%char) as [->|N]; [reflexivity|].
      cbn. now apply Ascii.eqb_neq.
    + exact IH.
Qed.

Lemma slashes_S_end (k : nat) : ends_with_slash (slashes (S k)) = true.
Proof.
  induction k as [|k IH]; [reflexivity|].
  change (slashes (S (S k))) with (String "/"%char (slashes (S k))).
  cbn [ends_with_slash]. exact IH.
Qed.

Lemma ends_with_slash_cons (a : ascii) (s : string) :
  s <> EmptyString -> ends_with_slash (String a s) = ends_with_slash s.
Proof. destruct s; [congruence | reflexivity]. Qed.

Lemma slashes_end (s : string) (k : nat) :
  ends_with_slash s = false -> ends_with_slash (s ++ slashes k) = false -> k = 0%nat.
Proof.
  destruct k as [|k]; [reflexivity|]. intros _ G. exfalso.
  induction s as [|a s IH].
  - cbn [append] in G. rewrite slashes_S_end in G. discriminate.
  - cbn [append] in G. rewrite ends_with_slash_cons in G; [auto|].
    destruct s; discriminate.
Qed.

(** X1.  [XUIClient(api_url, ...)] stores the URL without its trailing
    slashes, and removes nothing else: the URL given is the stored one
    followed by slashes only, the stored one does not end in a slash, and a
    URL that does not end in a slash is stored as it is. *)
Theorem X1_api_url_normalised (url user pass : string) :
  (exists k, url = (XUIClient.api_url (XUIClient.init url user pass) ++ slashes k)%string) /\
  ends_with_slash (XUIClient.api_url (XUIClient.init url user pass)) = false /\
  (ends_with_slash url = false ->
   XUIClient.api_url (XUIClient.init url user pass) = url).
Proof.
  cbn [XUIClient.init XUIClient.api_url]. split; [|split].
  - apply rstrip_slash_split.
  - apply rstrip_slash_end.
  - intros H. destruct (rstrip_slash_split url) as [k E].
    assert (k = 0%nat).
    { apply (slashes_end (rstrip_slash url)); [apply rstrip_slash_end|].
      now rewrite <- E. }
    subst k. rewrite E at 2. cbn. clear. induction (rstrip_slash url); cbn; congruence.
Qed.

Lemma X1_api_url_normalised_witness :
  XUIClient.api_url (XUIClient.init "http://127.0.0.1:2053" "admin" EmptyString)
  = "http://127.0.0.1:2053".
Proof.
  apply (X1_api_url_normalised "http://127.0.0.1:2053" "admin" EmptyString).
  reflexivity.
Defined.


Lemma login_spec env c tr :
  XUIClient.login env (c, tr) =
  (login_accepted (env_http env (List.length tr) (login_request c)),
   ((if login_accepted (env_http env (List.length tr) (login_request c))
     then logged_in (env_http env (List.length tr) (login_request c)) c
     else c),
    tr ++ [EvHttp (login_request c)
             (env_http env (List.length tr) (login_request c))])).
Proof.
  unfold XUIClient.login. mrun. rewrite send_run. cbn [fst snd].
  fold (login_request c).
  destruct (env_http env (List.length tr) (login_request c))
    as [|status [data|] cookie]; cbn [login_accepted]; mrun; try reflexivity.
  - destruct (status =? 200); cbn [andb]; [|mrun; reflexivity].
    unfold logged_in, login_token.
    destruct (j_success data || XUIClient.is_some (j_token data) || cookie);
      [|mrun; reflexivity].
    destruct (j_token data); cbn [XUIClient.is_some when]; mrun; reflexivity.
  - destruct (status =? 200); mrun; reflexivity.
Qed.

Lemma logged_in_account r c : same_account c (logged_in r c).
Proof.
  unfold logged_in, same_account. destruct (login_token r); cbn; auto.
Qed.

Lemma logged_in_authenticated r c : XUIClient._authenticated (logged_in r c) = true.
Proof. reflexivity. Qed.

(** X2.  [login] sends exactly one request, a POST of the user name and the
    password to [api_url + "/login"].  It returns [True] exactly when the
    answer has status 200 and a JSON body that reports success or carries a
    token, or comes with a session cookie; a raised exception, another
    status or an unreadable body give [False].  A refused login leaves the
    client as it was; an accepted one marks it authenticated, stores the
    token if there is one, and changes neither URL nor credentials. *)
Theorem X2_login (env : Env) (c : XUIClient.t) (tr : list event) :
  snd (snd (XUIClient.login env (c, tr)))
  = tr ++ [EvHttp (mkRequest POST (XUIClient.api_url c ++ "/login")%string
                     (LoginPayload (XUIClient.username c) (XUIClient.password c))
                     (XUIClient.auth_token c))
             (env_http env (List.length tr) (login_request c))] /\
  fst (XUIClient.login env (c, tr))
  = login_accepted (env_http env (List.length tr) (login_request c)) /\
  (fst (XUIClient.login env (c, tr)) = false ->
   fst (snd (XUIClient.login env (c, tr))) = c) /\
  (fst (XUIClient.login env (c, tr)) = true ->
   XUIClient._authenticated (fst (snd (XUIClient.login env (c, tr)))) = true /\
   same_account c (fst (snd (XUIClient.login env (c, tr)))) /\
   XUIClient.auth_token (fst (snd (XUIClient.login env (c, tr))))
   = match login_token (env_http env (List.length tr) (login_request c)) with
     | Some tok => Some tok
     | None => XUIClient.auth_token c
     end).
Proof.
  rewrite login_spec. cbn [fst snd]. splits; try reflexivity.
  - intros ->. reflexivity.
  - intros ->. split; [reflexivity|]. split; [apply logged_in_account|].
    unfold logged_in. destruct (login_token _); reflexivity.
Qed.

Lemma X2_login_witness :
  fst (snd (XUIClient.login env_down
              (XUIClient.init "http://127.0.0.1:2053/" "admin" EmptyString, [])))
  = XUIClient.init "http://127.0.0.1:2053/" "admin" EmptyString.
Proof.
  apply (X2_login env_down (XUIClient.init "http://127.0.0.1:2053/" "admin" EmptyString) []).
  reflexivity.
Defined.


Lemma ensure_authenticated_spec env c tr :
  XUIClient.ensure_authenticated env (c, tr) =
  if XUIClient._authenticated c then (true, (c, tr)) else XUIClient.login env (c, tr).
Proof.
  unfold XUIClient.ensure_authenticated. mrun.
  destruct (XUIClient._authenticated c); reflexivity.
Qed.

Lemma same_account_refl c : same_account c c.
Proof. unfold same_account. auto. Qed.

Lemma same_account_trans a b c :
  same_account a b -> same_account b c -> same_account a c.
Proof. unfold same_account. intros (A1 & A2 & A3) (B1 & B2 & B3). splits; congruence. Qed.

Lemma same_account_flag c b : same_account c (XUIClient.set_authenticated b c).
Proof. unfold same_account. auto. Qed.

Lemma login_is_request c0 c meth pl eps r :
  same_account c0 c -> is_request_of c0 meth pl eps (EvHttp (login_request c) r).
Proof.
  intros (A & B & C). left. unfold login_request, XUIClient._get_url. cbn.
  rewrite A, B, C. auto.
Qed.

Lemma login_undecided {R} (classify : Z -> option json_doc -> XUIClient.verdict R) c r :
  decided classify (EvHttp (login_request c) r) = None.
Proof. destruct r; reflexivity. Qed.

(** What a login does to a client of the same account. *)
Lemma login_step env c0 c tr :
  same_account c0 c ->
  exists b c' r,
    XUIClient.login env (c, tr) = (b, (c', tr ++ [EvHttp (login_request c) r])) /\
    same_account c0 c'.
Proof.
  intros A. rewrite login_spec. do 3 eexists. split; [reflexivity|].
  destruct (login_accepted _); [|exact A].
  eapply same_account_trans; [exact A | apply logged_in_account].
Qed.

Section LoopOutcome.
Variable R : Type.
Variable meth : http_method.
Variable pl : payload.
Variable classify : Z -> option json_doc -> XUIClient.verdict R.
Hypothesis pl_op : is_login_payload pl = false.
Variable c0 : XUIClient.t.
Variable all : list string.

Lemma op_is_request c ep tok r :
  same_account c0 c -> In ep all ->
  is_request_of c0 meth pl all
    (EvHttp (mkRequest meth (XUIClient._get_url c ep) pl tok) r).
Proof.
  intros (A & _) I. right. cbn. splits; auto.
  exists ep. split; [exact I|]. unfold XUIClient._get_url. now rewrite A.
Qed.

Lemma op_decided c ep tok status body ck :
  decided classify (EvHttp (mkRequest meth (XUIClient._get_url c ep) pl tok)
                      (HttpResp status body ck))
  = match classify status body with XUIClient.Done v => Some v | _ => None end.
Proof.
  unfold decided, is_login. cbn. unfold is_login_payload in pl_op.
  destruct pl; try discriminate; reflexivity.
Qed.

Lemma try_endpoints_outcome (eps : list string) :
  forall env c tr,
    same_account c0 c -> incl eps all ->
    exists o c' evs,
      XUIClient.try_endpoints meth pl classify eps env (c, tr) = (o, (c', tr ++ evs)) /\
      same_account c0 c' /\
      Forall (is_request_of c0 meth pl all) evs /\
      match o with
      | XUIClient.Returned v =>
          exists evs' e, evs = evs' ++ [e] /\ decided classify e = Some v /\
                         undecided classify evs'
      | _ => undecided classify evs
      end.
Proof.
  induction eps as [|ep eps IH]; intros env c tr A I.
  - exists XUIClient.LoopEnded, c, []. cbn. rewrite app_nil_r.
    splits; auto. constructor.
  - assert (Iep : In ep all) by (apply I; now left).
    assert (I' : incl eps all) by (intros x Hx; apply I; now right).
    cbn [XUIClient.try_endpoints]. mrun. rewrite send_run. cbn [fst snd].
    set (rq := mkRequest meth (XUIClient._get_url c ep) pl (XUIClient.auth_token c)).
    destruct (env_http env (List.length tr) rq) as [|status body cookie] eqn:E.
    + exists XUIClient.Excepted, c, [EvHttp rq HttpRaises]. mrun.
      splits; auto.
      * constructor; [|constructor]. now apply op_is_request.
      * constructor; [reflexivity | constructor].
    + assert (D := op_decided c ep (XUIClient.auth_token c) status body cookie).
      fold rq in D.
      assert (Q : is_request_of c0 meth pl all (EvHttp rq (HttpResp status body cookie)))
        by now apply op_is_request.
      destruct (classify status body) as [v| | |] eqn:C.
      * exists (XUIClient.Returned v), c, [EvHttp rq (HttpResp status body cookie)].
        mrun. splits; auto.
        exists [], (EvHttp rq (HttpResp status body cookie)).
        splits; auto. constructor.
      * mrun. rewrite ensure_authenticated_spec. cbn [XUIClient.set_authenticated XUIClient._authenticated].
        destruct (login_step env c0 (XUIClient.set_authenticated false c)
                    (tr ++ [EvHttp rq (HttpResp status body cookie)]))
          as (b & c2 & r2 & E2 & A2).
        { eapply same_account_trans; [exact A | apply same_account_flag]. }
        fold (XUIClient.set_authenticated false c). rewrite E2. cbn [fst snd].
        set (lg := EvHttp (login_request (XUIClient.set_authenticated false c)) r2).
        assert (Ql : is_request_of c0 meth pl all lg).
        { apply login_is_request.
          eapply same_account_trans; [exact A | apply same_account_flag]. }
        assert (Dl : decided classify lg = None) by apply login_undecided.
        destruct b; cbn [negb].
        -- destruct (IH env c2 ((tr ++ [EvHttp rq (HttpResp status body cookie)]) ++ [lg])
                       A2 I') as (o & c' & evs & E3 & A3 & F3 & O3).
           rewrite E3.
           exists o, c', (EvHttp rq (HttpResp status body cookie) :: lg :: evs).
           split; [now rewrite <- !app_assoc|].
           splits; auto.
           destruct o as [v| |].
           ++ destruct O3 as (evs' & e & -> & De & U).
              exists (EvHttp rq (HttpResp status body cookie) :: lg :: evs'), e.
              splits; auto. constructor; [exact D|]. constructor; [exact Dl | exact U].
           ++ constructor; [exact D|]. constructor; [exact Dl | exact O3].
           ++ constructor; [exact D|]. constructor; [exact Dl | exact O3].
        -- exists XUIClient.LoopEnded, c2, [EvHttp rq (HttpResp status body cookie); lg].
           mrun. split; [now rewrite <- !app_assoc|].
           splits; auto.
           constructor; [exact D|]. constructor; [exact Dl | constructor].
      * destruct (IH env c (tr ++ [EvHttp rq (HttpResp status body cookie)]) A I')
          as (o & c' & evs & E3 & A3 & F3 & O3).
        rewrite E3.
        exists o, c', (EvHttp rq (HttpResp status body cookie) :: evs).
        split; [now rewrite <- !app_assoc|].
        splits; auto.
        destruct o as [v| |].
        -- destruct O3 as (evs' & e & -> & De & U).
           exists (EvHttp rq (HttpResp status body cookie) :: evs'), e.
           splits; auto. constructor; [exact D | exact U].
        -- constructor; [exact D | exact O3].
        -- constructor; [exact D | exact O3].
      * exists XUIClient.Excepted, c, [EvHttp rq (HttpResp status body cookie)].
        mrun. splits; auto. constructor; [exact D | constructor].
Qed.


Lemma undecided_app l1 l2 :
  undecided classify l1 -> undecided classify l2 -> undecided classify (l1 ++ l2).
Proof. unfold undecided. intros. apply Forall_app. auto. Qed.

Lemma attempts_outcome (retry_count : Z) (failure : R) (todo : list Z) :
  forall env c tr,
    same_account c0 c ->
    exists v c' evs,
      XUIClient.attempts meth pl classify retry_count failure all todo env (c, tr)
      = (v, (c', tr ++ evs)) /\
      same_account c0 c' /\
      Forall (is_request_of c0 meth pl all) evs /\
      outcome classify failure v evs.
Proof.
  induction todo as [|n todo IH]; intros env c tr A.
  - exists failure, c, []. cbn. rewrite app_nil_r. splits; auto.
    left. split; [reflexivity | constructor].
  - cbn [XUIClient.attempts]. mrun.
    destruct (try_endpoints_outcome all env c tr A (incl_refl _))
      as (o & c1 & evs1 & E1 & A1 & F1 & O1).
    rewrite E1. cbn [fst snd].
    assert (Later : forall evs2,
               Forall (is_request_of c0 meth pl all) evs2 ->
               undecided classify evs2 ->
               undecided classify evs1 ->
               exists v c' evs,
                 XUIClient.attempts meth pl classify retry_count failure all todo env
                   (c1, (tr ++ evs1) ++ evs2) = (v, (c', tr ++ evs)) /\
                 same_account c0 c' /\
                 Forall (is_request_of c0 meth pl all) evs /\
                 outcome classify failure v evs).
    { intros evs2 F2 U2 U1.
      destruct (IH env c1 ((tr ++ evs1) ++ evs2) A1) as (v & c' & evs & E & A' & F & O).
      exists v, c', (evs1 ++ evs2 ++ evs). split; [now rewrite E, <- !app_assoc|].
      splits; auto.
      - apply Forall_app. split; [exact F1|]. apply Forall_app. auto.
      - destruct O as [[-> U]|(evs' & e & -> & De & U)].
        + left. split; [reflexivity|]. now repeat apply undecided_app.
        + right. exists (evs1 ++ evs2 ++ evs'), e. split; [now rewrite <- !app_assoc|].
          split; [exact De|]. now repeat apply undecided_app. }
    assert (Sl : forall evs, (tr ++ evs1) ++ evs = tr ++ evs1 ++ evs)
      by (intros; now rewrite app_assoc).
    destruct o as [v| |].
    + exists v, c1, evs1. mrun. splits; auto. right. exact O1.
    + destruct (n <? retry_count - 1); cbn [when]; mrun.
      * apply (Later [EvSleep 1000]); auto.
        -- constructor; [reflexivity | constructor].
        -- constructor; [reflexivity | constructor].
      * specialize (Later [] (Forall_nil _) (Forall_nil _) O1).
        rewrite app_nil_r in Later. exact Later.
    + destruct (n <? retry_count - 1); cbn [when]; mrun.
      * apply (Later [EvSleep 1000]); auto.
        -- constructor; [reflexivity | constructor].
        -- constructor; [reflexivity | constructor].
      * specialize (Later [] (Forall_nil _) (Forall_nil _) O1).
        rewrite app_nil_r in Later. exact Later.
Qed.

Lemma with_retries_outcome (retry_count : Z) (failure : R) env c tr :
  same_account c0 c ->
  exists v c' evs,
    XUIClient.with_retries meth pl classify retry_count failure all env (c, tr)
    = (v, (c', tr ++ evs)) /\
    same_account c0 c' /\
    Forall (is_request_of c0 meth pl all) evs /\
    outcome classify failure v evs.
Proof.
  intros A. unfold XUIClient.with_retries. mrun. rewrite ensure_authenticated_spec.
  destruct (XUIClient._authenticated c); cbn [fst snd negb].
  - apply attempts_outcome. exact A.
  - destruct (login_step env c0 c tr A) as (b & c1 & r & E & A1).
    rewrite E. cbn [fst snd].
    assert (Ql : is_request_of c0 meth pl all (EvHttp (login_request c) r))
      by now apply login_is_request.
    assert (Dl : decided classify (EvHttp (login_request c) r) = None)
      by apply login_undecided.
    destruct b; cbn [negb].
    + destruct (attempts_outcome retry_count failure (range retry_count) env c1
                  (tr ++ [EvHttp (login_request c) r]) A1)
        as (v & c' & evs & E2 & A2 & F2 & O2).
      rewrite E2. exists v, c', (EvHttp (login_request c) r :: evs).
      split; [now rewrite <- app_assoc|]. splits; auto.
      destruct O2 as [[-> U]|(evs' & e & -> & De & U)].
      * left. split; [reflexivity|]. constructor; auto.
      * right. exists (EvHttp (login_request c) r :: evs'), e.
        splits; auto. constructor; auto.
    + exists failure, c1, [EvHttp (login_request c) r]. mrun. splits; auto.
      left. split; [reflexivity|]. constructor; auto.
Qed.

End LoopOutcome.


Lemma str_nonempty (n : Z) : str n <> EmptyString.
Proof.
  unfold str. destruct (Z.to_int n) as [d|d]; cbn; destruct d; discriminate.
Qed.

Lemma truthy_py_or a b : truthy b = true -> truthy (py_or a b) = true.
Proof. unfold py_or. destruct (truthy a) eqn:E; auto. Qed.

Lemma classify_add_truthy port status body v :
  XUIClient.classify_add port status body = XUIClient.Done v -> truthy v = true.
Proof.
  unfold XUIClient.classify_add.
  destruct ((status =? 200) || (status =? 201)).
  - destruct body; [|discriminate]. intros [= <-].
    apply truthy_py_or, truthy_py_or. cbn.
    destruct (String.eqb_spec (str port) EmptyString) as [E|]; [|reflexivity].
    now apply str_nonempty in E.
  - destruct (status =? 401); discriminate.
Qed.


Lemma decided_remove e :
  decided XUIClient.classify_remove e
  = if answered removed_status e then Some true else None.
Proof.
  destruct e as [| | | | | | | | |rq r| | |]; try reflexivity.
  destruct r as [|status body ck]; [reflexivity|].
  unfold decided, answered, removed_status, XUIClient.classify_remove.
  destruct (is_login rq); cbn [negb andb]; [reflexivity|].
  destruct ((status =? 200) || (status =? 204)); cbn [orb]; [reflexivity|].
  destruct (status =? 404); [reflexivity|].
  destruct (status =? 401); reflexivity.
Qed.

Lemma decided_reload e :
  decided XUIClient.classify_reload e
  = if answered reloaded_status e then Some true else None.
Proof.
  destruct e as [| | | | | | | | |rq r| | |]; try reflexivity.
  destruct r as [|status body ck]; [reflexivity|].
  unfold decided, answered, reloaded_status, XUIClient.classify_reload.
  destruct (is_login rq); cbn [negb andb]; [reflexivity|].
  destruct ((status =? 200) || (status =? 204)); cbn [orb]; [reflexivity|].
  destruct (status =? 401); reflexivity.
Qed.

Lemma decided_list e :
  decided XUIClient.classify_list e
  = match e with
    | EvHttp _ (HttpResp _ (Some data) _) =>
        if answered_with_body listed_status e then Some (j_outbounds data) else None
    | _ => None
    end.
Proof.
  destruct e as [| | | | | | | | |rq r| | |]; try reflexivity.
  destruct r as [|status body ck]; [reflexivity|].
  unfold decided, answered_with_body, listed_status, XUIClient.classify_list.
  destruct (is_login rq); cbn [negb andb]; [destruct body; reflexivity|].
  destruct (status =? 200); destruct body; reflexivity.
Qed.

(** Reading an outcome with a recogniser of the final answers. *)
Lemma outcome_read {R} (classify : Z -> option json_doc -> XUIClient.verdict R)
    (ack : event -> bool) (failure v : R) (evs : list event) :
  (forall e, decided classify e = None -> ack e = false) ->
  (forall e w, decided classify e = Some w -> ack e = true) ->
  outcome classify failure v evs ->
  existsb ack (removelast evs) = false /\
  ((v = failure /\ existsb ack evs = false) \/
   (existsb ack evs = true /\
    exists evs' e, evs = evs' ++ [e] /\ decided classify e = Some v)).
Proof.
  intros N Y O.
  assert (U : forall l, undecided classify l -> existsb ack l = false).
  { intros l H. induction H as [|e l He _ IH]; [reflexivity|].
    cbn. now rewrite (N _ He), IH. }
  destruct O as [[-> H]|(evs' & e & -> & De & H)].
  - split.
    + apply U. unfold undecided in *. rewrite Forall_forall in *.
      intros x Hx. apply H. revert Hx. clear.
      induction evs as [|a [|b l] IH]; cbn; [tauto | tauto |].
      intros [->|Hx]; [now left | right; now apply IH].
    + left. split; [reflexivity | now apply U].
  - rewrite removelast_last. split; [now apply U|].
    right. split; [|eauto].
    rewrite existsb_app. cbn. rewrite (Y _ _ De). now rewrite orb_true_r.
Qed.


(** X6.  [remove_outbound] returns [True] exactly when one of its DELETE
    requests was answered 200, 204 or 404 (an outbound that is already gone
    counts as removed), and [reload_xray] exactly when one of its requests
    was answered 200 or 204; each stops at the first such answer. *)
Theorem X6_remove_reload_result (env : Env) (c : XUIClient.t) (tr : list event)
    (outbound_id : string) (retry_count : Z) :
  (fst (XUIClient.remove_outbound outbound_id retry_count env (c, tr))
   = existsb (answered removed_status)
       (events_since tr (snd (XUIClient.remove_outbound outbound_id retry_count
                                env (c, tr)))) /\
   existsb (answered removed_status)
     (removelast
        (events_since tr (snd (XUIClient.remove_outbound outbound_id retry_count
                                 env (c, tr))))) = false) /\
  (fst (XUIClient.reload_xray retry_count env (c, tr))
   = existsb (answered reloaded_status)
       (events_since tr (snd (XUIClient.reload_xray retry_count env (c, tr)))) /\
   existsb (answered reloaded_status)
     (removelast
        (events_since tr (snd (XUIClient.reload_xray retry_count env (c, tr)))))
   = false).
Proof.
  split.
  - unfold XUIClient.remove_outbound.
    destruct (with_retries_outcome _ DELETE NoPayload XUIClient.classify_remove eq_refl
                c (XUIClient.remove_endpoints outbound_id) retry_count false env c tr
                (same_account_refl c)) as (v & c' & evs & E & _ & _ & O).
    rewrite E. cbn [fst snd]. rewrite events_since_app.
    destruct (outcome_read XUIClient.classify_remove (answered removed_status)
                false v evs) as (P & Q); auto.
    + intros e H. rewrite decided_remove in H. now destruct (answered removed_status e).
    + intros e w H. rewrite decided_remove in H. now destruct (answered removed_status e).
    + split; [|exact P].
      destruct Q as [[-> ->]|(-> & evs' & e & -> & De)]; [reflexivity|].
      rewrite decided_remove in De. destruct (answered removed_status e); congruence.
  - unfold XUIClient.reload_xray.
    destruct (with_retries_outcome _ POST NoPayload XUIClient.classify_reload eq_refl
                c XUIClient.reload_endpoints retry_count false env c tr
                (same_account_refl c)) as (v & c' & evs & E & _ & _ & O).
    rewrite E. cbn [fst snd]. rewrite events_since_app.
    destruct (outcome_read XUIClient.classify_reload (answered reloaded_status)
                false v evs) as (P & Q); auto.
    + intros e H. rewrite decided_reload in H. now destruct (answered reloaded_status e).
    + intros e w H. rewrite decided_reload in H. now destruct (answered reloaded_status e).
    + split; [|exact P].
      destruct Q as [[-> ->]|(-> & evs' & e & -> & De)]; [reflexivity|].
      rewrite decided_reload in De. destruct (answered reloaded_status e); congruence.
Qed.


Lemma list_outbounds_outcome env c tr :
  exists v c' evs,
    XUIClient.list_outbounds env (c, tr) = (v, (c', tr ++ evs)) /\
    same_account c c' /\
    Forall (is_request_of c GET NoPayload XUIClient.list_endpoints) evs /\
    match v with
    | Some l => exists evs' e, evs = evs' ++ [e] /\
                               decided XUIClient.classify_list e = Some l /\
                               undecided XUIClient.classify_list evs'
    | None => undecided XUIClient.classify_list evs
    end.
Proof.
  unfold XUIClient.list_outbounds. rewrite bind_run, ensure_authenticated_spec.
  assert (G : forall c1 tr1, same_account c c1 ->
            exists v c' evs,
              bind (XUIClient.try_endpoints GET NoPayload XUIClient.classify_list
                      XUIClient.list_endpoints)
                   (fun o => match o with
                             | XUIClient.Returned v => ret (Some v)
                             | _ => ret None
                             end) env (c1, tr1) = (v, (c', tr1 ++ evs)) /\
              same_account c c' /\
              Forall (is_request_of c GET NoPayload XUIClient.list_endpoints) evs /\
              match v with
              | Some l => exists evs' e, evs = evs' ++ [e] /\
                                         decided XUIClient.classify_list e = Some l /\
                                         undecided XUIClient.classify_list evs'
              | None => undecided XUIClient.classify_list evs
              end).
  { intros c1 tr1 A. rewrite bind_run.
    destruct (try_endpoints_outcome _ GET NoPayload XUIClient.classify_list eq_refl c
                XUIClient.list_endpoints XUIClient.list_endpoints env c1 tr1 A
                (incl_refl _)) as (o & c' & evs & E & A' & F & O).
    rewrite E. destruct o as [l| |]; [exists (Some l) | exists None | exists None];
      exists c', evs; mrun; auto. }
  destruct (XUIClient._authenticated c); cbn [fst snd negb].
  - apply G, same_account_refl.
  - destruct (login_step env c c tr (same_account_refl c)) as (b & c1 & r & E & A1).
    rewrite E. cbn [fst snd].
    assert (Ql : is_request_of c GET NoPayload XUIClient.list_endpoints
                   (EvHttp (login_request c) r))
      by apply login_is_request, same_account_refl.
    assert (Dl : decided XUIClient.classify_list (EvHttp (login_request c) r) = None)
      by apply login_undecided.
    destruct b; cbn [negb].
    + destruct (G c1 (tr ++ [EvHttp (login_request c) r]) A1)
        as (v & c' & evs & E2 & A2 & F2 & O2).
      rewrite E2. exists v, c', (EvHttp (login_request c) r :: evs).
      split; [now rewrite <- app_assoc|]. splits; auto.
      destruct v as [l|].
      * destruct O2 as (evs' & e & -> & De & U).
        exists (EvHttp (login_request c) r :: evs'), e. splits; auto.
        constructor; auto.
      * constructor; auto.
    + exists None, c1, [EvHttp (login_request c) r]. mrun. splits; auto.
      constructor; auto.
Qed.

(** X7.  [list_outbounds] returns a list exactly when one of its requests
    was answered 200 with a JSON body; that answer is the last exchange, and
    the list is the one read from it.  Any other run -- a refused login,
    three other answers, an exception at the first request -- gives
    [None]. *)
Theorem X7_list_result (env : Env) (c : XUIClient.t) (tr : list event) :
  XUIClient.is_some (fst (XUIClient.list_outbounds env (c, tr)))
  = existsb (answered_with_body listed_status)
      (events_since tr (snd (XUIClient.list_outbounds env (c, tr)))) /\
  (forall l,
      fst (XUIClient.list_outbounds env (c, tr)) = Some l ->
      exists evs rq status data cookie,
        events_since tr (snd (XUIClient.list_outbounds env (c, tr)))
        = evs ++ [EvHttp rq (HttpResp status (Some data) cookie)] /\
        req_method rq = GET /\ status = 200 /\ l = j_outbounds data /\
        existsb (answered_with_body listed_status) evs = false).
Proof.
  destruct (list_outbounds_outcome env c tr) as (v & c' & evs & E & _ & F & O).
  rewrite E. cbn [fst snd]. rewrite events_since_app.
  assert (U : forall l, undecided XUIClient.classify_list l ->
                        existsb (answered_with_body listed_status) l = false).
  { intros l H. induction H as [|e l He _ IH]; [reflexivity|].
    cbn [existsb]. rewrite IH, orb_false_r. rewrite decided_list in He.
    destruct e as [| | | | | | | | |rq r| | |]; try reflexivity.
    destruct r as [|status [d|] ck]; try reflexivity.
    destruct (answered_with_body listed_status _); [discriminate | reflexivity]. }
  destruct v as [l|].
  - destruct O as (evs' & e & -> & De & Un).
    rewrite decided_list in De.
    destruct e as [| | | | | | | | |rq r| | |]; try discriminate.
    destruct r as [|status [d|] ck]; try discriminate.
    destruct (answered_with_body listed_status _) eqn:A; [|discriminate].
    injection De as <-.
    split.
    + rewrite existsb_app. cbn [existsb]. rewrite A. now rewrite orb_true_r.
    + intros l' [= <-]. exists evs', rq, status, d, ck. splits; auto.
      * apply Forall_app in F. destruct F as [_ F]. inversion F as [|x y Hx _]; subst.
        cbn in A. destruct Hx as [(_ & _ & Hp)|(Hm & _)]; [|exact Hm].
        unfold is_login in A. rewrite Hp in A. discriminate.
      * cbn in A. apply andb_prop in A. destruct A as [_ A].
        unfold listed_status in A. lia.
  - split; [|discriminate]. cbn. symmetry. now apply U.
Qed.

Lemma X7_list_result_witness :
  exists evs rq status data cookie,
    events_since [] (snd (XUIClient.list_outbounds env_ok (authenticated_client, [])))
    = evs ++ [EvHttp rq (HttpResp status (Some data) cookie)] /\
    req_method rq = GET /\ status = 200 /\
    existsb (answered_with_body listed_status) evs = false.
Proof.
  destruct (fst (XUIClient.list_outbounds env_ok (authenticated_client, []))) as [l|] eqn:E;
    [|vm_compute in E; discriminate].
  destruct (proj2 (X7_list_result env_ok authenticated_client []) l E)
    as (evs & rq & status & data & cookie & H1 & H2 & H3 & _ & H5).
  exists evs, rq, status, data, cookie. auto.
Defined.


(** X8.  Whatever the panel answers, the four operations talk to the
    configured panel only: every request is either a POST of the account's
    credentials to [api_url + "/login"] or the operation's own request
    (its method and payload) to one of its three endpoints under
    [api_url]; apart from requests an operation only pauses for one second.
    The URL, the user name and the password of the client never change. *)
Theorem X8_requests_stay_with_the_panel (env : Env) (c : XUIClient.t)
    (tr : list event) (host : string) (port : Z) (remark outbound_id : string)
    (retry_count : Z) :
  (Forall (is_request_of c POST
             (OutboundPayload host port (XUIClient.outbound_remark host port remark))
             XUIClient.add_endpoints)
     (events_since tr (snd (XUIClient.add_socks5_outbound host port remark retry_count
                              env (c, tr)))) /\
   same_account c (fst (snd (XUIClient.add_socks5_outbound host port remark retry_count
                               env (c, tr))))) /\
  (Forall (is_request_of c DELETE NoPayload (XUIClient.remove_endpoints outbound_id))
     (events_since tr (snd (XUIClient.remove_outbound outbound_id retry_count
                              env (c, tr)))) /\
   same_account c (fst (snd (XUIClient.remove_outbound outbound_id retry_count
                               env (c, tr))))) /\
  (Forall (is_request_of c POST NoPayload XUIClient.reload_endpoints)
     (events_since tr (snd (XUIClient.reload_xray retry_count env (c, tr)))) /\
   same_account c (fst (snd (XUIClient.reload_xray retry_count env (c, tr))))) /\
  (Forall (is_request_of c GET NoPayload XUIClient.list_endpoints)
     (events_since tr (snd (XUIClient.list_outbounds env (c, tr)))) /\
   same_account c (fst (snd (XUIClient.list_outbounds env (c, tr))))).
Proof.
  splits.
  - unfold XUIClient.add_socks5_outbound.
    destruct (with_retries_outcome _ POST
                (OutboundPayload host port (XUIClient.outbound_remark host port remark))
                (XUIClient.classify_add port) eq_refl c XUIClient.add_endpoints
                retry_count None env c tr (same_account_refl c))
      as (v & c' & evs & E & A & F & _).
    rewrite E. cbn [fst snd]. now rewrite events_since_app.
  - unfold XUIClient.add_socks5_outbound.
    destruct (with_retries_outcome _ POST
                (OutboundPayload host port (XUIClient.outbound_remark host port remark))
                (XUIClient.classify_add port) eq_refl c XUIClient.add_endpoints
                retry_count None env c tr (same_account_refl c))
      as (v & c' & evs & E & A & F & _).
    rewrite E. exact A.
  - unfold XUIClient.remove_outbound.
    destruct (with_retries_outcome _ DELETE NoPayload XUIClient.classify_remove eq_refl
                c (XUIClient.remove_endpoints outbound_id) retry_count false env c tr
                (same_account_refl c)) as (v & c' & evs & E & A & F & _).
    rewrite E. cbn [fst snd]. now rewrite events_since_app.
  - unfold XUIClient.remove_outbound.
    destruct (with_retries_outcome _ DELETE NoPayload XUIClient.classify_remove eq_refl
                c (XUIClient.remove_endpoints outbound_id) retry_count false env c tr
                (same_account_refl c)) as (v & c' & evs & E & A & F & _).
    rewrite E. exact A.
  - unfold XUIClient.reload_xray.
    destruct (with_retries_outcome _ POST NoPayload XUIClient.classify_reload eq_refl
                c XUIClient.reload_endpoints retry_count false env c tr
                (same_account_refl c)) as (v & c' & evs & E & A & F & _).
    rewrite E. cbn [fst snd]. now rewrite events_since_app.
  - unfold XUIClient.reload_xray.
    destruct (with_retries_outcome _ POST NoPayload XUIClient.classify_reload eq_refl
                c XUIClient.reload_endpoints retry_count false env c tr
                (same_account_refl c)) as (v & c' & evs & E & A & F & _).
    rewrite E. exact A.
  - destruct (list_outbounds_outcome env c tr) as (v & c' & evs & E & A & F & _).
    rewrite E. cbn [fst snd]. now rewrite events_since_app.
  - destruct (list_outbounds_outcome env c tr) as (v & c' & evs & E & A & F & _).
    rewrite E. exact A.
Qed.

(** X3.  A client that holds no session and whose login is refused gives up
    at once: each of the four operations returns its failure value after
    the one login request, sends no request of its own, and leaves the
    client as it was. *)
Theorem X3_refused_login_ends_the_operation (env : Env) (c : XUIClient.t)
    (tr : list event) (host : string) (port : Z) (remark outbound_id : string)
    (retry_count : Z) :
  XUIClient._authenticated c = false ->
  login_accepted (env_http env (List.length tr) (login_request c)) = false ->
  XUIClient.add_socks5_outbound host port remark retry_count env (c, tr)
  = (None, (c, tr ++ [EvHttp (login_request c)
                        (env_http env (List.length tr) (login_request c))])) /\
  XUIClient.remove_outbound outbound_id retry_count env (c, tr)
  = (false, (c, tr ++ [EvHttp (login_request c)
                         (env_http env (List.length tr) (login_request c))])) /\
  XUIClient.reload_xray retry_count env (c, tr)
  = (false, (c, tr ++ [EvHttp (login_request c)
                         (env_http env (List.length tr) (login_request c))])) /\
  XUIClient.list_outbounds env (c, tr)
  = (None, (c, tr ++ [EvHttp (login_request c)
                        (env_http env (List.length tr) (login_request c))])).
Proof.
  intros A L.
  unfold XUIClient.add_socks5_outbound, XUIClient.remove_outbound,
    XUIClient.reload_xray, XUIClient.list_outbounds, XUIClient.with_retries.
  rewrite !bind_run, ensure_authenticated_spec, A, login_spec, L. cbn [fst snd negb].
  splits; reflexivity.
Qed.

Lemma X3_refused_login_ends_the_operation_witness :
  XUIClient.remove_outbound "9090" 3 env_down
    (XUIClient.init "http://127.0.0.1:2053" "admin" EmptyString, [])
  = (false, (XUIClient.init "http://127.0.0.1:2053" "admin" EmptyString,
             [EvHttp (login_request
                        (XUIClient.init "http://127.0.0.1:2053" "admin" EmptyString))
                HttpRaises])).
Proof.
  apply (X3_refused_login_ends_the_operation env_down
           (XUIClient.init "http://127.0.0.1:2053" "admin" EmptyString) []
           "127.0.0.1" 9090 "DNSTT-0-SSH-0" "9090" 3); reflexivity.
Defined.

(** X4.  With [retry_count <= 0] the loop over the attempts is empty: a
    client that holds a session returns the failure value of
    [add_socks5_outbound], [remove_outbound] and [reload_xray] without
    sending anything. *)
Theorem X4_no_attempts (env : Env) (c : XUIClient.t) (tr : list event)
    (host : string) (port : Z) (remark outbound_id : string) (retry_count : Z) :
  XUIClient._authenticated c = true ->
  retry_count <= 0 ->
  XUIClient.add_socks5_outbound host port remark retry_count env (c, tr)
  = (None, (c, tr)) /\
  XUIClient.remove_outbound outbound_id retry_count env (c, tr) = (false, (c, tr)) /\
  XUIClient.reload_xray retry_count env (c, tr) = (false, (c, tr)).
Proof.
  intros A H.
  assert (E : range retry_count = []).
  { unfold range. replace (Z.to_nat retry_count) with 0%nat by lia. reflexivity. }
  unfold XUIClient.add_socks5_outbound, XUIClient.remove_outbound,
    XUIClient.reload_xray, XUIClient.with_retries.
  rewrite !bind_run, ensure_authenticated_spec, A, E. cbn [fst snd negb].
  splits; reflexivity.
Qed.

Lemma X4_no_attempts_witness :
  XUIClient.reload_xray 0 env_ok (authenticated_client, [])
  = (false, (authenticated_client, [])).
Proof.
  apply (X4_no_attempts env_ok authenticated_client [] "127.0.0.1" 9090
           "DNSTT-0-SSH-0" "9090" 0); [reflexivity | lia].
Defined.


(** X9.  [check_tunnel_health] probes in two steps and stops at the first
    failure.  When [connect_ex] does not return 0 the result is [False] and
    no request is made through the proxy.  When the port accepts the
    connection, one GET of the test URL goes through
    [socks5://host:port], and the tunnel is healthy exactly when that
    request produced a response, whatever its status. *)
Theorem X9_check_tunnel_health (St : Type) (timeout : Z) (host : string)
    (port : Z) (test_url : string) (env : Env) (s : St) (tr : list event) :
  (env_connect env (List.length tr) host port timeout <> Some 0 ->
   HealthChecker.check_tunnel_health timeout host port test_url env (s, tr)
   = (false,
      (s, tr ++ [EvConnect host port timeout
                   (env_connect env (List.length tr) host port timeout)]))) /\
  (env_connect env (List.length tr) host port timeout = Some 0 ->
   HealthChecker.check_tunnel_health timeout host port test_url env (s, tr)
   = (match env_proxy_get env (S (List.length tr)) test_url
              (HealthChecker.socks5_url host port) timeout with
      | ProxyResponse _ => true
      | _ => false
      end,
      (s, tr ++ [EvConnect host port timeout (Some 0);
                 EvProxyGet test_url (HealthChecker.socks5_url host port) timeout
                   (env_proxy_get env (S (List.length tr)) test_url
                      (HealthChecker.socks5_url host port) timeout)]))).
Proof.
  assert (L : forall e : event, List.length (tr ++ [e]) = S (List.length tr)).
  { intros e. rewrite length_app. simpl. lia. }
  unfold HealthChecker.check_tunnel_health, HealthChecker.is_port_listening,
    HealthChecker.test_socks5_connectivity.
  split.
  - intros H. mrun.
    destruct (env_connect env (List.length tr) host port timeout) as [e|]; mrun.
    + destruct (Z.eqb_spec e 0) as [->|N]; [congruence|]. reflexivity.
    + reflexivity.
  - intros E. mrun. rewrite E. mrun. cbn [Z.eqb negb]. mrun.
    rewrite L, <- app_assoc. cbn [app].
    destruct (env_proxy_get env (S (List.length tr)) test_url
                (HealthChecker.socks5_url host port) timeout); reflexivity.
Qed.

Lemma X9_check_tunnel_health_witness :
  HealthChecker.check_tunnel_health 5 "127.0.0.1" 9090 default_test_url env_ok (tt, [])
  = (true,
     (tt, [EvConnect "127.0.0.1" 9090 5 (Some 0);
           EvProxyGet default_test_url "socks5://127.0.0.1:9090" 5 (ProxyResponse 200)])).
Proof.
  apply (X9_check_tunnel_health unit 5 "127.0.0.1" 9090 default_test_url env_ok tt []).
  reflexivity.
Defined.


Section DictUpdates.
Variables K V : Type.
Variable eqb : K -> K -> bool.
Hypothesis eqb_spec : forall a b, reflect (a = b) (eqb a b).

Lemma set_set (d : PyDict.t K V) k v w :
  PyDict.set eqb (PyDict.set eqb d k v) k w = PyDict.set eqb d k w.
Proof.
  induction d as [|[k' v'] d IH]; cbn.
  - now rewrite (eqb_refl _ _ eqb_spec).
  - destruct (eqb_spec k k') as [->|N]; cbn.
    + now rewrite (eqb_refl _ _ eqb_spec).
    + rewrite (eqb_neq _ _ eqb_spec _ _ N). now rewrite IH.
Qed.

Lemma set_same (d : PyDict.t K V) k v :
  PyDict.get eqb d k = Some v -> PyDict.set eqb d k v = d.
Proof.
  induction d as [|[k' v'] d IH]; cbn; [discriminate|].
  destruct (eqb_spec k k') as [->|N].
  - now intros [= ->].
  - intros H. now rewrite IH.
Qed.

Lemma update_absent (d : PyDict.t K V) k f :
  PyDict.get eqb d k = None -> PyDict.update eqb d k f = d.
Proof. unfold PyDict.update. now intros ->. Qed.

Lemma update_update (d : PyDict.t K V) k f g :
  PyDict.update eqb (PyDict.update eqb d k f) k g
  = PyDict.update eqb d k (fun v => g (f v)).
Proof.
  unfold PyDict.update. destruct (PyDict.get eqb d k) as [v|] eqn:E.
  - rewrite (get_set_eq _ _ _ eqb_spec). apply set_set.
  - now rewrite E.
Qed.

Lemma update_ext (d : PyDict.t K V) k f g :
  (forall v, f v = g v) -> PyDict.update eqb d k f = PyDict.update eqb d k g.
Proof. intros H. unfold PyDict.update. destruct (PyDict.get eqb d k); now rewrite ?H. Qed.

Lemma update_fix (d : PyDict.t K V) k f :
  (forall v, PyDict.get eqb d k = Some v -> f v = v) -> PyDict.update eqb d k f = d.
Proof.
  intros H. unfold PyDict.update. destruct (PyDict.get eqb d k) as [v|] eqn:E; [|reflexivity].
  rewrite (H v eq_refl). now apply set_same.
Qed.

End DictUpdates.

Lemma set_xui_client_same m : set_xui_client (xui_client m) m = m.
Proof. now destruct m. Qed.

Lemma set_xui_client_update_ssh k f m :
  set_xui_client (xui_client m) (update_ssh k f m) = update_ssh k f m.
Proof. now destruct m. Qed.

Lemma set_xui_client_update_dnstt t f m :
  set_xui_client (xui_client m) (update_dnstt t f m) = update_dnstt t f m.
Proof. now destruct m. Qed.

Lemma update_ssh_absent k f m : get_ssh m k = None -> update_ssh k f m = m.
Proof.
  intros H. unfold update_ssh, get_ssh in *. rewrite update_absent by exact H.
  now destruct m.
Qed.

Lemma update_dnstt_absent t f m : get_dnstt m t = None -> update_dnstt t f m = m.
Proof.
  intros H. unfold update_dnstt, get_dnstt in *. rewrite update_absent by exact H.
  now destruct m.
Qed.

Lemma update_ssh_twice k f g m :
  update_ssh k g (update_ssh k f m) = update_ssh k (fun r => g (f r)) m.
Proof.
  unfold update_ssh. cbn. now rewrite (update_update _ _ _ key_eqb_spec).
Qed.

Lemma update_dnstt_twice t f g m :
  update_dnstt t g (update_dnstt t f m) = update_dnstt t (fun r => g (f r)) m.
Proof.
  unfold update_dnstt. cbn. now rewrite (update_update _ _ _ Z.eqb_spec).
Qed.

Lemma update_ssh_ext k f g m :
  (forall r, f r = g r) -> update_ssh k f m = update_ssh k g m.
Proof. intros H. unfold update_ssh. now rewrite (update_ext _ _ _ _ _ _ _ H). Qed.

Lemma update_dnstt_ext t f g m :
  (forall r, f r = g r) -> update_dnstt t f m = update_dnstt t g m.
Proof. intros H. unfold update_dnstt. now rewrite (update_ext _ _ _ _ _ _ _ H). Qed.

Lemma update_ssh_fix k f m :
  (forall r, get_ssh m k = Some r -> f r = r) -> update_ssh k f m = m.
Proof.
  intros H. unfold update_ssh, get_ssh in *.
  rewrite (update_fix _ _ _ key_eqb_spec) by exact H. now destruct m.
Qed.

Lemma update_ssh_xui k f c m :
  update_ssh k f (set_xui_client c m) = set_xui_client c (update_ssh k f m).
Proof. reflexivity. Qed.

Lemma update_dnstt_xui t f c m :
  update_dnstt t f (set_xui_client c m) = set_xui_client c (update_dnstt t f m).
Proof. reflexivity. Qed.

Lemma set_xui_client_twice c c' m :
  set_xui_client c (set_xui_client c' m) = set_xui_client c m.
Proof. reflexivity. Qed.

Lemma halted_ssh_stopped r : halted_ssh (ssh_stopped r).
Proof. unfold halted_ssh. cbn. auto. Qed.

Lemma halted_ssh_fix r : halted_ssh r -> ssh_stopped r = r.
Proof. destruct r. unfold halted_ssh. cbn. intros (-> & -> & -> & ->). reflexivity. Qed.

Lemma halted_dnstt_stopped d : halted_dnstt (dnstt_stopped d).
Proof. unfold halted_dnstt. cbn. auto. Qed.

Lemma halted_dnstt_fix d : halted_dnstt d -> dnstt_stopped d = d.
Proof. destruct d. unfold halted_dnstt. cbn. intros (-> & -> & ->). reflexivity. Qed.

(** What [stop_ssh_tunnel] does to the manager, whatever happens outside. *)
Lemma stop_ssh_exact env s t sid :
  wp (stop_ssh_tunnel t sid) env s
     (fun ok s' =>
        ok = true /\
        exists c', fst s' = set_xui_client c' (update_ssh (t, sid) ssh_stopped (fst s))).
Proof.
  destruct s as [m tr]. unfold stop_ssh_tunnel. wp_go.
  all: try match goal with
           | |- _ /\ _ => split; [reflexivity|]
           end.
  all: try (rewrite ?update_ssh_xui, ?set_xui_client_twice, update_ssh_twice;
            eexists; f_equal; apply update_ssh_ext; intros []; reflexivity).
  all: try (exists (xui_client m);
            rewrite ?update_ssh_twice, set_xui_client_update_ssh;
            try (apply update_ssh_ext; intros []; reflexivity)).
  now rewrite update_ssh_absent by assumption.
Qed.


(** X10.  [stop_ssh_tunnel] always returns [True], whatever the panel and
    the process do.  The record under the key, if there is one, is left
    STOPPED with process, pid and outbound id cleared and its ports,
    restart count and last check untouched; no other SSH record, no DNSTT
    record, no key of the fleet and neither the configuration nor the
    running flag changes. *)
Theorem X10_stop_ssh_tunnel_effect (env : Env) (m : TunnelManager.t)
    (tr : list event) (tunnel_id ssh_id : Z) :
  fst (stop_ssh_tunnel tunnel_id ssh_id env (m, tr)) = true /\
  get_ssh (fst (snd (stop_ssh_tunnel tunnel_id ssh_id env (m, tr)))) (tunnel_id, ssh_id)
  = option_map ssh_stopped (get_ssh m (tunnel_id, ssh_id)) /\
  (forall k, k <> (tunnel_id, ssh_id) ->
     get_ssh (fst (snd (stop_ssh_tunnel tunnel_id ssh_id env (m, tr)))) k = get_ssh m k) /\
  dnstt_tunnels (fst (snd (stop_ssh_tunnel tunnel_id ssh_id env (m, tr))))
  = dnstt_tunnels m /\
  PyDict.keys (ssh_tunnels (fst (snd (stop_ssh_tunnel tunnel_id ssh_id env (m, tr)))))
  = PyDict.keys (ssh_tunnels m) /\
  config (fst (snd (stop_ssh_tunnel tunnel_id ssh_id env (m, tr)))) = config m /\
  running (fst (snd (stop_ssh_tunnel tunnel_id ssh_id env (m, tr)))) = running m.
Proof.
  destruct (stop_ssh_exact env (m, tr) tunnel_id ssh_id) as (Ok & c' & E).
  cbn [fst] in E. rewrite E. split; [exact Ok|].
  split; [|split; [|split; [|split; [|split]]]].
  - autorewrite with fleet. now rewrite key_eqb_refl.
  - intros k N. autorewrite with fleet. rewrite key_eqb_neq by congruence. reflexivity.
  - reflexivity.
  - cbn. apply (keys_update _ _ _ key_eqb_spec).
  - reflexivity.
  - reflexivity.
Qed.

(** A record without outbound id and without process is stopped without
    any interaction. *)
Lemma stop_ssh_silent env m tr t sid r :
  get_ssh m (t, sid) = Some r ->
  truthy (SSHTunnel.xui_outbound_id r) = false ->
  SSHTunnel.process r = None ->
  stop_ssh_tunnel t sid env (m, tr) = (true, (update_ssh (t, sid) ssh_stopped m, tr)).
Proof.
  intros G O P. unfold stop_ssh_tunnel. mrun. rewrite G. mrun.
  rewrite get_ssh_update_ssh, key_eqb_refl, G. cbn [option_map]. mrun.
  change (SSHTunnel.xui_outbound_id (SSHTunnel.set_state STOPPING r))
    with (SSHTunnel.xui_outbound_id r).
  change (SSHTunnel.process (SSHTunnel.set_state STOPPING r))
    with (SSHTunnel.process r).
  rewrite P.
  assert (E : update_ssh (t, sid) ssh_stopped
                (update_ssh (t, sid) (SSHTunnel.set_state STOPPING) m)
              = update_ssh (t, sid) ssh_stopped m).
  { rewrite update_ssh_twice. apply update_ssh_ext. intros []. reflexivity. }
  destruct (SSHTunnel.xui_outbound_id r) as [oid|] eqn:X.
  - rewrite O. mrun. cbn [stop_process]. mrun. now rewrite E.
  - mrun. cbn [stop_process]. mrun. now rewrite E.
Qed.

(** X11.  Stopping an SSH tunnel a second time is a no-op: the second call
    returns [True] without contacting the panel or signalling a process,
    and leaves the manager exactly as the first call left it. *)
Theorem X11_stop_ssh_tunnel_twice (env env' : Env) (m : TunnelManager.t)
    (tr : list event) (tunnel_id ssh_id : Z) :
  stop_ssh_tunnel tunnel_id ssh_id env'
    (snd (stop_ssh_tunnel tunnel_id ssh_id env (m, tr)))
  = (true, snd (stop_ssh_tunnel tunnel_id ssh_id env (m, tr))).
Proof.
  destruct (stop_ssh_exact env (m, tr) tunnel_id ssh_id) as (_ & c' & E).
  destruct (stop_ssh_tunnel tunnel_id ssh_id env (m, tr)) as [ok [m1 tr1]].
  cbn [fst snd] in *. subst m1.
  destruct (get_ssh m (tunnel_id, ssh_id)) as [r|] eqn:G.
  - rewrite (stop_ssh_silent env' _ tr1 tunnel_id ssh_id (ssh_stopped r)).
    + rewrite update_ssh_xui, update_ssh_twice.
      rewrite (update_ssh_ext _ (fun r0 => ssh_stopped (ssh_stopped r0)) ssh_stopped);
        [reflexivity | now intros []].
    + autorewrite with fleet. now rewrite key_eqb_refl, G.
    + reflexivity.
    + reflexivity.
  - unfold stop_ssh_tunnel. mrun. autorewrite with fleet.
    rewrite key_eqb_refl, G. reflexivity.
Qed.


(** What the two start operations do to the manager. *)
Lemma start_dnstt_exact env s tid port :
  wp (start_dnstt_tunnel tid port) env s
     (fun ok s' =>
        (ok = false /\ fst s' = fst s) \/
        (ok = true /\
         exists p n, fst s' = update_dnstt tid (dnstt_started p n) (fst s))).
Proof.
  destruct s as [m tr]. unfold start_dnstt_tunnel. wp_go.
  apply wp_keeps; [apply keeps_launch, keeps_check_dnstt_port|].
  intros [p|] tr1; cbn [fst snd]; wp_go.
  - right. split; [reflexivity|]. eauto.
  - right. split; [reflexivity|]. exists p, 0.
    now rewrite update_dnstt_absent by assumption.
  - left. auto.
Qed.

Lemma start_ssh_exact env s tid sid dp sp :
  wp (start_ssh_tunnel tid sid dp sp) env s
     (fun ok s' =>
        (ok = false /\ fst s' = fst s) \/
        (ok = true /\
         exists p n oid c',
           fst s' = set_xui_client c'
                      (update_ssh (tid, sid) (ssh_started p n oid) (fst s)))).
Proof.
  destruct s as [m tr]. unfold start_ssh_tunnel. wp_go.
  apply wp_keeps; [apply keeps_launch, keeps_port_listening|].
  intros [p|] tr1; cbn [fst snd]; wp_go.
  all: try (left; split; reflexivity).
  all: right; split; [reflexivity|].
  all: try (rewrite ?update_ssh_xui, ?set_xui_client_twice; do 4 eexists; reflexivity).
  all: exists p, 0, None; eexists;
       rewrite (update_ssh_absent (tid, sid) _ m) by
         (autorewrite with fleet in *; assumption);
       reflexivity.
Qed.


Ltac idp := let r := fresh "r" in intros r; destruct r; cbn; auto.

Ltac frame_close HJ :=
  repeat first
    [ assumption
    | apply (proj1 HJ); [idp|]
    | apply (proj1 (proj2 HJ)); [idp|]
    | apply (proj2 (proj2 HJ)) ].

Section Frame.
Variable J : TunnelManager.t -> Prop.
Hypothesis HJ : stable J.

Lemma frame_stop_ssh env s t sid :
  J (fst s) -> wp (stop_ssh_tunnel t sid) env s (fun _ s' => J (fst s')).
Proof.
  intros H. eapply wp_conseq; [apply stop_ssh_exact|].
  intros ok s' (_ & c' & ->). frame_close HJ.
Qed.

Lemma frame_start_ssh env s tid sid dp sp :
  J (fst s) -> wp (start_ssh_tunnel tid sid dp sp) env s (fun _ s' => J (fst s')).
Proof.
  intros H. eapply wp_conseq; [apply start_ssh_exact|].
  intros ok s' [(_ & ->)|(_ & p & n & oid & c' & ->)]; frame_close HJ.
Qed.

Lemma frame_start_dnstt env s tid port :
  J (fst s) -> wp (start_dnstt_tunnel tid port) env s (fun _ s' => J (fst s')).
Proof.
  intros H. eapply wp_conseq; [apply start_dnstt_exact|].
  intros ok s' [(_ & ->)|(_ & p & n & ->)]; frame_close HJ.
Qed.

Ltac frame_call :=
  eapply wp_conseq;
  [ first [ apply frame_stop_ssh | apply frame_start_ssh | apply frame_start_dnstt ];
    frame_close HJ
  | let m := fresh "m" in let H := fresh "H" in
    intros ? [m ?] H; cbn [fst snd] in H |- * ].

Lemma frame_stop_dnstt env s tid :
  J (fst s) -> wp (stop_dnstt_tunnel tid) env s (fun _ s' => J (fst s')).
Proof.
  destruct s as [m tr]. cbn [fst]. intros H. unfold stop_dnstt_tunnel. wp_go; [|exact H].
  eapply wp_conseq.
  { apply (wp_for_each _ _ env (fun s => J (fst s))).
    - intros x [m1 tr1] _ H1. cbn [fst] in H1. wp_go. frame_call. wp_go. exact H0.
    - cbn [fst]. frame_close HJ. }
  intros ? [m2 ?] H2. cbn [fst snd] in H2 |- *. wp_go; frame_close HJ.
Qed.

Lemma frame_restart_children env s tid port :
  J (fst s) -> wp (restart_children tid port) env s (fun _ s' => J (fst s')).
Proof.
  intros H. unfold restart_children. wp_go.
  apply (wp_for_each _ _ env (fun s => J (fst s))); [|exact H].
  intros sid [m1 tr1] _ H1. cbn [fst] in H1. wp_go.
  - frame_call. wp_go. assumption.
  - exact H1.
Qed.

Lemma frame_touch_dnstt env s tid :
  J (fst s) -> wp (touch_dnstt tid) env s (fun _ s' => J (fst s')).
Proof. intros H. unfold touch_dnstt. wp_go. frame_close HJ. Qed.

Lemma frame_touch_ssh env s k :
  J (fst s) -> wp (touch_ssh k) env s (fun _ s' => J (fst s')).
Proof. intros H. unfold touch_ssh. wp_go. frame_close HJ. Qed.

Ltac frame_call2 :=
  eapply wp_conseq;
  [ first [ apply frame_stop_ssh | apply frame_start_ssh | apply frame_start_dnstt
          | apply frame_stop_dnstt | apply frame_restart_children
          | apply frame_touch_dnstt | apply frame_touch_ssh ];
    frame_close HJ
  | let m := fresh "m" in let H := fresh "H" in
    intros ? [m ?] H; cbn [fst snd] in H |- * ].

Ltac frame_all := repeat first [wp_step | wp_keep | frame_call2 | progress frame_close HJ].

Lemma frame_check_ssh env s k :
  J (fst s) -> wp (check_ssh k) env s (fun _ s' => J (fst s')).
Proof.
  destruct s as [m tr]. cbn [fst]. intros H. unfold check_ssh. frame_all.
Qed.

Lemma frame_check_dnstt env s tid :
  J (fst s) -> wp (check_dnstt tid) env s (fun _ s' => J (fst s')).
Proof.
  destruct s as [m tr]. cbn [fst]. intros H. unfold check_dnstt. frame_all.
Qed.

Lemma frame_monitor_pass env s :
  J (fst s) -> wp monitor_pass env s (fun _ s' => J (fst s')).
Proof.
  destruct s as [m tr]. cbn [fst]. intros H. unfold monitor_pass. wp_all.
  eapply wp_conseq.
  { apply (wp_for_each_ok _ _ env (fun s => J (fst s))); [|exact H].
    intros tid s1 _ H1. now apply frame_check_dnstt. }
  intros ok [m1 ?] H1. cbn [fst snd] in H1 |- *. wp_all; [exact H1|].
  eapply wp_conseq.
  { apply (wp_for_each_ok _ _ env (fun s => J (fst s))); [|exact H1].
    intros k s2 _ H2. now apply frame_check_ssh. }
  intros ok' [m2 ?] H2. cbn [fst snd] in H2 |- *. wp_all; exact H2.
Qed.

Lemma frame_bring_up env s tid :
  J (fst s) -> wp (bring_up tid) env s (fun _ s' => J (fst s')).
Proof.
  destruct s as [m tr]. cbn [fst]. intros H. unfold bring_up. wp_go; [|exact H].
  frame_call2. wp_go; [exact H0|].
  apply (wp_for_each _ _ env (fun s => J (fst s))); [|exact H0].
  intros sid [m1 tr1] _ H1. cbn [fst] in H1. frame_all.
Qed.

Lemma frame_stop env s :
  flag_stable J -> J (fst s) -> wp stop env s (fun _ s' => J (fst s')).
Proof.
  destruct s as [m tr]. cbn [fst]. intros F H. unfold stop. wp_go; [exact H|].
  apply (wp_for_each _ _ env (fun s => J (fst s))).
  - intros t [m1 tr1] _ H1. cbn [fst] in H1. wp_go. frame_call2. wp_go. assumption.
  - cbn [fst]. apply F, F, H.
Qed.

End Frame.


Lemma same_plan_refl m : same_plan m m.
Proof.
  unfold same_plan. splits; auto.
  - intros t d d' H H'. rewrite H in H'. injection H' as <-. auto.
  - intros k r r' H H'. rewrite H in H'. injection H' as <-. auto.
Qed.

Lemma same_plan_stable m0 : stable (same_plan m0).
Proof.
  unfold stable. splits.
  - intros k f m F (C & Kd & Ks & D & S). unfold same_plan. splits; auto.
    + cbn. rewrite <- Ks. apply (keys_update _ _ _ key_eqb_spec).
    + intros k' r r' G G'. rewrite get_ssh_update_ssh in G'.
      destruct (key_eqb k k').
      * destruct (get_ssh m k') as [r1|] eqn:E; [|discriminate].
        injection G' as <-. destruct (F r1) as (F1 & F2 & F3).
        destruct (S _ _ _ G E) as (S1 & S2 & S3). splits; congruence.
      * eauto.
  - intros t f m F (C & Kd & Ks & D & S). unfold same_plan. splits; auto.
    + cbn. rewrite <- Kd. apply (keys_update _ _ _ Z.eqb_spec).
    + intros t' d d' G G'. rewrite get_dnstt_update_dnstt in G'.
      destruct (t =? t').
      * destruct (get_dnstt m t') as [d1|] eqn:E; [|discriminate].
        injection G' as <-. destruct (F d1) as (F1 & F2).
        destruct (D _ _ _ G E) as (D1 & D2). splits; congruence.
      * eauto.
  - intros c m H. exact H.
Qed.

Lemma same_plan_flag_stable m0 : flag_stable (same_plan m0).
Proof. intros b m H. split; exact H. Qed.

Lemma same_plan_present_ssh m m' k r' :
  same_plan m m' -> get_ssh m' k = Some r' -> exists r, get_ssh m k = Some r.
Proof.
  intros (_ & _ & Ks & _) G. destruct (get_ssh m k) as [r|] eqn:E; [eauto|].
  exfalso. unfold get_ssh in *.
  apply (get_None_notin _ _ _ key_eqb_spec) in E. rewrite <- Ks in E.
  apply (get_None_notin _ _ _ key_eqb_spec) in E. congruence.
Qed.

Lemma same_plan_present_dnstt m m' t d' :
  same_plan m m' -> get_dnstt m' t = Some d' -> exists d, get_dnstt m t = Some d.
Proof.
  intros (_ & Kd & _) G. destruct (get_dnstt m t) as [d|] eqn:E; [eauto|].
  exfalso. unfold get_dnstt in *.
  apply (get_None_notin _ _ _ Z.eqb_spec) in E. rewrite <- Kd in E.
  apply (get_None_notin _ _ _ Z.eqb_spec) in E. congruence.
Qed.

Lemma same_plan_disjoint m m' :
  same_plan m m' -> port_disjointness m -> port_disjointness m'.
Proof.
  intros P (A & B & C). pose proof P as (_ & _ & _ & D & S).
  unfold port_disjointness, socks_ports_distinct, local_ports_distinct,
    local_socks_disjoint in *.
  splits.
  - intros k k' r r' G G' N.
    destruct (same_plan_present_ssh _ _ _ _ P G) as [r0 G0].
    destruct (same_plan_present_ssh _ _ _ _ P G') as [r0' G0'].
    destruct (S _ _ _ G0 G) as (_ & _ & ->).
    destruct (S _ _ _ G0' G') as (_ & _ & ->). eauto.
  - intros i i' d d' G G' N.
    destruct (same_plan_present_dnstt _ _ _ _ P G) as [d0 G0].
    destruct (same_plan_present_dnstt _ _ _ _ P G') as [d0' G0'].
    destruct (D _ _ _ G0 G) as (_ & ->).
    destruct (D _ _ _ G0' G') as (_ & ->). eauto.
  - intros i k d r G G'.
    destruct (same_plan_present_dnstt _ _ _ _ P G) as [d0 G0].
    destruct (same_plan_present_ssh _ _ _ _ P G') as [r0 G0'].
    destruct (D _ _ _ G0 G) as (_ & ->).
    destruct (S _ _ _ G0' G') as (_ & _ & ->). eauto.
Qed.

(** X12.  The port plan is fixed once the records exist.  Starting or
    stopping a DNSTT or an SSH tunnel, a monitor pass (with its restarts)
    and [stop()] never add or remove a record, never reorder the keys, and
    never change a record's tunnel id, SSH id, local port or SOCKS5 port,
    nor the configuration; so a port plan that is free of collisions stays
    free of collisions. *)
Theorem X12_port_plan_is_kept (mu : mutator) (env : Env) (m : TunnelManager.t)
    (tr : list event) :
  works_on_fleet mu = true ->
  same_plan m (fst (snd (run mu env (m, tr)))) /\
  (port_disjointness m -> port_disjointness (fst (snd (run mu env (m, tr))))).
Proof.
  intros W.
  assert (P : same_plan m (fst (snd (run mu env (m, tr))))).
  { assert (H0 : same_plan m (fst (m, tr))) by apply same_plan_refl.
    pose proof (same_plan_stable m) as St.
    change (wp (run mu) env (m, tr) (fun _ s' => same_plan m (fst s'))).
    destruct mu; try discriminate; cbn [run].
    - apply wp_bind. eapply wp_conseq; [apply (frame_start_dnstt (same_plan m) St); exact H0|].
      intros ? ? H. now apply wp_ret.
    - apply wp_bind. eapply wp_conseq; [apply (frame_stop_dnstt (same_plan m) St); exact H0|].
      intros ? ? H. now apply wp_ret.
    - apply wp_bind. eapply wp_conseq; [apply (frame_start_ssh (same_plan m) St); exact H0|].
      intros ? ? H. now apply wp_ret.
    - apply wp_bind. eapply wp_conseq; [apply (frame_stop_ssh (same_plan m) St); exact H0|].
      intros ? ? H. now apply wp_ret.
    - apply (frame_monitor_pass (same_plan m) St); exact H0.
    - apply (frame_stop (same_plan m) St); [apply same_plan_flag_stable | exact H0]. }
  split; [exact P|]. now apply same_plan_disjoint.
Qed.

Lemma X12_port_plan_is_kept_witness :
  same_plan (create_records (init clean_config))
    (fst (snd (run MonitorPass env_ok (create_records (init clean_config), [])))).
Proof.
  apply (X12_port_plan_is_kept MonitorPass env_ok (create_records (init clean_config)) []).
  reflexivity.
Defined.


(** A loop whose body keeps [I], achieves [P x] for its own element and
    does not undo what was achieved for the others. *)
Lemma wp_for_each_all {S A} (l : list A) (body : A -> M S unit) env
    (I : S * list event -> Prop) (P : A -> S * list event -> Prop) :
  (forall x s, In x l -> I s ->
     wp (body x) env s
        (fun _ s' => I s' /\ P x s' /\ forall y, P y s -> P y s')) ->
  forall s, I s ->
    wp (for_each l body) env s
       (fun _ s' => I s' /\ (forall x, In x l -> P x s') /\
                    forall y, P y s -> P y s').
Proof.
  induction l as [|a l IH]; intros H s Hs.
  - cbn [for_each]. apply wp_ret. splits; auto. intros x [].
  - cbn [for_each]. apply wp_bind.
    eapply wp_conseq; [apply H; [now left | exact Hs]|].
    intros _ s1 (I1 & Pa & K1). cbn beta.
    eapply wp_conseq.
    { apply IH; [|exact I1]. intros x s0 Hx. apply H. now right. }
    intros _ s2 (I2 & Pl & K2). cbn beta. splits; auto.
    intros x [<-|Hx]; auto.
Qed.

Lemma ssh_stopped_twice r : ssh_stopped (ssh_stopped r) = ssh_stopped r.
Proof. now destruct r. Qed.


Lemma option_map_ssh_stopped_twice o :
  option_map ssh_stopped (option_map ssh_stopped o) = option_map ssh_stopped o.
Proof. destruct o; cbn; [now rewrite ssh_stopped_twice | reflexivity]. Qed.

(** What the loop of [stop_dnstt_tunnel] over the children does. *)
Lemma stop_children_exact (l : list SSHTunnel.t) env s tid :
  wp (for_each l (fun ssh_tunnel =>
                    stop_ssh_tunnel tid (SSHTunnel.ssh_id ssh_tunnel) ;;; ret tt))
     env s
     (fun _ s' =>
        dnstt_tunnels (fst s') = dnstt_tunnels (fst s) /\
        config (fst s') = config (fst s) /\
        running (fst s') = running (fst s) /\
        _shutdown_event (fst s') = _shutdown_event (fst s) /\
        (forall k, get_ssh (fst s') k = get_ssh (fst s) k \/
                   (fst k = tid /\
                    get_ssh (fst s') k = option_map ssh_stopped (get_ssh (fst s) k))) /\
        forall x, In x l ->
          get_ssh (fst s') (tid, SSHTunnel.ssh_id x)
          = option_map ssh_stopped (get_ssh (fst s) (tid, SSHTunnel.ssh_id x))).
Proof.
  destruct s as [m tr]. cbn [fst].
  eapply wp_conseq.
  { apply (wp_for_each_all l _ env
             (fun s' =>
                dnstt_tunnels (fst s') = dnstt_tunnels m /\
                config (fst s') = config m /\
                running (fst s') = running m /\
                _shutdown_event (fst s') = _shutdown_event m /\
                forall k, get_ssh (fst s') k = get_ssh m k \/
                          (fst k = tid /\
                           get_ssh (fst s') k = option_map ssh_stopped (get_ssh m k)))
             (fun x s' =>
                get_ssh (fst s') (tid, SSHTunnel.ssh_id x)
                = option_map ssh_stopped (get_ssh m (tid, SSHTunnel.ssh_id x)))).
    - intros x [m1 tr1] _ (D & C & Rn & Sh & G). cbn [fst] in *.
      apply wp_bind. eapply wp_conseq; [apply stop_ssh_exact|].
      intros ok [m2 tr2] (_ & c' & E). cbn [fst] in E. subst m2.
      apply wp_ret. cbn [fst].
      assert (N : forall k,
                 get_ssh (set_xui_client c'
                            (update_ssh (tid, SSHTunnel.ssh_id x) ssh_stopped m1)) k
                 = if key_eqb (tid, SSHTunnel.ssh_id x) k
                   then option_map ssh_stopped (get_ssh m1 k) else get_ssh m1 k).
      { intros k. now autorewrite with fleet. }
      splits; auto.
      + intros k. rewrite N.
        destruct (key_eqb_spec (tid, SSHTunnel.ssh_id x) k) as [<-|Nk]; [|apply G].
        right. split; [reflexivity|].
        destruct (G (tid, SSHTunnel.ssh_id x)) as [->|[_ ->]];
          [reflexivity | apply option_map_ssh_stopped_twice].
      + rewrite N, key_eqb_refl.
        destruct (G (tid, SSHTunnel.ssh_id x)) as [->|[_ ->]];
          [reflexivity | apply option_map_ssh_stopped_twice].
      + intros y Py. rewrite N.
        destruct (key_eqb (tid, SSHTunnel.ssh_id x) (tid, SSHTunnel.ssh_id y));
          [|exact Py].
        rewrite Py. apply option_map_ssh_stopped_twice.
    - cbn [fst]. splits; auto. }
  intros _ s' ((D & C & Rn & Sh & G) & Pl & _). splits; auto.
Qed.


Lemma stop_dnstt_exact c env s tid :
  well_keyed c (fst s) ->
  wp (stop_dnstt_tunnel tid) env s
     (fun ok s' =>
        ok = true /\
        config (fst s') = config (fst s) /\
        running (fst s') = running (fst s) /\
        _shutdown_event (fst s') = _shutdown_event (fst s) /\
        (forall t, get_dnstt (fst s') t =
                   if t =? tid then option_map dnstt_stopped (get_dnstt (fst s) t)
                   else get_dnstt (fst s) t) /\
        (forall k, get_ssh (fst s') k =
                   if fst k =? tid then option_map ssh_stopped (get_ssh (fst s) k)
                   else get_ssh (fst s) k)).
Proof.
  destruct s as [m tr]. cbn [fst]. intros (_ & WK & _).
  unfold stop_dnstt_tunnel. wp_go.
  - set (m1 := update_dnstt tid (DNSTTTunnel.set_state STOPPING) m).
    eapply wp_conseq; [apply stop_children_exact|].
    intros _ [m2 tr2] (D & C & Rn & Sh & G & Pl). cbn [fst snd] in *.
    assert (Gd : forall t, get_dnstt m2 t = get_dnstt m1 t).
    { intros t. unfold get_dnstt. now rewrite D. }
    assert (Fin : forall m3,
               m3 = update_dnstt tid dnstt_stopped m2 ->
               config m3 = config m /\ running m3 = running m /\
               _shutdown_event m3 = _shutdown_event m /\
               (forall t, get_dnstt m3 t =
                          if t =? tid then option_map dnstt_stopped (get_dnstt m t)
                          else get_dnstt m t) /\
               (forall k, get_ssh m3 k =
                          if fst k =? tid then option_map ssh_stopped (get_ssh m k)
                          else get_ssh m k)).
    { intros m3 ->. splits.
      - cbn. exact C.
      - cbn. exact Rn.
      - cbn. exact Sh.
      - intros t. rewrite get_dnstt_update_dnstt, Gd. unfold m1.
        rewrite get_dnstt_update_dnstt, (Z.eqb_sym t tid).
        destruct (tid =? t); [|reflexivity].
        destruct (get_dnstt m t) as [[]|]; reflexivity.
      - intros [t sid]. rewrite get_ssh_update_dnstt. cbn [fst].
        assert (G1 : forall k, get_ssh m1 k = get_ssh m k)
          by (intros; unfold m1; apply get_ssh_update_dnstt).
        destruct (Z.eqb_spec t tid) as [->|N].
        + destruct (get_ssh m (tid, sid)) as [r|] eqn:E.
          * assert (In r (children_of tid m1))
              by (apply (children_of_In m1 tid sid); now rewrite G1).
            destruct (WK _ _ E) as (_ & Hs & _). cbn [snd] in Hs.
            specialize (Pl r H). rewrite Hs, G1, E in Pl. exact Pl.
          * destruct (G (tid, sid)) as [->|[_ ->]]; rewrite G1, E; reflexivity.
        + destruct (G (t, sid)) as [->|[Ht _]]; [apply G1 | cbn in Ht; congruence]. }
    wp_go; (split; [reflexivity|]); now apply Fin.
  - splits; auto.
    + intros t. destruct (Z.eqb_spec t tid) as [->|]; [|reflexivity].
      match goal with H : get_dnstt m tid = None |- _ => now rewrite H end.
    + intros [t sid]. cbn [fst]. destruct (Z.eqb_spec t tid) as [->|]; [|reflexivity].
      destruct (get_ssh m (tid, sid)) as [r|] eqn:E; [|reflexivity].
      destruct (WK _ _ E) as (_ & _ & _ & _ & P). cbn [fst] in P. congruence.
Qed.

(** X13.  On a fleet whose records agree with their keys,
    [stop_dnstt_tunnel] returns [True] and stops the whole subtree: the
    parent record is left STOPPED without process and pid, and every SSH
    record under that tunnel id is left STOPPED without process, pid and
    outbound id.  Records of other tunnels, the configuration and the flags
    are untouched; for a tunnel id without a record nothing changes. *)
Theorem X13_stop_dnstt_tunnel_effect (c : Config) (env : Env)
    (m : TunnelManager.t) (tr : list event) (tunnel_id : Z) :
  well_keyed c m ->
  fst (stop_dnstt_tunnel tunnel_id env (m, tr)) = true /\
  (forall t,
      get_dnstt (fst (snd (stop_dnstt_tunnel tunnel_id env (m, tr)))) t
      = if t =? tunnel_id then option_map dnstt_stopped (get_dnstt m t)
        else get_dnstt m t) /\
  (forall k,
      get_ssh (fst (snd (stop_dnstt_tunnel tunnel_id env (m, tr)))) k
      = if fst k =? tunnel_id then option_map ssh_stopped (get_ssh m k)
        else get_ssh m k) /\
  config (fst (snd (stop_dnstt_tunnel tunnel_id env (m, tr)))) = config m /\
  running (fst (snd (stop_dnstt_tunnel tunnel_id env (m, tr)))) = running m.
Proof.
  intros W.
  destruct (stop_dnstt_exact c env (m, tr) tunnel_id W) as (Ok & C & Rn & _ & D & S).
  cbn [fst] in *. splits; auto.
Qed.

Lemma X13_stop_dnstt_tunnel_effect_witness :
  fst (stop_dnstt_tunnel 0 env_down (create_records (init clean_config), [])) = true.
Proof.
  apply (X13_stop_dnstt_tunnel_effect clean_config env_down
           (create_records (init clean_config)) [] 0).
  apply create_records_inv, init_well_keyed.
Defined.
















Lemma frame_initialize_tunnels (J : TunnelManager.t -> Prop) env s :
  stable J -> (forall m, J m -> J (create_records m)) ->
  J (fst s) -> wp initialize_tunnels env s (fun _ s' => J (fst s')).
Proof.
  destruct s as [m tr]. cbn [fst]. intros St Cr H. unfold initialize_tunnels. wp_go.
  apply (wp_for_each _ _ env (fun s => J (fst s))).
  - intros t s1 _ H1. now apply frame_bring_up.
  - cbn [fst]. now apply Cr.
Qed.

Lemma flags_stable (b b' : bool) :
  stable (fun m => running m = b /\ _shutdown_event m = b').
Proof. unfold stable. splits; intros; assumption. Qed.

(** X16.  [start()] marks the manager running and clears the shutdown
    event, whatever happens to the tunnels it tries to bring up; on a
    manager that is already running it returns at once, so a second
    [start()] creates no record, spawns no process and sends nothing. *)
Theorem X16_start_once (env env' : Env) (m : TunnelManager.t) (tr : list event) :
  (running m = true -> start env (m, tr) = (tt, (m, tr))) /\
  running (fst (snd (start env (m, tr)))) = true /\
  (running m = false -> _shutdown_event (fst (snd (start env (m, tr)))) = false) /\
  start env' (snd (start env (m, tr))) = (tt, snd (start env (m, tr))).
Proof.
  assert (A : running m = true -> start env (m, tr) = (tt, (m, tr))).
  { intros R. unfold start. mrun. now rewrite R. }
  assert (B : running m = false ->
              running (fst (snd (start env (m, tr)))) = true /\
              _shutdown_event (fst (snd (start env (m, tr)))) = false).
  { intros R.
    change (wp start env (m, tr)
              (fun _ s' => running (fst s') = true /\ _shutdown_event (fst s') = false)).
    unfold start. wp_go; [congruence|].
    apply (frame_initialize_tunnels
             (fun m => running m = true /\ _shutdown_event m = false)).
    - apply flags_stable.
    - intros m0 H. exact H.
    - cbn. auto. }
  assert (C : running (fst (snd (start env (m, tr)))) = true).
  { destruct (running m) eqn:R; [now rewrite A | now apply B]. }
  splits; auto.
  - intros R. now apply B.
  - destruct (start env (m, tr)) as [[] [m1 tr1]]. cbn [fst snd] in *.
    unfold start. mrun. now rewrite C.
Qed.

Lemma X16_start_once_witness :
  start env_ok (set_running true (init clean_config), [])
  = (tt, (set_running true (init clean_config), [])).
Proof.
  apply (proj1 (X16_start_once env_ok env_ok (set_running true (init clean_config)) [])).
  reflexivity.
Defined.


Lemma port_check_is_port_listening port : port_check (TunnelManager.is_port_listening port).
Proof.
  intros env m tr. unfold TunnelManager.is_port_listening,
    HealthChecker.is_port_listening. mrun.
  destruct (env_connect env (List.length tr) localhost port (health_timeout (config m)));
    do 2 eexists; (split; [reflexivity|]); reflexivity.
Qed.

Lemma port_check_check_dnstt_port port : port_check (check_dnstt_port port).
Proof.
  intros env m tr. unfold check_dnstt_port, HealthChecker.check_dnstt_port,
    HealthChecker.is_port_listening. mrun.
  destruct (env_connect env (List.length tr) localhost port (health_timeout (config m)));
    do 2 eexists; (split; [reflexivity|]); reflexivity.
Qed.

Lemma port_check_wait_for_port check n :
  port_check check -> port_check (wait_for_port check n).
Proof.
  intros H. induction n as [|n IH]; intros env m tr.
  - exists false, []. cbn. now rewrite app_nil_r.
  - cbn [wait_for_port]. mrun.
    destruct (H env m (tr ++ [EvSleep 1000])) as (b & evs & E & F).
    rewrite E. cbn [fst snd]. destruct b.
    + exists true, (EvSleep 1000 :: evs). mrun. rewrite <- app_assoc. auto.
    + destruct (IH env m ((tr ++ [EvSleep 1000]) ++ evs)) as (b' & evs' & E' & F').
      rewrite E'. exists b', (EvSleep 1000 :: evs ++ evs').
      rewrite <- !app_assoc. split; [reflexivity|].
      cbn. rewrite forallb_app. now rewrite F, F'.
Qed.

Lemma launch_shape cmd check env m tr :
  port_check check ->
  exists r evs,
    launch cmd check env (m, tr) = (r, (m, tr ++ evs)) /\ launch_trace cmd r evs.
Proof.
  intros H. unfold launch. mrun.
  destruct (env_popen env (List.length tr) cmd) as [p|] eqn:Ep.
  - mrun.
    set (tr1 := (tr ++ [EvPopen cmd (Some p)]) ++ [EvSleep 2000]).
    destruct (env_poll env (List.length tr1) p) eqn:El.
    + exists None, [EvPopen cmd (Some p); EvSleep 2000; EvPoll p true].
      mrun. unfold tr1. rewrite <- !app_assoc. split; [reflexivity | constructor].
    + mrun. set (tr2 := tr1 ++ [EvPoll p false]).
      destruct (H env m tr2) as (b & evs & E & F). rewrite E. cbn [fst snd].
      assert (T : forall evs', tr2 ++ evs'
                  = tr ++ EvPopen cmd (Some p) :: EvSleep 2000 :: EvPoll p false :: evs').
      { intros. unfold tr2, tr1. now rewrite <- !app_assoc. }
      destruct b.
      * mrun. exists (Some p). eexists. rewrite T. split; [reflexivity|].
        now constructor.
      * destruct (port_check_wait_for_port check 5 H env m (tr2 ++ evs))
          as (b' & evs' & E' & F').
        rewrite E'. cbn [fst snd]. rewrite <- app_assoc, T.
        destruct b'.
        -- mrun. exists (Some p). eexists. split; [reflexivity|].
           constructor. rewrite forallb_app. now rewrite F, F'.
        -- unfold abandon_child. mrun.
           match goal with
           | |- context [env_wait env ?n p (Some 5)] =>
               destruct (env_wait env n p (Some 5)) eqn:Ew
           end; cbn [negb when]; mrun.
           ++ exists None,
                (EvPopen cmd (Some p) :: EvSleep 2000 :: EvPoll p false ::
                 (evs ++ evs') ++ EvTerminate p :: [EvWait p (Some 5) true]).
              split.
              ** rewrite <- !app_assoc. cbn [app]. rewrite <- !app_assoc. reflexivity.
              ** constructor; [rewrite forallb_app; now rewrite F, F'|].
                 cbn. now rewrite Z.eqb_refl.
           ++ exists None,
                (EvPopen cmd (Some p) :: EvSleep 2000 :: EvPoll p false ::
                 (evs ++ evs') ++ EvTerminate p :: [EvWait p (Some 5) false; EvKill p]).
              split.
              ** rewrite <- !app_assoc. cbn [app]. rewrite <- !app_assoc. reflexivity.
              ** constructor; [rewrite forallb_app; now rewrite F, F'|].
                 cbn. now rewrite Z.eqb_refl.
  - exists None, [EvPopen cmd None]. mrun. split; [reflexivity | constructor].
Qed.

Lemma launch_trace_failed cmd evs :
  launch_trace cmd None evs ->
  existsb is_http evs = false /\
  forall p, existsb (spawned p) evs = true ->
            existsb (exited p) evs = true \/ existsb (terminated p) evs = true.
Proof.
  assert (Q : forall l, forallb is_wait_or_connect l = true ->
                existsb is_http l = false /\ forall p, existsb (spawned p) l = false).
  { induction l as [|e l IH]; cbn; [auto|]. intros H.
    apply andb_prop in H. destruct H as [He Hl]. destruct (IH Hl) as [A B].
    split; [|intros p]; rewrite ?A, ?B; destruct e; try discriminate; reflexivity. }
  assert (Q' : forall p l, forallb (is_reaping p) l = true ->
                existsb is_http l = false /\ forall q, existsb (spawned q) l = false).
  { induction l as [|e l IH]; cbn; [auto|]. intros H.
    apply andb_prop in H. destruct H as [He Hl]. destruct (IH Hl) as [A B].
    split; [|intros q]; rewrite ?A, ?B; destruct e; try discriminate; reflexivity. }
  intros H. inversion H as [|p|p probes reap F R|]; subst.
  - split; [reflexivity|]. intros p. cbn. discriminate.
  - split; [reflexivity|]. intros q. cbn. rewrite !orb_false_r. intros ->. now left.
  - destruct (Q _ F) as [A B]. destruct (Q' _ _ R) as [A' B']. split.
    + cbn. rewrite existsb_app. cbn. now rewrite A, A'.
    + intros q. cbn. rewrite !existsb_app. cbn. rewrite B, B', !orb_false_r.
      intros ->. right. now rewrite orb_true_r.
Qed.

(** X17.  A start that fails leaves nothing behind.  When
    [start_dnstt_tunnel] or [start_ssh_tunnel] returns [False], no record
    and no flag of the manager has changed, the panel was not contacted (an
    SSH tunnel is registered only once its process is up and its port
    open), and a child that was spawned has either exited by itself or was
    sent [terminate()]. *)
Theorem X17_failed_start_leaves_nothing (env : Env) (m : TunnelManager.t)
    (tr : list event) (tunnel_id ssh_id local_port dnstt_port socks5_port : Z) :
  (fst (start_dnstt_tunnel tunnel_id local_port env (m, tr)) = false ->
   fst (snd (start_dnstt_tunnel tunnel_id local_port env (m, tr))) = m /\
   existsb is_http
     (events_since tr (snd (start_dnstt_tunnel tunnel_id local_port env (m, tr))))
   = false /\
   forall p,
     existsb (spawned p)
       (events_since tr (snd (start_dnstt_tunnel tunnel_id local_port env (m, tr))))
     = true ->
     existsb (exited p)
       (events_since tr (snd (start_dnstt_tunnel tunnel_id local_port env (m, tr))))
     = true \/
     existsb (terminated p)
       (events_since tr (snd (start_dnstt_tunnel tunnel_id local_port env (m, tr))))
     = true) /\
  (fst (start_ssh_tunnel tunnel_id ssh_id dnstt_port socks5_port env (m, tr)) = false ->
   fst (snd (start_ssh_tunnel tunnel_id ssh_id dnstt_port socks5_port env (m, tr))) = m /\
   existsb is_http
     (events_since tr
        (snd (start_ssh_tunnel tunnel_id ssh_id dnstt_port socks5_port env (m, tr))))
   = false /\
   forall p,
     existsb (spawned p)
       (events_since tr
          (snd (start_ssh_tunnel tunnel_id ssh_id dnstt_port socks5_port env (m, tr))))
     = true ->
     existsb (exited p)
       (events_since tr
          (snd (start_ssh_tunnel tunnel_id ssh_id dnstt_port socks5_port env (m, tr))))
     = true \/
     existsb (terminated p)
       (events_since tr
          (snd (start_ssh_tunnel tunnel_id ssh_id dnstt_port socks5_port env (m, tr))))
     = true).
Proof.
  split.
  - unfold start_dnstt_tunnel. mrun.
    destruct (launch_shape (dnstt_cmd (config m) local_port) (check_dnstt_port local_port)
                env m tr (port_check_check_dnstt_port local_port))
      as (r & evs & E & L).
    rewrite E. cbn [fst snd]. destruct r as [p|].
    + mrun. destruct (get_dnstt m tunnel_id); mrun; discriminate.
    + mrun. intros _. rewrite events_since_app. split; [reflexivity|].
      now apply launch_trace_failed with (cmd := dnstt_cmd (config m) local_port).
  - unfold start_ssh_tunnel. mrun.
    destruct (launch_shape (ssh_cmd (config m) dnstt_port socks5_port)
                (TunnelManager.is_port_listening socks5_port)
                env m tr (port_check_is_port_listening socks5_port))
      as (r & evs & E & L).
    rewrite E. cbn [fst snd]. destruct r as [p|].
    + intros F. exfalso. revert F.
      match goal with
      | |- fst (?f env ?s) = false -> _ =>
          change (wp f env s (fun ok _ => ok = false -> False))
      end.
      wp_go; discriminate.
    + mrun. intros _. rewrite events_since_app. split; [reflexivity|].
      now apply launch_trace_failed
        with (cmd := ssh_cmd (config m) dnstt_port socks5_port).
Qed.

Lemma X17_failed_start_leaves_nothing_witness :
  fst (snd (start_ssh_tunnel 0 0 1080 9090 env_down (init clean_config, [])))
  = init clean_config.
Proof.
  apply (proj2 (X17_failed_start_leaves_nothing env_down (init clean_config) []
                  0 0 1080 1080 9090)).
  reflexivity.
Defined.


Lemma lift_run {S T A} (proj : T -> S) (inj : S -> T -> T) (c : M S A) env s :
  lift proj inj c env s
  = (fst (c env (proj (fst s), snd s)),
     (inj (fst (snd (c env (proj (fst s), snd s)))) (fst s),
      snd (snd (c env (proj (fst s), snd s))))).
Proof. unfold lift. destruct (c env (proj (fst s), snd s)) as [a [c' tr']]. reflexivity. Qed.

Lemma launch_spawns env m tr cmd port :
  spawns env ->
  exists p,
    env_popen env (List.length tr) cmd = Some p /\
    launch cmd (TunnelManager.is_port_listening port) env (m, tr)
    = (Some p,
       (m, tr ++ [EvPopen cmd (Some p); EvSleep 2000; EvPoll p false;
                  EvConnect localhost port (health_timeout (config m)) (Some 0)])).
Proof.
  intros (Hp & Hl & Hc). unfold launch. mrun.
  destruct (env_popen env (List.length tr) cmd) as [p|] eqn:E;
    [|exfalso; exact (Hp _ _ E)].
  exists p. split; [reflexivity|]. mrun. rewrite Hl. mrun.
  unfold TunnelManager.is_port_listening, HealthChecker.is_port_listening. mrun.
  rewrite Hc. mrun. cbn [Z.eqb]. mrun. now rewrite <- !app_assoc.
Qed.

Section PanelDown.
Variable R : Type.
Variable meth : http_method.
Variable pl : payload.
Variable classify : Z -> option json_doc -> XUIClient.verdict R.
Variable env : Env.
Hypothesis down : panel_down env.

Lemma try_endpoints_down eps c tr v :
  fst (XUIClient.try_endpoints meth pl classify eps env (c, tr)) <> XUIClient.Returned v.
Proof.
  destruct eps as [|ep eps]; [discriminate|].
  cbn [XUIClient.try_endpoints]. mrun. rewrite send_run. cbn [fst snd].
  rewrite down. discriminate.
Qed.

Lemma attempts_down retry_count failure eps todo :
  forall c tr,
    fst (XUIClient.attempts meth pl classify retry_count failure eps todo env (c, tr))
    = failure.
Proof.
  induction todo as [|n todo IH]; intros c tr; [reflexivity|].
  cbn [XUIClient.attempts]. rewrite bind_run.
  pose proof (try_endpoints_down eps c tr) as N.
  destruct (XUIClient.try_endpoints meth pl classify eps env (c, tr)) as [o [c1 tr1]].
  cbn [fst snd] in *. destruct o as [v| |]; [now elim (N v)| |];
    rewrite bind_run; destruct (_ <? _); cbn [when]; mrun; apply IH.
Qed.

Lemma with_retries_down retry_count failure eps c tr :
  fst (XUIClient.with_retries meth pl classify retry_count failure eps env (c, tr))
  = failure.
Proof.
  unfold XUIClient.with_retries. rewrite bind_run.
  destruct (XUIClient.ensure_authenticated env (c, tr)) as [ok [c1 tr1]].
  cbn [fst snd]. destruct ok; cbn [negb]; [apply attempts_down | reflexivity].
Qed.

End PanelDown.

Lemma with_retries_coop_result (R : Type) meth pl
    (classify : Z -> option json_doc -> XUIClient.verdict R) failure ep rest env c tr :
  cooperative env ->
  (forall d, exists v, classify 200 (Some d) = XUIClient.Done v) ->
  wp (XUIClient.with_retries meth pl classify 3 failure (ep :: rest)) env (c, tr)
     (fun v _ => exists d, classify 200 (Some d) = XUIClient.Done v).
Proof.
  intros H Hcl. unfold XUIClient.with_retries.
  apply wp_bind. eapply wp_conseq; [now apply ensure_authenticated_coop|].
  intros ok [c1 tr1] [-> G1]. cbn [snd negb] in *.
  change (range 3) with [0; 1; 2].
  cbn [XUIClient.attempts XUIClient.try_endpoints].
  apply wp_bind. apply wp_bind. apply (wp_send_coop env _ _ _ _ _ _ H).
  intros d ck S. destruct (Hcl d) as [v E]. rewrite E.
  apply wp_ret. apply wp_ret. eauto.
Qed.

Lemma add_coop_truthy env c tr host port remark :
  cooperative env ->
  truthy (fst (XUIClient.add_socks5_outbound host port remark 3 env (c, tr))) = true.
Proof.
  intros H.
  change (wp (XUIClient.add_socks5_outbound host port remark 3) env (c, tr)
            (fun v _ => truthy v = true)).
  unfold XUIClient.add_socks5_outbound, XUIClient.add_endpoints.
  eapply wp_conseq.
  { apply with_retries_coop_result; [exact H|]. intros d. eexists. reflexivity. }
  intros v _ [d E]. eapply classify_add_truthy. exact E.
Qed.

(** What [start_ssh_tunnel] does when the child comes up. *)
Lemma start_ssh_spawns env m tr tid sid dp sp :
  spawns env ->
  wp (start_ssh_tunnel tid sid dp sp) env (m, tr)
     (fun ok s' =>
        ok = true /\
        exists p n c',
          env_popen env (List.length tr) (ssh_cmd (config m) dp sp) = Some p /\
          fst s' =
          set_xui_client c'
            (update_ssh (tid, sid)
               (ssh_started p n
                  (fst (XUIClient.add_socks5_outbound localhost sp (ssh_remark tid sid) 3
                          env
                          (xui_client m,
                           tr ++ [EvPopen (ssh_cmd (config m) dp sp) (Some p);
                                  EvSleep 2000; EvPoll p false;
                                  EvConnect localhost sp (health_timeout (config m))
                                    (Some 0)]))))
               m)).
Proof.
  intros Sp. unfold start_ssh_tunnel. wp_step. wp_step. wp_step.
  destruct (launch_spawns env m tr (ssh_cmd (config m) dp sp) sp Sp) as (p & Ep & L).
  unfold wp at 1. rewrite L. cbn [fst snd].
  wp_step. unfold xui at 1. apply wp_lift. unfold wp at 1. cbn [fst snd].
  set (tr1 := tr ++ _).
  set (oid := fst (XUIClient.add_socks5_outbound localhost sp (ssh_remark tid sid) 3 env
                     (xui_client m, tr1))).
  wp_go.
  all: split; [reflexivity|]; exists p.
  all: try (rewrite ?update_ssh_xui, ?set_xui_client_twice; do 2 eexists;
            split; [exact Ep | reflexivity]).
  all: exists 0; eexists; split; [exact Ep|];
       rewrite (update_ssh_absent (tid, sid) _ m) by
         (autorewrite with fleet in *; assumption);
       reflexivity.
Qed.

(** X18.  Whether an SSH tunnel counts as started does not depend on the
    panel.  When the child is spawned, stays up and its port is open,
    [start_ssh_tunnel] returns [True] and marks the record RUNNING with the
    pid of the child, whatever the panel answers; the restart count and the
    ports are kept.  If the panel could not be reached the record simply
    holds no outbound id; if the panel accepts the add it holds the id
    that came back. *)
Theorem X18_start_ssh_does_not_need_the_panel (env : Env) (m : TunnelManager.t)
    (tr : list event) (tunnel_id ssh_id dnstt_port socks5_port : Z)
    (r : SSHTunnel.t) :
  spawns env ->
  get_ssh m (tunnel_id, ssh_id) = Some r ->
  fst (start_ssh_tunnel tunnel_id ssh_id dnstt_port socks5_port env (m, tr)) = true /\
  exists r',
    get_ssh (fst (snd (start_ssh_tunnel tunnel_id ssh_id dnstt_port socks5_port env
                         (m, tr)))) (tunnel_id, ssh_id) = Some r' /\
    SSHTunnel.state r' = RUNNING /\
    (exists p,
        env_popen env (List.length tr) (ssh_cmd (config m) dnstt_port socks5_port)
        = Some p /\
        SSHTunnel.process r' = Some p /\ SSHTunnel.pid r' = Some p) /\
    SSHTunnel.restart_count r' = SSHTunnel.restart_count r /\
    SSHTunnel.socks5_port r' = SSHTunnel.socks5_port r /\
    (panel_down env -> SSHTunnel.xui_outbound_id r' = None) /\
    (cooperative env -> truthy (SSHTunnel.xui_outbound_id r') = true).
Proof.
  intros Sp G.
  destruct (start_ssh_spawns env m tr tunnel_id ssh_id dnstt_port socks5_port Sp)
    as (Ok & p & n & c' & Ep & E).
  split; [exact Ok|]. rewrite E. autorewrite with fleet. rewrite key_eqb_refl, G.
  eexists. split; [reflexivity|]. cbn.
  split; [reflexivity|]. split; [eauto|]. split; [reflexivity|]. split; [reflexivity|].
  split.
  - intros D. unfold XUIClient.add_socks5_outbound. now apply with_retries_down.
  - intros C. now apply add_coop_truthy.
Qed.

Lemma X18_start_ssh_does_not_need_the_panel_witness :
  fst (start_ssh_tunnel 0 0 1080 9090 env_no_panel
         (create_records (init clean_config), [])) = true.
Proof.
  refine (proj1 (X18_start_ssh_does_not_need_the_panel env_no_panel
                   (create_records (init clean_config)) [] 0 0 1080 9090
                   (planned_ssh_record clean_config 0 0) _ _)).
  - unfold spawns. cbn. splits; intros; try reflexivity; discriminate.
  - unfold get_ssh. cbn [create_records ssh_tunnels set_ssh_tunnels set_dnstt_tunnels
      config init]. apply plan_ssh_hit; cbn; lia.
Defined.


Lemma cooperative_spawns env : cooperative env -> spawns env.
Proof. intros (A & B & C & _). unfold spawns. auto. Qed.

Lemma start_ssh_coop_exact env m tr tid sid dp sp :
  cooperative env ->
  wp (start_ssh_tunnel tid sid dp sp) env (m, tr)
     (fun _ s' =>
        exists p n oid c',
          truthy oid = true /\
          fst s' = set_xui_client c' (update_ssh (tid, sid) (ssh_started p n oid) m)).
Proof.
  intros C.
  destruct (start_ssh_spawns env m tr tid sid dp sp (cooperative_spawns env C))
    as (_ & p & n & c' & _ & E).
  unfold wp. rewrite E. do 4 eexists. split; [|reflexivity].
  now apply add_coop_truthy.
Qed.

Lemma start_dnstt_coop_exact env m tr tid port :
  cooperative env ->
  wp (start_dnstt_tunnel tid port) env (m, tr)
     (fun ok s' =>
        ok = true /\ exists p n, fst s' = update_dnstt tid (dnstt_started p n) m).
Proof.
  intros C.
  pose proof (wp_and _ env (m, tr) _ _
                (start_dnstt_exact env (m, tr) tid port)
                (start_dnstt_coop env (m, tr) tid port C)) as H.
  unfold wp in *. destruct H as [[(F & _)|(_ & p & n & E)] (Ok & _)]; [congruence|].
  split; [exact Ok|]. eauto.
Qed.

Lemma ssh_started_twice p n oid p' n' oid' r :
  ssh_started p' n' oid' (ssh_started p n oid r) = ssh_started p' n' oid' r.
Proof. now destruct r. Qed.

Lemma dnstt_started_twice p n p' n' d :
  dnstt_started p' n' (dnstt_started p n d) = dnstt_started p' n' d.
Proof. now destruct d. Qed.

Lemma brought_up_ssh_again o o1 o2 :
  (o1 = o \/ brought_up_ssh o o1) -> brought_up_ssh o1 o2 -> brought_up_ssh o o2.
Proof.
  intros [->|(p & n & oid & T & ->)] (p' & n' & oid' & T' & ->).
  - exists p', n', oid'. auto.
  - exists p', n', oid'. split; [exact T'|].
    destruct o; cbn; [now rewrite ssh_started_twice | reflexivity].
Qed.

Lemma brought_up_dnstt_again o o1 o2 :
  (o1 = o \/ brought_up_dnstt o o1) -> brought_up_dnstt o1 o2 -> brought_up_dnstt o o2.
Proof.
  intros [->|(p & n & ->)] (p' & n' & ->).
  - exists p', n'. auto.
  - exists p', n'. destruct o; cbn; [now rewrite dnstt_started_twice | reflexivity].
Qed.

(** The loop of [initialize_tunnels] over the SSH sessions of one parent,
    when everything succeeds. *)
Lemma bring_up_children_coop env tid lp (l : list Z) m tr :
  cooperative env ->
  (forall sid, In sid l -> get_ssh m (tid, sid) <> None) ->
  wp (for_each l
        (fun ssh_id =>
           ssh_tunnel <- gets (fun m => get_ssh m (tid, ssh_id)) ;;
           match ssh_tunnel with
           | None => ret tt
           | Some s =>
               start_ssh_tunnel tid ssh_id lp (SSHTunnel.socks5_port s) ;;;
               sleep 500
           end))
     env (m, tr)
     (fun _ s' =>
        (dnstt_tunnels (fst s') = dnstt_tunnels m /\
         config (fst s') = config m /\ running (fst s') = running m /\
         _shutdown_event (fst s') = _shutdown_event m /\
         forall k, get_ssh (fst s') k = get_ssh m k \/
                   (fst k = tid /\ brought_up_ssh (get_ssh m k) (get_ssh (fst s') k))) /\
        forall sid, In sid l ->
          brought_up_ssh (get_ssh m (tid, sid)) (get_ssh (fst s') (tid, sid))).
Proof.
  intros C Pres.
  eapply wp_conseq.
  { apply (wp_for_each_all l _ env
             (fun s' =>
                dnstt_tunnels (fst s') = dnstt_tunnels m /\
                config (fst s') = config m /\ running (fst s') = running m /\
                _shutdown_event (fst s') = _shutdown_event m /\
                forall k, get_ssh (fst s') k = get_ssh m k \/
                          (fst k = tid /\
                           brought_up_ssh (get_ssh m k) (get_ssh (fst s') k)))
             (fun sid s' =>
                brought_up_ssh (get_ssh m (tid, sid)) (get_ssh (fst s') (tid, sid)))).
    - intros sid [m1 tr1] Hin (D & Cf & Rn & Sh & G). cbn [fst] in *.
      wp_step. wp_step. cbn [fst snd].
      destruct (get_ssh m1 (tid, sid)) as [r|] eqn:E.
      + wp_step. eapply wp_conseq; [now apply start_ssh_coop_exact|].
        intros ok [m2 tr2] (p & n & oid & c' & T & E2). cbn [fst] in E2. subst m2.
        wp_step. cbn [fst].
        assert (N : forall k,
                   get_ssh (set_xui_client c'
                              (update_ssh (tid, sid) (ssh_started p n oid) m1)) k
                   = if key_eqb (tid, sid) k
                     then option_map (ssh_started p n oid) (get_ssh m1 k)
                     else get_ssh m1 k).
        { intros k. now autorewrite with fleet. }
        assert (B : forall k, k = (tid, sid) ->
                      brought_up_ssh (get_ssh m k)
                        (option_map (ssh_started p n oid) (get_ssh m1 k))).
        { intros k ->. apply (brought_up_ssh_again _ (get_ssh m1 (tid, sid))).
          - destruct (G (tid, sid)) as [->|[_ H]]; auto.
          - exists p, n, oid. auto. }
        splits; auto.
        * intros k. rewrite N.
          destruct (key_eqb_spec (tid, sid) k) as [<-|Nk]; [|apply G].
          right. split; [reflexivity|]. now apply B.
        * rewrite N, key_eqb_refl. now apply B.
        * intros y Py. rewrite N.
          destruct (key_eqb_spec (tid, sid) (tid, y)) as [Ey|Ny]; [|exact Py].
          rewrite <- Ey. now apply B.
      + exfalso. destruct (G (tid, sid)) as [H|[_ (p & n & oid & _ & H)]];
          rewrite E in H; symmetry in H.
        * now apply (Pres sid Hin).
        * apply (Pres sid Hin). destruct (get_ssh m (tid, sid)); [discriminate|reflexivity].
    - cbn [fst]. splits; auto. }
  intros _ s' (I & Pl & _). split; [exact I | exact Pl].
Qed.

Lemma bring_up_coop_exact env tid m tr :
  cooperative env ->
  get_dnstt m tid <> None ->
  (forall sid, In sid (range (ssh_per_dnstt (config m))) ->
               get_ssh m (tid, sid) <> None) ->
  wp (bring_up tid) env (m, tr)
     (fun _ s' =>
        config (fst s') = config m /\ running (fst s') = running m /\
        _shutdown_event (fst s') = _shutdown_event m /\
        (forall t, get_dnstt (fst s') t = get_dnstt m t \/
                   (t = tid /\ brought_up_dnstt (get_dnstt m t) (get_dnstt (fst s') t))) /\
        (forall k, get_ssh (fst s') k = get_ssh m k \/
                   (fst k = tid /\ brought_up_ssh (get_ssh m k) (get_ssh (fst s') k))) /\
        brought_up_dnstt (get_dnstt m tid) (get_dnstt (fst s') tid) /\
        forall sid, In sid (range (ssh_per_dnstt (config m))) ->
          brought_up_ssh (get_ssh m (tid, sid)) (get_ssh (fst s') (tid, sid))).
Proof.
  intros C Pd Ps. unfold bring_up. wp_step. wp_step. wp_step. wp_step. cbn [fst snd].
  destruct (get_dnstt m tid) as [d|] eqn:E; [|congruence].
  wp_step. eapply wp_conseq; [now apply start_dnstt_coop_exact|].
  intros ok [m1 tr1] (-> & p & n & E1). cbn [fst snd negb] in *. subst m1.
  wp_step. wp_step.
  set (m1 := update_dnstt tid (dnstt_started p n) m).
  eapply wp_conseq.
  { apply (bring_up_children_coop env tid (DNSTTTunnel.local_port d)
             (range (ssh_per_dnstt (config m))) m1); [exact C|].
    intros sid Hs. unfold m1. rewrite get_ssh_update_dnstt. now apply Ps. }
  intros _ [m2 tr2] ((D & Cf & Rn & Sh & G) & Pl). cbn [fst] in *.
  assert (Gd : forall t, get_dnstt m2 t = get_dnstt m1 t)
    by (intros; unfold get_dnstt; now rewrite D).
  assert (G1 : forall k, get_ssh m1 k = get_ssh m k)
    by (intros; unfold m1; apply get_ssh_update_dnstt).
  assert (B : brought_up_dnstt (get_dnstt m tid) (get_dnstt m2 tid)).
  { exists p, n. rewrite Gd. unfold m1. now rewrite get_dnstt_update_dnstt, Z.eqb_refl. }
  split; [exact Cf|]. split; [exact Rn|]. split; [exact Sh|].
  split; [|split; [|split; [rewrite <- E; exact B|]]].
  - intros t. destruct (Z.eq_dec t tid) as [->|N]; [now right|].
    left. rewrite Gd. unfold m1. rewrite get_dnstt_update_dnstt.
    now rewrite (proj2 (Z.eqb_neq tid t)) by congruence.
  - intros k. rewrite <- G1. apply G.
  - intros sid Hs. rewrite <- G1. now apply Pl.
Qed.

Lemma get_dnstt_create_records m t :
  get_dnstt (create_records m) t
  = PyDict.get Z.eqb (plan_dnstt (config m) (dnstt_tunnels m)) t.
Proof. reflexivity. Qed.

Lemma get_ssh_create_records m k :
  get_ssh (create_records m) k
  = PyDict.get key_eqb (plan_ssh (config m) (ssh_tunnels m)) k.
Proof. reflexivity. Qed.

(** [initialize_tunnels] when everything succeeds. *)
Lemma initialize_tunnels_coop_exact env m tr :
  cooperative env ->
  wp initialize_tunnels env (m, tr)
     (fun _ s' =>
        config (fst s') = config m /\ running (fst s') = running m /\
        _shutdown_event (fst s') = _shutdown_event m /\
        (forall t, 0 <= t < dnstt_count (config m) ->
           brought_up_dnstt
             (Some (DNSTTTunnel.new t (dnstt_start_port (config m) + t) STARTING))
             (get_dnstt (fst s') t)) /\
        (forall t sid,
           0 <= t < dnstt_count (config m) -> 0 <= sid < ssh_per_dnstt (config m) ->
           brought_up_ssh (Some (planned_ssh_record (config m) t sid))
             (get_ssh (fst s') (t, sid)))).
Proof.
  intros C. unfold initialize_tunnels. wp_step. wp_step. wp_step. wp_step. cbn [fst snd].
  set (mc := create_records m).
  assert (Cc : config mc = config m) by reflexivity.
  assert (Hd : forall t, 0 <= t < dnstt_count (config m) ->
                 get_dnstt mc t
                 = Some (DNSTTTunnel.new t (dnstt_start_port (config m) + t) STARTING)).
  { intros t H. unfold mc. rewrite get_dnstt_create_records. now apply plan_dnstt_hit. }
  assert (Hs : forall t sid,
                 0 <= t < dnstt_count (config m) -> 0 <= sid < ssh_per_dnstt (config m) ->
                 get_ssh mc (t, sid) = Some (planned_ssh_record (config m) t sid)).
  { intros t sid H H'. unfold mc. rewrite get_ssh_create_records. now apply plan_ssh_hit. }
  eapply wp_conseq.
  { apply (wp_for_each_all (range (dnstt_count (config mc))) _ env
             (fun s' =>
                config (fst s') = config m /\ running (fst s') = running m /\
                _shutdown_event (fst s') = _shutdown_event m /\
                (forall t, get_dnstt (fst s') t = get_dnstt mc t \/
                           brought_up_dnstt (get_dnstt mc t) (get_dnstt (fst s') t)) /\
                (forall k, get_ssh (fst s') k = get_ssh mc k \/
                           brought_up_ssh (get_ssh mc k) (get_ssh (fst s') k)))
             (fun t s' =>
                brought_up_dnstt (get_dnstt mc t) (get_dnstt (fst s') t) /\
                forall sid, In sid (range (ssh_per_dnstt (config m))) ->
                  brought_up_ssh (get_ssh mc (t, sid)) (get_ssh (fst s') (t, sid)))).
    - intros t [m1 tr1] Hin (Cf & Rn & Sh & D & G). cbn [fst] in *.
      rewrite Cc in Hin. apply range_In in Hin.
      assert (Present : forall o o' : option DNSTTTunnel.t,
                 o <> None -> o' = o \/ brought_up_dnstt o o' -> o' <> None).
      { intros o o' N [->|(p & n & ->)]; [exact N|]. destruct o; [discriminate|congruence]. }
      assert (Present' : forall o o' : option SSHTunnel.t,
                 o <> None -> o' = o \/ brought_up_ssh o o' -> o' <> None).
      { intros o o' N [->|(p & n & oid & _ & ->)]; [exact N|].
        destruct o; [discriminate|congruence]. }
      eapply wp_conseq.
      { apply bring_up_coop_exact; [exact C| |].
        - apply (Present (get_dnstt mc t)); [rewrite Hd by exact Hin; discriminate|apply D].
        - intros sid Hsid. rewrite Cf in Hsid. apply range_In in Hsid.
          apply (Present' (get_ssh mc (t, sid)));
            [rewrite Hs by assumption; discriminate | apply G]. }
      intros _ [m2 tr2] (Cf2 & Rn2 & Sh2 & D2 & G2 & Bd & Bs). cbn [fst] in *.
      assert (D3 : forall t', get_dnstt m2 t' = get_dnstt mc t' \/
                              brought_up_dnstt (get_dnstt mc t') (get_dnstt m2 t')).
      { intros t'. destruct (D2 t') as [->|[_ H]]; [apply D|].
        right. eapply brought_up_dnstt_again; [apply D | exact H]. }
      assert (G3 : forall k, get_ssh m2 k = get_ssh mc k \/
                             brought_up_ssh (get_ssh mc k) (get_ssh m2 k)).
      { intros k. destruct (G2 k) as [->|[_ H]]; [apply G|].
        right. eapply brought_up_ssh_again; [apply G | exact H]. }
      splits; try congruence; auto.
      + eapply brought_up_dnstt_again; [apply D | exact Bd].
      + intros sid Hsid. rewrite <- Cf in Hsid.
        eapply brought_up_ssh_again; [apply G | now apply Bs].
      + intros y (Py & Qy). split.
        * destruct (D2 y) as [->|[_ H]]; [exact Py|].
          eapply brought_up_dnstt_again; [right; exact Py | exact H].
        * intros sid Hsid. destruct (G2 (y, sid)) as [->|[_ H]]; [now apply Qy|].
          eapply brought_up_ssh_again; [right; now apply Qy | exact H].
    - cbn [fst]. splits; auto. }
  intros _ [m2 tr2] ((Cf & Rn & Sh & D & G) & Pl & _). cbn [fst] in *.
  splits; auto.
  - intros t H. rewrite <- (Hd t H). apply Pl. rewrite Cc. now apply range_In.
  - intros t sid H H'. rewrite <- (Hs t sid H H').
    apply Pl; [rewrite Cc|]; now apply range_In.
Qed.

(** X19.  A start in which nothing fails brings the whole plan up.  When
    every spawn succeeds, every child stays up with its port open and the
    panel accepts every request, [start()] on a manager that is not running
    leaves, for any configuration, every planned DNSTT tunnel RUNNING with
    the pid of its process on port [dnstt_start_port + tunnel_id], and
    every planned SSH session RUNNING with its pid, a non-empty outbound id
    and the port [socks_start_port + tunnel_id * stride + ssh_id]; all
    restart counts are 0. *)
Theorem X19_clean_start_brings_everything_up (env : Env) (m : TunnelManager.t)
    (tr : list event) :
  cooperative env ->
  running m = false ->
  running (fst (snd (start env (m, tr)))) = true /\
  (forall t,
      0 <= t < dnstt_count (config m) ->
      exists d,
        get_dnstt (fst (snd (start env (m, tr)))) t = Some d /\
        dnstt_up d /\ DNSTTTunnel.tunnel_id d = t /\
        DNSTTTunnel.local_port d = dnstt_start_port (config m) + t /\
        DNSTTTunnel.restart_count d = 0) /\
  (forall t sid,
      0 <= t < dnstt_count (config m) -> 0 <= sid < ssh_per_dnstt (config m) ->
      exists r,
        get_ssh (fst (snd (start env (m, tr)))) (t, sid) = Some r /\
        ssh_up r /\ SSHTunnel.tunnel_id r = t /\ SSHTunnel.ssh_id r = sid /\
        SSHTunnel.socks5_port r
        = socks_start_port (config m) + t * socks_ports_per_tunnel (config m) + sid /\
        SSHTunnel.restart_count r = 0).
Proof.
  intros C R.
  assert (H : wp start env (m, tr)
                (fun _ s' =>
                   running (fst s') = true /\
                   (forall t, 0 <= t < dnstt_count (config m) ->
                      brought_up_dnstt
                        (Some (DNSTTTunnel.new t (dnstt_start_port (config m) + t) STARTING))
                        (get_dnstt (fst s') t)) /\
                   (forall t sid,
                      0 <= t < dnstt_count (config m) ->
                      0 <= sid < ssh_per_dnstt (config m) ->
                      brought_up_ssh (Some (planned_ssh_record (config m) t sid))
                        (get_ssh (fst s') (t, sid))))).
  { unfold start. wp_go; [congruence|].
    eapply wp_conseq; [now apply initialize_tunnels_coop_exact|].
    intros _ s' (Cf & Rn & Sh & D & G). cbn [fst] in *. splits; auto. }
  unfold wp in H. destruct H as (Rn & D & G). split; [exact Rn|]. split.
  - intros t Ht. destruct (D t Ht) as (p & n & E). cbn in E.
    eexists. split; [exact E|]. unfold dnstt_up. cbn. splits; auto. discriminate.
  - intros t sid Ht Hs. destruct (G t sid Ht Hs) as (p & n & oid & T & E). cbn in E.
    eexists. split; [exact E|]. unfold ssh_up, base_socks_port. cbn.
    splits; auto. discriminate.
Qed.

Lemma X19_clean_start_brings_everything_up_witness :
  running (fst (snd (start env_ok (init clean_config, [])))) = true.
Proof.
  exact (proj1 (X19_clean_start_brings_everything_up env_ok (init clean_config) []
                  env_ok_cooperative eq_refl)).
Defined.


Lemma only_ssh_changed_update m k r1 m1 f :
  only_ssh_changed m k r1 m1 -> only_ssh_changed m k (f r1) (update_ssh k f m1).
Proof.
  intros (D & C & R & O & G). unfold only_ssh_changed. splits; auto.
  - intros k' N. rewrite get_ssh_update_ssh, key_eqb_neq by congruence. now apply O.
  - now rewrite get_ssh_update_ssh, key_eqb_refl, G.
Qed.

Lemma only_ssh_changed_xui m k r1 m1 c :
  only_ssh_changed m k r1 m1 -> only_ssh_changed m k r1 (set_xui_client c m1).
Proof. intros H. exact H. Qed.

Lemma only_ssh_changed_init m k r : get_ssh m k = Some r -> only_ssh_changed m k r m.
Proof. intros G. unfold only_ssh_changed. splits; auto. Qed.

Lemma check_ssh_exact env m tr k r d :
  get_dnstt m (fst k) = Some d -> DNSTTTunnel.state d = RUNNING ->
  get_ssh m k = Some r -> SSHTunnel.state r = RUNNING ->
  wp (check_ssh k) env (m, tr)
     (fun _ s' => exists r', only_ssh_changed m k r' (fst s') /\ ssh_check_outcome r r').
Proof.
  intros Gd Sd Gs Ss. destruct k as [tid sid]. cbn [fst snd] in *.
  pose proof (only_ssh_changed_init m (tid, sid) r Gs) as T0.
  unfold check_ssh. cbn [fst snd]. wp_step. wp_step. wp_step. wp_step. wp_step. wp_step.
  cbn [fst snd]. rewrite Gd, Gs, Sd, Ss. cbn [state_eqb negb].
  wp_step. wp_keep. wp_step. wp_keep.
  assert (Touch : forall r1 m1 tq,
             only_ssh_changed m (tid, sid) r1 m1 ->
             (forall n, ssh_check_outcome r (SSHTunnel.set_last_check n r1)) ->
             wp (touch_ssh (tid, sid) ;;; ret true) env (m1, tq)
                (fun _ s' => exists r', only_ssh_changed m (tid, sid) r' (fst s') /\
                                        ssh_check_outcome r r')).
  { intros r1 m1 tq T O. unfold touch_ssh. wp_go. eexists. split; [|apply O].
    now apply only_ssh_changed_update. }
  match goal with
  | |- context [negb ?x || negb ?y] => destruct (negb x || negb y)
  end.
  - wp_step. wp_step. cbn [fst snd].
    pose proof (only_ssh_changed_update _ _ _ _ ssh_failed T0) as T1.
    destruct (SSHTunnel.restart_count r + 1 <=? max_retries (config m)).
    + wp_step. eapply wp_conseq; [apply stop_ssh_exact|].
      intros ? [m2 ?] (_ & c2 & E2). cbn [fst] in E2. subst m2.
      pose proof (only_ssh_changed_xui _ _ _ _ c2
                    (only_ssh_changed_update _ _ _ _ ssh_stopped T1)) as T2.
      wp_step. wp_keep. wp_step.
      * wp_step. eexists. split; [exact T2|].
        right. right. destruct r. unfold halted_ssh. cbn in *. auto.
      * wp_step. eapply wp_conseq; [apply start_ssh_exact|].
        intros ? [m3 ?] [(-> & E3)|(-> & p & n & oid & c3 & E3)];
          cbn [fst] in E3; subst m3.
        -- wp_step. cbn [when]. wp_step. apply (Touch _ _ _ T2).
           intros n. right. right. destruct r. unfold halted_ssh. cbn in *. auto.
        -- wp_step. cbn [when]. wp_step. cbn [fst snd].
           eapply (Touch _ _ _
                     (only_ssh_changed_update _ _ _ _ (SSHTunnel.set_restart_count 0)
                        (only_ssh_changed_xui _ _ _ _ c3
                           (only_ssh_changed_update _ _ _ _ (ssh_started p n oid) T2)))).
           intros n'. right. left. destruct r. cbn. splits; auto. discriminate.
    + wp_step. eapply wp_conseq; [apply stop_ssh_exact|].
      intros ? [m2 ?] (_ & c2 & E2). cbn [fst] in E2. subst m2.
      pose proof (only_ssh_changed_xui _ _ _ _ c2
                    (only_ssh_changed_update _ _ _ _ ssh_stopped T1)) as T2.
      apply (Touch _ _ _ T2).
      intros n. right. right. destruct r. unfold halted_ssh. cbn in *. auto.
  - apply (Touch _ _ _ T0). intros n. left. exists n. reflexivity.
Qed.

Lemma check_ssh_unmonitored env m tr k :
  monitored_ssh m k = false -> check_ssh k env (m, tr) = (true, (m, tr)).
Proof.
  unfold monitored_ssh, check_ssh. intros H. mrun.
  destruct (get_dnstt m (fst k)) as [d|]; [|destruct (get_ssh m k); reflexivity].
  destruct (get_ssh m k) as [r|]; [|reflexivity].
  destruct (state_eqb (DNSTTTunnel.state d) RUNNING); cbn [negb andb] in *;
    [|reflexivity].
  now rewrite H.
Qed.

(** X20.  The SSH half of a monitor pass, for one record.  A record that
    is not RUNNING, or whose parent is not RUNNING, is skipped without any
    probe.  A RUNNING record under a RUNNING parent ends in one of three
    ways: found healthy, with only its last check updated; relaunched, as
    RUNNING with the new pid and restart count 0; or left STOPPED without
    process, pid and outbound id and with its restart count raised by one
    (the relaunch failed, or the count had passed [max_retries]).  No other
    record changes. *)
Theorem X20_check_ssh_outcome (env : Env) (m : TunnelManager.t) (tr : list event)
    (k : Z * Z) :
  (monitored_ssh m k = false -> check_ssh k env (m, tr) = (true, (m, tr))) /\
  (forall d r,
      get_dnstt m (fst k) = Some d -> DNSTTTunnel.state d = RUNNING ->
      get_ssh m k = Some r -> SSHTunnel.state r = RUNNING ->
      exists r',
        get_ssh (fst (snd (check_ssh k env (m, tr)))) k = Some r' /\
        ssh_check_outcome r r' /\
        (forall k', k' <> k ->
           get_ssh (fst (snd (check_ssh k env (m, tr)))) k' = get_ssh m k') /\
        dnstt_tunnels (fst (snd (check_ssh k env (m, tr)))) = dnstt_tunnels m).
Proof.
  split; [apply check_ssh_unmonitored|].
  intros d r Gd Sd Gs Ss.
  destruct (check_ssh_exact env m tr k r d Gd Sd Gs Ss) as (r' & (D & _ & _ & O & G) & T).
  exists r'. auto.
Qed.

Lemma X20_check_ssh_outcome_witness :
  exists r',
    get_ssh (fst (snd (check_ssh (0, 0) env_down (marked_running, [])))) (0, 0)
    = Some r' /\
    ssh_check_outcome (SSHTunnel.set_state RUNNING (planned_ssh_record clean_config 0 0)) r'.
Proof.
  destruct (proj2 (X20_check_ssh_outcome env_down marked_running [] (0, 0))
              (DNSTTTunnel.set_state RUNNING (DNSTTTunnel.new 0 1080 STARTING))
              (SSHTunnel.set_state RUNNING (planned_ssh_record clean_config 0 0))
              eq_refl eq_refl eq_refl eq_refl) as (r' & G & O & _).
  exists r'. split; [exact G | exact O].
Defined.


Lemma check_dnstt_unmonitored env m tr t :
  monitored_dnstt m t = false -> check_dnstt t env (m, tr) = (true, (m, tr)).
Proof.
  unfold monitored_dnstt, check_dnstt. intros H. mrun.
  destruct (get_dnstt m t) as [d|]; [|reflexivity]. now rewrite H.
Qed.

Lemma length_snoc {A} (l : list A) (a : A) : List.length (l ++ [a]) = S (List.length l).
Proof. rewrite length_app. cbn. lia. Qed.




Lemma extends_refl (P : event -> Prop) tr : extends P tr tr.
Proof. exists []. rewrite app_nil_r. split; [reflexivity | constructor]. Qed.

Lemma extends_app (P : event -> Prop) tr tr1 evs :
  extends P tr tr1 -> Forall P evs -> extends P tr (tr1 ++ evs).
Proof.
  intros (evs1 & -> & F) F'. exists (evs1 ++ evs). rewrite app_assoc.
  split; [reflexivity | now apply Forall_app].
Qed.










Lemma well_keyed_stable c : stable (well_keyed c).
Proof.
  unfold stable. splits.
  - intros k f m F (C & S & D). unfold well_keyed. splits; auto.
    intros k' r G. rewrite get_ssh_update_ssh in G. rewrite get_dnstt_update_ssh.
    destruct (key_eqb k k'); [|now apply S].
    destruct (get_ssh m k') as [r0|] eqn:E; [|discriminate].
    injection G as <-. destruct (F r0) as (F1 & F2 & _).
    destruct (S _ _ E) as (S1 & S2 & S3 & S4 & S5).
    split; [congruence|]. split; [congruence|]. split; [exact S3|]. split; [exact S4|].
    exact S5.
  - intros t f m F (C & S & D). unfold well_keyed. splits; auto.
    + intros k r G. rewrite get_ssh_update_dnstt in G.
      destruct (S _ _ G) as (S1 & S2 & S3 & S4 & S5).
      split; [exact S1|]. split; [exact S2|]. split; [exact S3|]. split; [exact S4|].
      rewrite get_dnstt_update_dnstt. destruct (t =? fst k); [|exact S5].
      destruct (get_dnstt m (fst k)); [discriminate | congruence].
    + intros t' d G. rewrite get_dnstt_update_dnstt in G.
      destruct (t =? t'); [|eauto].
      destruct (get_dnstt m t') as [d0|] eqn:E; [eauto | discriminate].
  - intros x m H. exact H.
Qed.

Lemma well_keyed_flag_stable c : flag_stable (well_keyed c).
Proof. intros b m H. split; exact H. Qed.

Lemma frame_start (J : TunnelManager.t -> Prop) env s :
  stable J -> flag_stable J -> (forall m, J m -> J (create_records m)) ->
  J (fst s) -> wp start env s (fun _ s' => J (fst s')).
Proof.
  destruct s as [m tr]. cbn [fst]. intros St F Cr H. unfold start. wp_go; [exact H|].
  apply frame_initialize_tunnels; auto. cbn [fst]. apply F, F, H.
Qed.

(** The frame rule for every operation of the manager. *)
Lemma frame_run (J : TunnelManager.t -> Prop) mu env s :
  stable J -> flag_stable J -> (forall m, J m -> J (create_records m)) ->
  J (fst s) -> wp (run mu) env s (fun _ s' => J (fst s')).
Proof.
  intros St F Cr H. destruct mu; cbn [run].
  - now apply frame_start.
  - now apply frame_initialize_tunnels.
  - apply wp_bind. eapply wp_conseq; [apply (frame_start_dnstt J St); exact H|].
    intros ? ? H1. now apply wp_ret.
  - apply wp_bind. eapply wp_conseq; [apply (frame_stop_dnstt J St); exact H|].
    intros ? ? H1. now apply wp_ret.
  - apply wp_bind. eapply wp_conseq; [apply (frame_start_ssh J St); exact H|].
    intros ? ? H1. now apply wp_ret.
  - apply wp_bind. eapply wp_conseq; [apply (frame_stop_ssh J St); exact H|].
    intros ? ? H1. now apply wp_ret.
  - now apply frame_monitor_pass.
  - now apply frame_stop.
Qed.

(** X22.  The fleet maps stay consistent whatever is called, in whatever
    order and whatever happens outside: in every state reached from a fresh
    manager, the configuration is the one given, every record is stored
    under its own ids, the ids lie within the configured counts, and every
    SSH record has a DNSTT record for its parent. *)
Theorem X22_records_agree_with_keys (c : Config) (m : TunnelManager.t) :
  reachable any_call c m -> well_keyed c m.
Proof.
  induction 1 as [|m mu env tr R IH _].
  - apply init_well_keyed.
  - apply (frame_run (well_keyed c) mu env (m, tr)).
    + apply well_keyed_stable.
    + apply well_keyed_flag_stable.
    + intros m0 H0. now apply create_records_inv.
    + exact IH.
Qed.

Lemma X22_records_agree_with_keys_witness :
  well_keyed clean_config
    (fst (snd (run (StartSsh 5 7 1080 9090) env_ok (init clean_config, [])))).
Proof.
  apply X22_records_agree_with_keys.
  apply (reach_step any_call clean_config (init clean_config) (StartSsh 5 7 1080 9090)
           env_ok []); [apply reach_init | exact I].
Defined.


(** A loop whose invariant knows the elements still to come. *)
Lemma wp_for_each_rem {S A} (l : list A) (body : A -> M S unit) env
    (I : list A -> S * list event -> Prop) :
  (forall x rest s, I (x :: rest) s -> wp (body x) env s (fun _ s' => I rest s')) ->
  forall s, I l s -> wp (for_each l body) env s (fun _ s' => I [] s').
Proof.
  intros H. induction l as [|a l IH]; intros s Hs.
  - cbn [for_each]. now apply wp_ret.
  - cbn [for_each]. apply wp_bind.
    eapply wp_conseq; [apply H; exact Hs|]. intros ? s1 I1. now apply IH.
Qed.

Lemma halted_set_stopped r : halted_ssh r -> SSHTunnel.set_state STOPPED r = r.
Proof. destruct r. unfold halted_ssh. cbn. intros (-> & _). reflexivity. Qed.

Lemma ssh_started_set_stopped p n oid r :
  ssh_started p n oid (SSHTunnel.set_state STOPPED r) = ssh_started p n oid r.
Proof. now destruct r. Qed.

Lemma restart_children_exact env m tr tid lp :
  (forall sid r, get_ssh m (tid, sid) = Some r -> halted_ssh r) ->
  wp (restart_children tid lp) env (m, tr)
     (fun _ s' =>
        dnstt_tunnels (fst s') = dnstt_tunnels m /\
        config (fst s') = config m /\ running (fst s') = running m /\
        (forall k, fst k <> tid -> get_ssh (fst s') k = get_ssh m k) /\
        forall sid, child_restarted (get_ssh m (tid, sid)) (get_ssh (fst s') (tid, sid))).
Proof.
  intros Hh. unfold restart_children. wp_step. wp_step. cbn [fst snd].
  set (I := fun (rem : list Z) (s' : TunnelManager.t * list event) =>
              NoDup rem /\
              dnstt_tunnels (fst s') = dnstt_tunnels m /\
              config (fst s') = config m /\ running (fst s') = running m /\
              (forall k, fst k <> tid -> get_ssh (fst s') k = get_ssh m k) /\
              (forall sid, In sid rem -> get_ssh (fst s') (tid, sid) = get_ssh m (tid, sid)) /\
              forall sid,
                child_restarted (get_ssh m (tid, sid)) (get_ssh (fst s') (tid, sid))).
  assert (Refl : forall o, child_restarted o o).
  { intros [r|]; cbn; auto. }
  eapply wp_conseq.
  { apply (wp_for_each_rem _ _ env I).
    - intros x rest [m1 tr1] (Nd & D & C & R & O & Rem & Rel). cbn [fst] in *.
      inversion Nd as [|? ? Nx Nd']; subst.
      assert (Ex : get_ssh m1 (tid, x) = get_ssh m (tid, x)) by (apply Rem; now left).
      wp_step. wp_step. wp_step. cbn [fst snd]. rewrite Ex.
      destruct (get_ssh m (tid, x)) as [r|] eqn:G.
      + pose proof (Hh _ _ G) as Hr.
        wp_step. wp_step. wp_step. cbn [fst snd].
        eapply wp_conseq; [apply start_ssh_exact|].
        intros ok [m2 tq] Hm2. cbn [fst] in Hm2.
        wp_step. wp_step. cbn [fst snd].
        assert (N : forall k,
                   get_ssh m2 k = get_ssh m1 k \/
                   (k = (tid, x) /\
                    exists r', get_ssh m2 k = Some r' /\
                               (r' = r \/ exists p n oid, r' = ssh_started p n oid r))).
        { intros k. destruct Hm2 as [(_ & ->)|(_ & p & n & oid & c' & ->)];
            autorewrite with fleet.
          - destruct (key_eqb_spec (tid, x) k) as [<-|Nk]; [|now left].
            right. split; [reflexivity|]. rewrite Ex. cbn.
            eexists. split; [reflexivity|]. left. now apply halted_set_stopped.
          - destruct (key_eqb_spec (tid, x) k) as [<-|Nk].
            + right. split; [reflexivity|]. rewrite Ex. cbn.
              eexists. split; [reflexivity|]. right. exists p, n, oid.
              apply ssh_started_set_stopped.
            + now left. }
        assert (Dm : dnstt_tunnels m2 = dnstt_tunnels m1 /\ config m2 = config m1 /\
                     running m2 = running m1).
        { destruct Hm2 as [(_ & ->)|(_ & p & n & oid & c' & ->)]; auto. }
        destruct Dm as (D2 & C2 & R2).
        unfold I. cbn [fst]. split; [exact Nd'|].
        split; [congruence|]. split; [congruence|]. split; [congruence|].
        split; [|split].
        * intros k Hk. destruct (N k) as [->|[-> _]]; [now apply O|].
          cbn in Hk. congruence.
        * intros sid Hs. destruct (N (tid, sid)) as [->|[E _]].
          -- apply Rem. now right.
          -- injection E as ->. contradiction.
        * intros sid. destruct (N (tid, sid)) as [->|[E (r' & -> & Hr')]]; [apply Rel|].
          injection E as ->. rewrite G. exact Hr'.
      + wp_step. wp_step. unfold I. cbn [fst]. split; [exact Nd'|].
        splits; auto. intros sid Hs. apply Rem. now right.
    - unfold I. cbn [fst]. split; [apply range_NoDup|]. splits; auto. }
  intros _ s' (_ & D & C & R & O & _ & Rel). splits; auto.
Qed.


Lemma update_dnstt_fix t f m :
  (forall d, get_dnstt m t = Some d -> f d = d) -> update_dnstt t f m = m.
Proof.
  intros H. unfold update_dnstt, get_dnstt in *.
  rewrite (update_fix _ _ _ Z.eqb_spec) by exact H. now destruct m.
Qed.

Lemma dnstt_failed_identity : keeps_dnstt_identity dnstt_failed.
Proof. intros d. now destruct d. Qed.

Ltac step_until_touch :=
  lazymatch goal with
  | |- wp (bind (touch_dnstt _) _) _ _ _ => idtac
  | _ => wp_step; step_until_touch
  end.

Lemma check_dnstt_exact c env m tr tid d :
  well_keyed c m ->
  get_dnstt m tid = Some d -> DNSTTTunnel.state d = RUNNING ->
  wp (check_dnstt tid) env (m, tr)
     (fun _ s' =>
        dnstt_check_outcome tid m (fst s') d /\
        (forall t, t <> tid -> get_dnstt (fst s') t = get_dnstt m t) /\
        (forall k, fst k <> tid -> get_ssh (fst s') k = get_ssh m k)).
Proof.
  intros W G S.
  unfold check_dnstt. wp_step. wp_step. wp_step. wp_step. cbn [fst snd].
  rewrite G, S. cbn [state_eqb negb].
  wp_step. wp_keep. wp_step. wp_keep.
  (* the end of each path: the last check is updated *)
  assert (Touch : forall d1 m1 tq (Q : bool -> TunnelManager.t * list event -> Prop),
             get_dnstt m1 tid = Some d1 ->
             (forall n tq',
                 Q true (update_dnstt tid (DNSTTTunnel.set_last_check n) m1, tq')) ->
             wp (touch_dnstt tid ;;; ret true) env (m1, tq) Q).
  { intros d1 m1 tq Q G1 HQ. unfold touch_dnstt. wp_go. apply HQ. }
  (* the paths that give the tunnel up *)
  assert (Down : forall m2 f,
             config m2 = config m ->
             (forall t, get_dnstt m2 t =
                        if t =? tid
                        then option_map dnstt_stopped
                               (get_dnstt (update_dnstt tid dnstt_failed m) t)
                        else get_dnstt (update_dnstt tid dnstt_failed m) t) ->
             (forall k, get_ssh m2 k =
                        if fst k =? tid
                        then option_map ssh_stopped
                               (get_ssh (update_dnstt tid dnstt_failed m) k)
                        else get_ssh (update_dnstt tid dnstt_failed m) k) ->
             (forall d0, halted_dnstt d0 -> halted_dnstt (f d0)) ->
             (forall d0, DNSTTTunnel.restart_count (f d0) = DNSTTTunnel.restart_count d0) ->
             dnstt_check_outcome tid m (update_dnstt tid f m2) d /\
             (forall t, t <> tid -> get_dnstt (update_dnstt tid f m2) t = get_dnstt m t) /\
             (forall k, fst k <> tid -> get_ssh (update_dnstt tid f m2) k = get_ssh m k)).
  { intros m2 f C2 D2 G2 Hf Hc. splits.
    - apply (dnstt_given_up tid m _ d (f (dnstt_stopped (dnstt_failed d)))).
      + rewrite get_dnstt_update_dnstt, Z.eqb_refl, D2, Z.eqb_refl.
        now rewrite get_dnstt_update_dnstt, Z.eqb_refl, G.
      + apply Hf, halted_dnstt_stopped.
      + rewrite Hc. now destruct d.
      + intros sid. rewrite get_ssh_update_dnstt, G2. cbn [fst].
        now rewrite Z.eqb_refl, get_ssh_update_dnstt.
    - intros t N. rewrite get_dnstt_update_dnstt.
      rewrite (proj2 (Z.eqb_neq tid t)) by congruence.
      rewrite D2, (proj2 (Z.eqb_neq t tid)) by exact N.
      rewrite get_dnstt_update_dnstt. now rewrite (proj2 (Z.eqb_neq tid t)) by congruence.
    - intros k N. rewrite get_ssh_update_dnstt, G2.
      rewrite (proj2 (Z.eqb_neq (fst k) tid)) by exact N.
      apply get_ssh_update_dnstt. }
  assert (W1 : well_keyed c (update_dnstt tid dnstt_failed m)).
  { apply (proj1 (proj2 (well_keyed_stable c))); [apply dnstt_failed_identity | exact W]. }
  match goal with
  | |- context [negb ?x || negb ?y] => destruct (negb x || negb y)
  end.
  - (* the tunnel has failed *)
    wp_step. wp_step. cbn [fst snd].
    destruct (DNSTTTunnel.restart_count d + 1 <=? max_retries (config m)).
    + wp_step. eapply wp_conseq; [apply (stop_dnstt_exact c); exact W1|].
      intros ? [m2 ?] (_ & C2 & _ & _ & D2 & G2). cbn [fst snd] in *.
      wp_step. wp_keep. wp_step.
      * (* the pause raised *)
        wp_step.
        replace m2 with (update_dnstt tid (fun d0 => d0) m2)
          by (apply update_dnstt_fix; intros; reflexivity).
        apply Down; auto.
      * wp_step. eapply wp_conseq; [apply start_dnstt_exact|].
        intros ok [m3 ?] [(-> & E3)|(-> & p & n & E3)]; cbn [fst] in E3; subst m3.
        -- (* the relaunch failed *)
           step_until_touch.
           apply (Touch (dnstt_stopped (dnstt_failed d))).
           ++ rewrite D2, Z.eqb_refl.
              now rewrite get_dnstt_update_dnstt, Z.eqb_refl, G.
           ++ intros n ?. cbn [fst]. apply Down; auto; intros d0; now destruct d0.
        -- (* the parent is up again: the cascade *)
           wp_step. wp_step.
           set (m3 := update_dnstt tid (dnstt_started p n) m2).
           eapply wp_conseq.
           { apply (restart_children_exact env m3 _ tid).
             intros sid r Hr. unfold m3 in Hr.
             rewrite get_ssh_update_dnstt, G2 in Hr. cbn [fst] in Hr.
             rewrite Z.eqb_refl in Hr.
             destruct (get_ssh (update_dnstt tid dnstt_failed m) (tid, sid));
               [|discriminate].
             injection Hr as <-. apply halted_ssh_stopped. }
           intros ? [m4 ?] (D4 & C4 & _ & O4 & R4). cbn [fst snd] in *.
           step_until_touch.
           set (m5 := update_dnstt tid (DNSTTTunnel.set_restart_count 0) m4).
           assert (Gd4 : forall t, get_dnstt m4 t = get_dnstt m3 t)
             by (intros; unfold get_dnstt; now rewrite D4).
           assert (G5 : get_dnstt m5 tid
                        = Some (DNSTTTunnel.set_restart_count 0
                                  (dnstt_started p n (dnstt_stopped (dnstt_failed d))))).
           { unfold m5. rewrite get_dnstt_update_dnstt, Z.eqb_refl, Gd4. unfold m3.
             rewrite get_dnstt_update_dnstt, Z.eqb_refl, D2, Z.eqb_refl.
             now rewrite get_dnstt_update_dnstt, Z.eqb_refl, G. }
           apply (Touch _ m5 _ _ G5). intros n' ?. cbn [fst]. splits.
           ++ eapply (dnstt_relaunched tid m _ d).
              ** rewrite get_dnstt_update_dnstt, Z.eqb_refl, G5. reflexivity.
              ** now destruct d.
              ** now destruct d.
              ** destruct d. cbn. discriminate.
              ** now destruct d.
              ** intros sid r' Hr'. rewrite get_ssh_update_dnstt in Hr'. unfold m5 in Hr'.
                 rewrite get_ssh_update_dnstt in Hr'.
                 specialize (R4 sid). rewrite Hr' in R4. unfold m3 in R4.
                 rewrite get_ssh_update_dnstt, G2 in R4. cbn [fst] in R4.
                 rewrite Z.eqb_refl, get_ssh_update_dnstt in R4.
                 destruct (get_ssh m (tid, sid)) as [r0|]; cbn in R4; [|contradiction].
                 destruct R4 as [->|(p' & n'' & oid & ->)].
                 --- left. apply halted_ssh_stopped.
                 --- right. unfold ssh_running. cbn. splits; auto. discriminate.
           ++ intros t N. rewrite get_dnstt_update_dnstt.
              rewrite (proj2 (Z.eqb_neq tid t)) by congruence. unfold m5.
              rewrite get_dnstt_update_dnstt.
              rewrite (proj2 (Z.eqb_neq tid t)) by congruence.
              rewrite Gd4. unfold m3. rewrite get_dnstt_update_dnstt.
              rewrite (proj2 (Z.eqb_neq tid t)) by congruence.
              rewrite D2, (proj2 (Z.eqb_neq t tid)) by exact N.
              rewrite get_dnstt_update_dnstt.
              now rewrite (proj2 (Z.eqb_neq tid t)) by congruence.
           ++ intros k N. rewrite get_ssh_update_dnstt. unfold m5.
              rewrite get_ssh_update_dnstt, (O4 k N). unfold m3.
              rewrite get_ssh_update_dnstt, G2.
              rewrite (proj2 (Z.eqb_neq (fst k) tid)) by exact N.
              apply get_ssh_update_dnstt.
    + (* the retries are spent *)
      wp_step. eapply wp_conseq; [apply (stop_dnstt_exact c); exact W1|].
      intros ? [m2 ?] (_ & C2 & _ & _ & D2 & G2). cbn [fst snd] in *.
      apply (Touch (dnstt_stopped (dnstt_failed d))).
      * rewrite D2, Z.eqb_refl. now rewrite get_dnstt_update_dnstt, Z.eqb_refl, G.
      * intros n ?. cbn [fst]. apply Down; auto; intros d0; now destruct d0.
  - (* the tunnel is healthy *)
    apply (Touch d m _ _ G). intros n ?. cbn [fst]. splits.
    + apply (dnstt_found_healthy tid m _ d (DNSTTTunnel.set_last_check n d)).
      * now rewrite get_dnstt_update_dnstt, Z.eqb_refl, G.
      * exists n. reflexivity.
      * intros k. apply get_ssh_update_dnstt.
    + intros t N. rewrite get_dnstt_update_dnstt.
      now rewrite (proj2 (Z.eqb_neq tid t)) by congruence.
    + intros k N. apply get_ssh_update_dnstt.
Qed.

(** X23 (TunnelManager.monitor_loop, the DNSTT half).  The monitor leaves a
    DNSTT tunnel that is not RUNNING alone.  One that it finds RUNNING it
    leaves in one of three ways: found healthy, with only the time of its
    last check changed and its sessions untouched; relaunched, RUNNING
    again with the pid of its new process and restart count 0, each of its
    sessions either halted or RUNNING with the pid of its process; or given
    up, the tunnel and all its sessions halted and its restart count one
    higher.  The other tunnels and their sessions are as they were. *)
Theorem X23_check_dnstt_outcome (c : Config) (env : Env) (m : TunnelManager.t)
    (tr : list event) (tid : Z) :
  well_keyed c m ->
  (monitored_dnstt m tid = false -> check_dnstt tid env (m, tr) = (true, (m, tr))) /\
  (forall d,
      get_dnstt m tid = Some d -> DNSTTTunnel.state d = RUNNING ->
      dnstt_check_outcome tid m (fst (snd (check_dnstt tid env (m, tr)))) d /\
      (forall t, t <> tid ->
         get_dnstt (fst (snd (check_dnstt tid env (m, tr)))) t = get_dnstt m t) /\
      (forall k, fst k <> tid ->
         get_ssh (fst (snd (check_dnstt tid env (m, tr)))) k = get_ssh m k)).
Proof.
  intros W. split; [apply check_dnstt_unmonitored|].
  intros d G S. exact (check_dnstt_exact c env m tr tid d W G S).
Qed.

Lemma X23_check_dnstt_outcome_witness :
  dnstt_check_outcome 0 marked_running
    (fst (snd (check_dnstt 0 env_down (marked_running, []))))
    (DNSTTTunnel.set_state RUNNING (DNSTTTunnel.new 0 1080 STARTING)).
Proof.
  assert (W : well_keyed clean_config marked_running).
  { unfold marked_running.
    apply (proj1 (well_keyed_stable clean_config)); [intros r; now destruct r|].
    apply (proj1 (proj2 (well_keyed_stable clean_config))); [intros d; now destruct d|].
    apply create_records_inv, init_well_keyed. }
  apply (proj2 (X23_check_dnstt_outcome clean_config env_down marked_running [] 0 W)
           (DNSTTTunnel.set_state RUNNING (DNSTTTunnel.new 0 1080 STARTING))
           eq_refl eq_refl).
Defined.

Lemma wait_or_connect_no_signal evs :
  forallb is_wait_or_connect evs = true -> existsb is_signal evs = false.
Proof.
  induction evs as [|e evs IH]; [reflexivity|]. cbn [forallb existsb].
  intros H. apply andb_prop in H as [He H]. rewrite (IH H), orb_false_r.
  now destruct e.
Qed.

(** X24.  [start_dnstt_tunnel] does not look at the record before it
    spawns.  Whenever it returns [True], a child was spawned in the call
    and no process was signalled; a record under the tunnel id is
    overwritten to hold the new child as its process and pid, RUNNING,
    whatever it held before, so a process that the record held is neither
    stopped nor remembered; and with no record under the id the manager is
    left exactly as it was although the child runs. *)
Theorem X24_start_dnstt_replaces_without_stopping (env : Env) (m : TunnelManager.t)
    (tr : list event) (tunnel_id local_port : Z) :
  fst (start_dnstt_tunnel tunnel_id local_port env (m, tr)) = true ->
  existsb is_signal
    (events_since tr (snd (start_dnstt_tunnel tunnel_id local_port env (m, tr))))
  = false /\
  exists p,
    existsb (spawned p)
      (events_since tr (snd (start_dnstt_tunnel tunnel_id local_port env (m, tr))))
    = true /\
    (forall d,
        get_dnstt m tunnel_id = Some d ->
        exists n,
          fst (snd (start_dnstt_tunnel tunnel_id local_port env (m, tr)))
          = update_dnstt tunnel_id (dnstt_started p n) m /\
          get_dnstt (fst (snd (start_dnstt_tunnel tunnel_id local_port env (m, tr))))
            tunnel_id
          = Some (dnstt_started p n d)) /\
    (get_dnstt m tunnel_id = None ->
     fst (snd (start_dnstt_tunnel tunnel_id local_port env (m, tr))) = m).
Proof.
  unfold start_dnstt_tunnel. mrun.
  destruct (launch_shape (dnstt_cmd (config m) local_port) (check_dnstt_port local_port)
              env m tr (port_check_check_dnstt_port local_port))
    as (r & evs & E & L).
  rewrite E. cbn [fst snd]. destruct r as [p|]; [|mrun; discriminate].
  inversion L as [| | |p' probes Hp]; subst.
  assert (Sg : existsb is_signal
                 (EvPopen (dnstt_cmd (config m) local_port) (Some p)
                  :: EvSleep 2000 :: EvPoll p false :: probes) = false).
  { cbn [existsb is_signal orb]. now apply wait_or_connect_no_signal. }
  assert (Sp : forall l, existsb (spawned p)
                 ((EvPopen (dnstt_cmd (config m) local_port) (Some p)
                   :: EvSleep 2000 :: EvPoll p false :: probes) ++ l) = true).
  { intros l. cbn [app existsb spawned]. now rewrite Z.eqb_refl. }
  mrun. destruct (get_dnstt m tunnel_id) as [d|] eqn:G; unfold now; mrun; intros _.
  - unfold events_since. cbn [snd].
    rewrite <- app_assoc.
    change (skipn (List.length tr) (tr ++ ?l)) with (events_since tr (m, tr ++ l)).
    rewrite events_since_app.
    split.
    + rewrite existsb_app, Sg. reflexivity.
    + exists p. split; [apply Sp|]. split.
      * intros d0 [= <-]. eexists. split; [reflexivity|].
        now rewrite get_dnstt_update_dnstt, Z.eqb_refl, G.
      * discriminate.
  - rewrite events_since_app. split; [exact Sg|].
    exists p. split; [rewrite <- (app_nil_r (_ :: _)); apply Sp|]. split.
    + discriminate.
    + reflexivity.
Qed.

Lemma X24_start_dnstt_replaces_without_stopping_witness :
  existsb is_signal
    (events_since [] (snd (start_dnstt_tunnel 0 1080 env_ok
                             (set_running true (create_records (init clean_config)), []))))
  = false.
Proof.
  apply (proj1 (X24_start_dnstt_replaces_without_stopping env_ok
                  (set_running true (create_records (init clean_config))) [] 0 1080
                  eq_refl)).
Defined.

(** The sessions of one parent, whatever the outcome of each start. *)
Lemma bring_up_children_exact env tid lp (l : list Z) m tr :
  NoDup l ->
  wp (for_each l
        (fun ssh_id =>
           ssh_tunnel <- gets (fun m => get_ssh m (tid, ssh_id)) ;;
           match ssh_tunnel with
           | None => ret tt
           | Some s =>
               start_ssh_tunnel tid ssh_id lp (SSHTunnel.socks5_port s) ;;;
               sleep 500
           end))
     env (m, tr)
     (fun _ s' =>
        dnstt_tunnels (fst s') = dnstt_tunnels m /\
        config (fst s') = config m /\
        (forall k, fst k <> tid -> get_ssh (fst s') k = get_ssh m k) /\
        (forall sid,
            get_ssh (fst s') (tid, sid) = get_ssh m (tid, sid) \/
            exists p n oid,
              get_ssh (fst s') (tid, sid)
              = option_map (ssh_started p n oid) (get_ssh m (tid, sid)))).
Proof.
  intros N.
  eapply wp_conseq.
  { apply (wp_for_each_rem l _ env
             (fun rest s =>
                NoDup rest /\
                dnstt_tunnels (fst s) = dnstt_tunnels m /\
                config (fst s) = config m /\
                (forall k, fst k <> tid -> get_ssh (fst s) k = get_ssh m k) /\
                (forall sid, In sid rest ->
                   get_ssh (fst s) (tid, sid) = get_ssh m (tid, sid)) /\
                (forall sid,
                    get_ssh (fst s) (tid, sid) = get_ssh m (tid, sid) \/
                    exists p n oid,
                      get_ssh (fst s) (tid, sid)
                      = option_map (ssh_started p n oid) (get_ssh m (tid, sid))))).
    - intros x rest [m1 tq] (Nd & D & C & O & R & A). cbn [fst] in *.
      apply NoDup_cons_iff in Nd as [Nx Nd].
      wp_step. wp_step. cbn [fst snd].
      destruct (get_ssh m1 (tid, x)) as [r|] eqn:G.
      + wp_step. eapply wp_conseq; [apply start_ssh_exact|].
        intros ok [m2 ?] [(-> & E)|(-> & p & n & oid & c' & E)];
          cbn [fst] in E; subst m2; wp_step; cbn [fst].
        * split; [exact Nd|]. split; [exact D|]. split; [exact C|].
          split; [exact O|]. split; [|exact A]. intros sid Hs. apply R. now right.
        * split; [exact Nd|]. split; [exact D|]. split; [exact C|].
          split; [|split].
          -- intros k Hk. autorewrite with fleet.
             destruct (key_eqb_spec (tid, x) k) as [<-|_]; [now elim Hk|]. now apply O.
          -- intros sid Hs. autorewrite with fleet.
             destruct (key_eqb_spec (tid, x) (tid, sid)) as [[= ->]|_];
               [contradiction|]. apply R. now right.
          -- intros sid. autorewrite with fleet.
             destruct (key_eqb_spec (tid, x) (tid, sid)) as [[= <-]|_]; [|apply A].
             right. exists p, n, oid. rewrite G, <- (R x) by now left. now rewrite G.
      + wp_step. cbn [fst].
        split; [exact Nd|]. split; [exact D|]. split; [exact C|].
        split; [exact O|]. split; [|exact A]. intros sid Hs. apply R. now right.
    - cbn [fst]. split; [exact N|]. splits; auto. }
  intros _ s' (_ & D & C & O & _ & A). auto.
Qed.

(** One parent of the third loop, whatever the outcome of its start. *)
Lemma bring_up_exact env tid m tr :
  wp (bring_up tid) env (m, tr)
     (fun _ s' =>
        config (fst s') = config m /\
        (forall t, t <> tid -> get_dnstt (fst s') t = get_dnstt m t) /\
        (forall k, fst k <> tid -> get_ssh (fst s') k = get_ssh m k) /\
        ((get_dnstt (fst s') tid = get_dnstt m tid /\
          forall sid, get_ssh (fst s') (tid, sid) = get_ssh m (tid, sid)) \/
         exists p n,
           get_dnstt (fst s') tid = option_map (dnstt_started p n) (get_dnstt m tid) /\
           forall sid,
             get_ssh (fst s') (tid, sid) = get_ssh m (tid, sid) \/
             exists q k oid,
               get_ssh (fst s') (tid, sid)
               = option_map (ssh_started q k oid) (get_ssh m (tid, sid)))).
Proof.
  unfold bring_up. wp_step. wp_step. wp_step. wp_step. cbn [fst snd].
  destruct (get_dnstt m tid) as [d|] eqn:E.
  - wp_step. eapply wp_conseq; [apply start_dnstt_exact|].
    intros ok [m1 ?] [(-> & E1)|(-> & p & n & E1)]; cbn [fst snd negb] in *; subst m1.
    + wp_step. cbn [fst]. splits; auto.
    + wp_step. wp_step.
      eapply wp_conseq.
      { apply (bring_up_children_exact env tid (DNSTTTunnel.local_port d)
                 (range (ssh_per_dnstt (config m)))). apply range_NoDup. }
      intros _ [m2 ?] (D & C & O & A). cbn [fst] in *.
      assert (Gd : forall t, get_dnstt m2 t
                             = get_dnstt (update_dnstt tid (dnstt_started p n) m) t)
        by (intros; unfold get_dnstt; now rewrite D).
      split; [exact C|]. split; [|split].
      * intros t Ht. rewrite Gd, get_dnstt_update_dnstt.
        now rewrite (proj2 (Z.eqb_neq tid t)) by congruence.
      * intros k Hk. rewrite (O k Hk). apply get_ssh_update_dnstt.
      * right. exists p, n. split.
        -- now rewrite Gd, get_dnstt_update_dnstt, Z.eqb_refl, E.
        -- intros sid. specialize (A sid). rewrite !get_ssh_update_dnstt in A. exact A.
  - wp_step. cbn [fst]. splits; auto.
Qed.

Lemma initialize_tunnels_exact env m tr :
  wp initialize_tunnels env (m, tr)
     (fun _ s' =>
        forall t, 0 <= t < dnstt_count (config m) ->
                  tunnel_after_initialize (config m) (fst s') t).
Proof.
  unfold initialize_tunnels. wp_step. wp_step. wp_step. wp_step. cbn [fst snd].
  set (mc := create_records m).
  assert (Cc : config mc = config m) by reflexivity.
  assert (Hd : forall t, 0 <= t < dnstt_count (config m) ->
                 get_dnstt mc t
                 = Some (DNSTTTunnel.new t (dnstt_start_port (config m) + t) STARTING)).
  { intros t H. unfold mc. rewrite get_dnstt_create_records. now apply plan_dnstt_hit. }
  assert (Hs : forall t sid,
                 0 <= t < dnstt_count (config m) -> 0 <= sid < ssh_per_dnstt (config m) ->
                 get_ssh mc (t, sid) = Some (planned_ssh_record (config m) t sid)).
  { intros t sid H1 H2. unfold mc. rewrite get_ssh_create_records.
    now apply plan_ssh_hit. }
  rewrite Cc.
  eapply wp_conseq.
  { apply (wp_for_each_rem (range (dnstt_count (config m))) bring_up env
             (fun rest s =>
                NoDup rest /\
                (forall t, In t rest ->
                   get_dnstt (fst s) t = get_dnstt mc t /\
                   forall sid, get_ssh (fst s) (t, sid) = get_ssh mc (t, sid)) /\
                (forall t, 0 <= t < dnstt_count (config m) -> ~ In t rest ->
                   tunnel_after_initialize (config m) (fst s) t))).
    - intros x rest [m1 tq] (Nd & R & A). cbn [fst] in *.
      apply NoDup_cons_iff in Nd as [Nx Nd].
      eapply wp_conseq; [apply bring_up_exact|].
      intros _ [m2 ?] (_ & Od & Os & B). cbn [fst] in *.
      split; [exact Nd|]. split.
      + intros t Ht. assert (t <> x) by (intros ->; contradiction).
        destruct (R t (or_intror Ht)) as [R1 R2]. split.
        * now rewrite Od.
        * intros sid. now rewrite Os.
      + intros t Ht Nt. destruct (Z.eq_dec t x) as [->|Ne].
        * destruct (R x (or_introl eq_refl)) as [R1 R2].
          destruct B as [(B1 & B2)|(p & n & B1 & B2)].
          -- apply tunnel_not_started.
             ++ now rewrite B1, R1, Hd.
             ++ intros sid Hsid. now rewrite B2, R2, Hs.
          -- apply (tunnel_started _ _ _ p n).
             ++ now rewrite B1, R1, Hd.
             ++ intros sid Hsid. specialize (B2 sid). rewrite R2, Hs in B2 by assumption.
                exact B2.
        * assert (Nt' : ~ In t (x :: rest)) by (intros [->|?]; [now elim Ne | contradiction]).
          destruct (A t Ht Nt') as [A1 A2|p n A1 A2].
          -- apply tunnel_not_started.
             ++ now rewrite Od.
             ++ intros sid Hsid. rewrite Os by (cbn; exact Ne). now apply A2.
          -- apply (tunnel_started _ _ _ p n).
             ++ now rewrite Od.
             ++ intros sid Hsid. rewrite Os by (cbn; exact Ne). now apply A2.
    - cbn [fst]. split; [apply range_NoDup|]. split.
      + intros t _. auto.
      + intros t Ht Nt. elim Nt. now apply range_In. }
  intros _ s' (_ & _ & A) t Ht. apply A; [exact Ht | intros []].
Qed.

(** X25.  What [initialize_tunnels] leaves of each planned tunnel, whatever
    happens to the processes and the panel.  Either the DNSTT process did
    not come up: then the record is still as created, in state STARTING
    without process, none of its sessions was started (each is as created,
    STOPPED), and the monitor loop, which looks at RUNNING tunnels only,
    passes over the tunnel and its sessions without a probe, so the tunnel
    is not retried.  Or it came up: then the record is RUNNING with its
    process and each session is either as created or started. *)
Theorem X25_initialize_tunnels_outcome (env : Env) (m : TunnelManager.t)
    (tr : list event) (t : Z) :
  0 <= t < dnstt_count (config m) ->
  tunnel_after_initialize (config m) (fst (snd (initialize_tunnels env (m, tr)))) t /\
  (get_dnstt (fst (snd (initialize_tunnels env (m, tr)))) t
   = Some (DNSTTTunnel.new t (dnstt_start_port (config m) + t) STARTING) ->
   forall env' tr' sid,
     check_dnstt t env' (fst (snd (initialize_tunnels env (m, tr))), tr')
     = (true, (fst (snd (initialize_tunnels env (m, tr))), tr')) /\
     check_ssh (t, sid) env' (fst (snd (initialize_tunnels env (m, tr))), tr')
     = (true, (fst (snd (initialize_tunnels env (m, tr))), tr'))).
Proof.
  intros Ht. split; [now apply (initialize_tunnels_exact env m tr)|].
  intros G env' tr' sid. split.
  - apply check_dnstt_unmonitored. unfold monitored_dnstt. now rewrite G.
  - apply check_ssh_unmonitored. unfold monitored_ssh. cbn [fst]. rewrite G.
    now destruct (get_ssh _ (t, sid)).
Qed.

Lemma X25_initialize_tunnels_outcome_witness :
  tunnel_after_initialize clean_config
    (fst (snd (initialize_tunnels env_down (init clean_config, [])))) 0.
Proof.
  apply (proj1 (X25_initialize_tunnels_outcome env_down (init clean_config) [] 0
                  ltac:(cbn; lia))).
Defined.

Lemma terminate_group_targets env m tr p :
  exists evs,
    terminate_group p env (m, tr) = (tt, (m, tr ++ evs)) /\
    Forall (fun e => forall q, signal_target e = Some q -> q = p) evs.
Proof.
  assert (K : forall s b, forall q, signal_target (EvKillpg p s b) = Some q -> q = p)
    by (intros s b q [= <-]; reflexivity).
  assert (N : forall e, signal_target e = None ->
                        forall q, signal_target e = Some q -> q = p)
    by (intros e -> q; discriminate).
  unfold terminate_group. mrun.
  repeat (match goal with
          | |- context [match ?x with _ => _ end] => destruct x eqn:?
          | |- context [if ?x then _ else _] => destruct x eqn:?
          end; mrun).
  all: rewrite <- ?app_assoc; cbn [app]; eexists; (split; [reflexivity|]).
  all: repeat constructor; try (intros q [= <-]; reflexivity); intros q; discriminate.
Qed.

Lemma stop_process_targets env m tr pr pid :
  exists evs,
    stop_process pr pid env (m, tr) = (tt, (m, tr ++ evs)) /\
    Forall (fun e => forall q, signal_target e = Some q -> pid = Some q) evs.
Proof.
  unfold stop_process.
  destruct pr as [x|]; [destruct pid as [p|]; [destruct (p =? 0)|]|].
  4: exists []; rewrite app_nil_r; split; [reflexivity | constructor].
  3: exists []; rewrite app_nil_r; split; [reflexivity | constructor].
  1: exists []; rewrite app_nil_r; split; [reflexivity | constructor].
  destruct (terminate_group_targets env m tr p) as (evs & E & F).
  exists evs. split; [exact E|]. eapply Forall_impl; [|exact F].
  cbn beta. intros e H q Hq. now rewrite (H q Hq).
Qed.

Lemma requests_no_signal c meth pl eps evs :
  Forall (is_request_of c meth pl eps) evs ->
  Forall (fun e => signal_target e = None) evs.
Proof.
  intros F. eapply Forall_impl; [|exact F]. intros e H. now destruct e.
Qed.

Lemma remove_outbound_quiet oid n env c tr :
  exists v c' evs,
    XUIClient.remove_outbound oid n env (c, tr) = (v, (c', tr ++ evs)) /\
    Forall (fun e => signal_target e = None) evs.
Proof.
  unfold XUIClient.remove_outbound.
  destruct (with_retries_outcome _ DELETE NoPayload XUIClient.classify_remove eq_refl
              c (XUIClient.remove_endpoints oid) n false env c tr
              (same_account_refl c)) as (v & c' & evs & E & _ & F & _).
  exists v, c', evs. split; [exact E|]. eapply requests_no_signal, F.
Qed.

Lemma reload_xray_quiet n env c tr :
  exists v c' evs,
    XUIClient.reload_xray n env (c, tr) = (v, (c', tr ++ evs)) /\
    Forall (fun e => signal_target e = None) evs.
Proof.
  unfold XUIClient.reload_xray.
  destruct (with_retries_outcome _ POST NoPayload XUIClient.classify_reload eq_refl
              c XUIClient.reload_endpoints n false env c tr
              (same_account_refl c)) as (v & c' & evs & E & _ & F & _).
  exists v, c', evs. split; [exact E|]. eapply requests_no_signal, F.
Qed.

Lemma extends_weaken (P P' : event -> Prop) tr tr' :
  (forall e, P e -> P' e) -> extends P tr tr' -> extends P' tr tr'.
Proof.
  intros H (evs & -> & F). exists evs. split; [reflexivity|].
  eapply Forall_impl; [|exact F]. exact H.
Qed.

Lemma extends_trans (P : event -> Prop) tr tr1 tr2 :
  extends P tr tr1 -> extends P tr1 tr2 -> extends P tr tr2.
Proof. intros H (evs & -> & F). now apply extends_app. Qed.

(** The signals of [stop_ssh_tunnel] go to the pid of the record under the
    key. *)
Lemma stop_ssh_targets env m tr t sid :
  wp (stop_ssh_tunnel t sid) env (m, tr)
     (fun _ s' =>
        extends (fun e => forall q, signal_target e = Some q ->
                   exists r, get_ssh m (t, sid) = Some r /\ SSHTunnel.pid r = Some q)
          tr (snd s')).
Proof.
  set (P := fun e => forall q, signal_target e = Some q ->
                   exists r, get_ssh m (t, sid) = Some r /\ SSHTunnel.pid r = Some q).
  assert (Quiet : forall evs, Forall (fun e => signal_target e = None) evs -> Forall P evs).
  { intros evs F. eapply Forall_impl; [|exact F]. intros e H q Hq. congruence. }
  unfold stop_ssh_tunnel. wp_step. wp_step. cbn [fst snd].
  destruct (get_ssh m (t, sid)) as [r|] eqn:G; [|wp_step; apply extends_refl].
  wp_step. wp_step. wp_step. wp_step. wp_step. cbn [fst snd].
  rewrite get_ssh_update_ssh, key_eqb_refl, G. cbn [option_map].
  assert (Tail : forall m1 tq,
             extends P tr tq ->
             wp (stop_process (SSHTunnel.process (SSHTunnel.set_state STOPPING r))
                   (SSHTunnel.pid (SSHTunnel.set_state STOPPING r))) env (m1, tq)
                (fun _ s1 =>
                   wp (modify (update_ssh (t, sid) ssh_stopped) ;;; ret true) env s1
                      (fun _ s' => extends P tr (snd s')))).
  { intros m1 tq X. unfold wp at 1.
    destruct (stop_process_targets env m1 tq
                (SSHTunnel.process (SSHTunnel.set_state STOPPING r))
                (SSHTunnel.pid (SSHTunnel.set_state STOPPING r))) as (evs & E & F).
    rewrite E. cbn [fst snd]. wp_go. cbn [snd].
    apply extends_app; [exact X|]. eapply Forall_impl; [|exact F].
    intros e H q Hq. exists r. split; [reflexivity|]. specialize (H q Hq).
    now destruct r. }
  wp_step.
  destruct (SSHTunnel.xui_outbound_id (SSHTunnel.set_state STOPPING r)) as [oid|].
  - destruct (truthy (Some oid)).
    + wp_step. unfold xui at 1. apply wp_lift. unfold wp at 1. cbn [fst snd].
      destruct (remove_outbound_quiet oid 3 env
                  (xui_client (update_ssh (t, sid) (SSHTunnel.set_state STOPPING) m)) tr)
        as (v & c1 & evs1 & E1 & F1).
      rewrite E1. cbn [fst snd].
      wp_step. unfold xui at 1. apply wp_lift. unfold wp at 1. cbn [fst snd].
      match goal with
      | |- context [XUIClient.reload_xray 3 env (?c, ?q)] =>
          destruct (reload_xray_quiet 3 env c q) as (v2 & c2 & evs2 & E2 & F2)
      end.
      rewrite E2. cbn [fst snd]. wp_step.
      apply Tail. apply extends_app; [|now apply Quiet].
      apply extends_app; [apply extends_refl | now apply Quiet].
    + wp_step. apply Tail, extends_refl.
  - wp_step. apply Tail, extends_refl.
Qed.

Lemma pids_within_refl m : pids_within m m.
Proof. split; eauto. Qed.

Lemma pids_within_trans m m1 m2 :
  pids_within m m1 -> pids_within m1 m2 -> pids_within m m2.
Proof.
  intros [D1 S1] [D2 S2]. split.
  - intros t d2 q G P. destruct (D2 t d2 q G P) as (d1 & G1 & P1). eauto.
  - intros k r2 q G P. destruct (S2 k r2 q G P) as (r1 & G1 & P1). eauto.
Qed.

Lemma pids_within_update_ssh m k f :
  (forall r, SSHTunnel.pid (f r) = SSHTunnel.pid r \/ SSHTunnel.pid (f r) = None) ->
  pids_within m (update_ssh k f m).
Proof.
  intros H. split.
  - intros t d1 q G P. rewrite get_dnstt_update_ssh in G. eauto.
  - intros k' r1 q G P. rewrite get_ssh_update_ssh in G.
    destruct (key_eqb k k'); [|eauto].
    destruct (get_ssh m k') as [r|]; [|discriminate]. injection G as <-.
    exists r. split; [reflexivity|]. destruct (H r) as [E|E]; congruence.
Qed.

Lemma pids_within_update_dnstt m t f :
  (forall d, DNSTTTunnel.pid (f d) = DNSTTTunnel.pid d \/ DNSTTTunnel.pid (f d) = None) ->
  pids_within m (update_dnstt t f m).
Proof.
  intros H. split.
  - intros t' d1 q G P. rewrite get_dnstt_update_dnstt in G.
    destruct (t =? t'); [|eauto].
    destruct (get_dnstt m t') as [d|]; [|discriminate]. injection G as <-.
    exists d. split; [reflexivity|]. destruct (H d) as [E|E]; congruence.
  - intros k r1 q G P. rewrite get_ssh_update_dnstt in G. eauto.
Qed.

Lemma pids_within_xui m c : pids_within m (set_xui_client c m).
Proof. split; intros; autorewrite with fleet in *; eauto. Qed.

(** The signals of [stop_ssh_tunnel], with what it leaves of the pids. *)
Lemma stop_ssh_signals env m tr t sid :
  wp (stop_ssh_tunnel t sid) env (m, tr)
     (fun _ s' =>
        pids_within m (fst s') /\
        extends (fun e => forall q, signal_target e = Some q ->
                   exists r, get_ssh m (t, sid) = Some r /\ SSHTunnel.pid r = Some q)
          tr (snd s')).
Proof.
  apply wp_and; [|apply stop_ssh_targets].
  eapply wp_conseq; [apply stop_ssh_exact|].
  intros _ s' (_ & c' & ->). cbn [fst].
  eapply pids_within_trans; [|apply pids_within_xui].
  apply pids_within_update_ssh. intros r. now right.
Qed.

(** The signals of [stop_dnstt_tunnel] go to pids recorded under the
    tunnel. *)
Lemma stop_dnstt_signals env m tr tid :
  wp (stop_dnstt_tunnel tid) env (m, tr)
     (fun _ s' =>
        pids_within m (fst s') /\
        extends (fun e => forall q, signal_target e = Some q -> recorded_under m tid q)
          tr (snd s')).
Proof.
  set (P := fun e => forall q, signal_target e = Some q -> recorded_under m tid q).
  unfold stop_dnstt_tunnel. wp_step. wp_step. cbn [fst snd].
  destruct (get_dnstt m tid) as [d|] eqn:G;
    [|wp_step; split; [apply pids_within_refl | apply extends_refl]].
  wp_step. wp_step. wp_step. wp_step. wp_step. cbn [fst snd].
  set (m0 := update_dnstt tid (DNSTTTunnel.set_state STOPPING) m).
  assert (W0 : pids_within m m0).
  { apply pids_within_update_dnstt. intros d0. left. now destruct d0. }
  eapply wp_conseq.
  { apply (wp_for_each _ _ env
             (fun s => pids_within m (fst s) /\ extends P tr (snd s))).
    - intros x [m1 tq] _ (W1 & X1). cbn [fst snd] in *. wp_step.
      eapply wp_conseq; [apply stop_ssh_signals|].
      intros _ [m2 tq2] (W2 & X2). cbn [fst snd] in *. wp_step. cbn [fst snd]. split.
      + eapply pids_within_trans; eassumption.
      + eapply extends_trans; [exact X1|].
        eapply extends_weaken; [|exact X2]. cbn beta.
        intros e H q Hq. destruct (H q Hq) as (r1 & G1 & P1).
        destruct (proj2 W1 _ _ _ G1 P1) as (r & Gr & Pr).
        right. eauto.
    - cbn [fst snd]. split; [exact W0 | apply extends_refl]. }
  intros _ [m1 tq] (W1 & X1). cbn [fst snd] in *.
  wp_step. wp_step. wp_step. cbn [fst snd].
  destruct (get_dnstt m1 tid) as [d1|] eqn:G1.
  - unfold wp at 1.
    destruct (stop_process_targets env m1 tq (DNSTTTunnel.process d1)
                (DNSTTTunnel.pid d1)) as (evs & E & F).
    rewrite E. cbn [fst snd]. wp_go. cbn [fst snd]. split.
    + eapply pids_within_trans; [exact W1|].
      apply pids_within_update_dnstt. intros d0. now right.
    + apply extends_app; [exact X1|]. eapply Forall_impl; [|exact F].
      intros e H q Hq. specialize (H q Hq).
      destruct (proj1 W1 _ _ _ G1 H) as (d0 & Gd & Pd). left. eauto.
  - wp_go. cbn [fst snd]. split; [|exact X1].
    eapply pids_within_trans; [exact W1|].
    apply pids_within_update_dnstt. intros d0. now right.
Qed.

(** The signals of [stop()] go to pids recorded in the fleet. *)
Lemma stop_signals env m tr :
  wp stop env (m, tr)
     (fun _ s' =>
        extends (fun e => forall q, signal_target e = Some q ->
                   exists t, recorded_under m t q)
          tr (snd s')).
Proof.
  set (P := fun e => forall q, signal_target e = Some q -> exists t, recorded_under m t q).
  unfold stop. wp_step. wp_step. cbn [fst snd].
  destruct (running m); cbn [negb]; [|wp_step; apply extends_refl].
  wp_step. wp_step. wp_step. wp_step. wp_step. wp_step. cbn [fst snd].
  set (m0 := set_shutdown_event true (set_running false m)).
  eapply wp_conseq.
  { apply (wp_for_each _ _ env
             (fun s => pids_within m (fst s) /\ extends P tr (snd s))).
    - intros t [m1 tq] _ (W1 & X1). cbn [fst snd] in *. wp_step.
      eapply wp_conseq; [apply stop_dnstt_signals|].
      intros _ [m2 tq2] (W2 & X2). cbn [fst snd] in *. wp_step. cbn [fst snd]. split.
      + eapply pids_within_trans; eassumption.
      + eapply extends_trans; [exact X1|].
        eapply extends_weaken; [|exact X2]. cbn beta.
        intros e H q Hq. exists t.
        destruct (H q Hq) as [(d1 & G1 & P1)|(sid & r1 & G1 & P1)].
        * destruct (proj1 W1 _ _ _ G1 P1) as (d & Gd & Pd). left. eauto.
        * destruct (proj2 W1 _ _ _ G1 P1) as (r & Gr & Pr). right. eauto.
    - cbn [fst snd]. split; [|apply extends_refl].
      split; intros; eauto. }
  intros _ s' (_ & X). exact X.
Qed.

Lemma extends_events_since {S} (P : event -> Prop) tr (s : S * list event) :
  extends P tr (snd s) -> Forall P (events_since tr s).
Proof.
  destruct s as [x tr']. cbn [snd]. intros (evs & -> & F).
  now rewrite events_since_app.
Qed.

(** X26.  The stop operations signal only what they are stopping.
    Whatever the processes and the panel do, every signal that
    [stop_ssh_tunnel] sends goes to the pid held by the record under its
    key; every signal that [stop_dnstt_tunnel] sends goes to the pid of
    that tunnel's DNSTT record or of one of its SSH records; and every
    signal of [stop()] goes to a pid recorded in the fleet.  A record
    without a pid is stopped without any signal. *)
Theorem X26_stop_signals_own_processes (env : Env) (m : TunnelManager.t)
    (tr : list event) (tunnel_id ssh_id : Z) :
  Forall (fun e => forall q, signal_target e = Some q ->
            exists r, get_ssh m (tunnel_id, ssh_id) = Some r /\ SSHTunnel.pid r = Some q)
    (events_since tr (snd (stop_ssh_tunnel tunnel_id ssh_id env (m, tr)))) /\
  Forall (fun e => forall q, signal_target e = Some q -> recorded_under m tunnel_id q)
    (events_since tr (snd (stop_dnstt_tunnel tunnel_id env (m, tr)))) /\
  Forall (fun e => forall q, signal_target e = Some q -> exists t, recorded_under m t q)
    (events_since tr (snd (stop env (m, tr)))).
Proof.
  split; [|split].
  - apply extends_events_since. apply (stop_ssh_targets env m tr tunnel_id ssh_id).
  - apply extends_events_since. apply (stop_dnstt_signals env m tr tunnel_id).
  - apply extends_events_since. apply (stop_signals env m tr).
Qed.

